(** * CHECLabPy.core.io: buffered DL1 writer, monitor alignment, DL1 reader

    A shallow embedding of [CHECLabPy/core/io.py].  Python objects are
    records, mutation is explicit state passing, exceptions are the
    [Raise] constructor of [result].  The pandas, numpy and builtin
    functions the module calls but does not define are the fields of
    the class [Pandas]; the definitions below are stated for every
    instance of it. *)

From Stdlib Require Import ZArith List String Ascii Bool Lia Sorting.Sorted.
Import ListNotations.
Open Scope string_scope.
Open Scope Z_scope.
Open Scope list_scope.

(** ** Exceptions and results *)

Inductive exn : Type :=
| FileNotFoundError   (* subclass of OSError, of which IOError is an alias *)
| IOError
| UnicodeDecodeError  (* subclass of ValueError *)
| IndexError
| KeyError
| TypeError
| AttributeError
| MemoryError
| ValueError
| NotModelled         (* the input leaves the modelled fragment of pandas *)
| OutOfFuel.          (* the loop bound of the model was too small *)

Inductive result (A : Type) : Type :=
| Ok (a : A)
| Raise (e : exn).
Arguments Ok {A} a.
Arguments Raise {A} e.

Definition bind {A B : Type} (c : result A) (k : A -> result B) : result B :=
  match c with
  | Ok a => k a
  | Raise e => Raise e
  end.

Notation "x <- c ;; k" := (bind c (fun x => k))
  (at level 61, c at next level, right associativity).
Notation "' pat <- c ;; k" := (bind c (fun x => match x with pat => k end))
  (at level 61, pat pattern, c at next level, right associativity).

(** [except IOError] and [except OSError] catch exactly these. *)
Definition is_IOError (e : exn) : bool :=
  match e with
  | FileNotFoundError | IOError => true
  | _ => false
  end.

(** ** Strings *)

Definition newline : ascii := ascii_of_nat 10.
Definition space : ascii := " "%char.

(** [s.split(" ")] *)
Fixpoint split_space (s : string) : list string :=
  match s with
  | EmptyString => [EmptyString]
  | String c s' =>
      if Ascii.eqb c space then EmptyString :: split_space s'
      else match split_space s' with
           | h :: t => String c h :: t
           | [] => [String c EmptyString]
           end
  end.

(** [s.replace('\n', '')] *)
Fixpoint remove_newlines (s : string) : string :=
  match s with
  | EmptyString => EmptyString
  | String c s' =>
      if Ascii.eqb c newline then remove_newlines s'
      else String c (remove_newlines s')
  end.

(** [pat in s] *)
Fixpoint contains (pat s : string) : bool :=
  prefix pat s ||
  match s with
  | EmptyString => false
  | String _ s' => contains pat s'
  end.

Definition mem_string (c : string) (l : list string) : bool :=
  existsb (String.eqb c) l.

(** ** Values and data frames *)

(** A cell.  [VFloat m e] is the finite double [m * 2^e]; [VTime t] is a
    [pd.Timestamp], in nanoseconds since the epoch; [VNaN] is NaN or NaT.
    Integers are numpy [int64] cells whose overflow is not modelled; the
    unsigned casts of [astype] are written out. *)
Inductive value : Type :=
| VInt (z : Z)
| VFloat (m e : Z)
| VTime (t : Z)
| VNaN.

Definition row : Type := list (string * value).

Fixpoint get_cell (c : string) (r : row) : value :=
  match r with
  | [] => VNaN
  | (k, v) :: r' => if String.eqb k c then v else get_cell c r'
  end.

Fixpoint set_cell (c : string) (v : value) (r : row) : row :=
  match r with
  | [] => [(c, v)]
  | (k, v') :: r' => if String.eqb k c then (k, v) :: r' else (k, v') :: set_cell c v r'
  end.

(** A [pd.DataFrame]: the column labels and the rows, each under its index
    label.  A cell a row does not hold reads as NaN. *)
Record DataFrame : Type := {
  columns : list string;
  rows : list (Z * row)
}.

Definition nrows (df : DataFrame) : Z := Z.of_nat (List.length (rows df)).

Definition add_column (c : string) (cols : list string) : list string :=
  if mem_string c cols then cols else cols ++ [c].

Fixpoint find_label (label : Z) (rs : list (Z * row)) : option row :=
  match rs with
  | [] => None
  | (i, r) :: rs' => if Z.eqb i label then Some r else find_label label rs'
  end.

(** [df.loc[label, c]] *)
Definition loc (label : Z) (c : string) (df : DataFrame) : result value :=
  if mem_string c (columns df) then
    match find_label label (rows df) with
    | Some r => Ok (get_cell c r)
    | None => Raise KeyError
    end
  else Raise KeyError.

(** [df.loc[:, c]] *)
Definition loc_all (c : string) (df : DataFrame) : result (list value) :=
  if mem_string c (columns df) then Ok (map (fun ir => get_cell c (snd ir)) (rows df))
  else Raise KeyError.

(** [df.loc[:, c] = v] and [df[c] = v] for a scalar [v] *)
Definition set_column (c : string) (v : value) (df : DataFrame) : DataFrame :=
  {| columns := add_column c (columns df);
     rows := map (fun ir => (fst ir, set_cell c v (snd ir))) (rows df) |}.

Fixpoint set_label (label : Z) (c : string) (v : value) (rs : list (Z * row))
  : list (Z * row) :=
  match rs with
  | [] => [(label, [(c, v)])]     (* setting with enlargement *)
  | (i, r) :: rs' =>
      if Z.eqb i label then (i, set_cell c v r) :: rs'
      else (i, r) :: set_label label c v rs'
  end.

(** [df.loc[label, c] = v] *)
Definition set_loc (label : Z) (c : string) (v : value) (df : DataFrame) : DataFrame :=
  {| columns := add_column c (columns df);
     rows := set_label label c v (rows df) |}.

Fixpoint assign_rows (c : string) (vs : list value) (rs : list (Z * row))
  : list (Z * row) :=
  match rs, vs with
  | (i, r) :: rs', v :: vs' => (i, set_cell c v r) :: assign_rows c vs' rs'
  | _, _ => rs
  end.

(** [df[c] = series], the series being computed from [df] itself *)
Definition assign (c : string) (vs : list value) (df : DataFrame) : DataFrame :=
  {| columns := add_column c (columns df);
     rows := assign_rows c vs (rows df) |}.

Fixpoint range_index (start : Z) (rs : list (Z * row)) : list (Z * row) :=
  match rs with
  | [] => []
  | (_, r) :: rs' => (start, r) :: range_index (start + 1) rs'
  end.

(** [pd.concat(frames, ignore_index=True)] *)
Definition pd_concat (frames : list DataFrame) : DataFrame :=
  {| columns := fold_left (fun cols df => fold_left (fun a c => add_column c a) (columns df) cols)
                          frames [];
     rows := range_index 0 (flat_map rows frames) |}.

(** ** The functions of pandas and Python used but not defined here *)

Class Pandas : Type := {
  (** [pd.to_datetime(s, format="%Y-%m-%d %H:%M:%S:%f")], in nanoseconds;
      [None] when it raises [ValueError] *)
  to_datetime : string -> option Z;
  (** [int(s)]; [None] when it raises [ValueError] *)
  py_int : string -> option Z;
  (** [float(s)]; [None] when it raises [ValueError] *)
  py_float : string -> option value;
  (** [pd.to_numeric(column, downcast='float')] on the cells of a column *)
  to_numeric_downcast : list value -> list value;
  (** [astype(np.uintN)], [N] the first argument, on a cell that is
      neither an integer nor NaN *)
  cast_to_uint : Z -> value -> Z;
  (** [df.memory_usage(index=True, deep=True).sum()] *)
  memory_usage : DataFrame -> Z
}.

(** ** Frame transformations shared by the two writers *)

Section Frames.
Context {P : Pandas}.

Definition column_values (c : string) (df : DataFrame) : list value :=
  map (fun ir => get_cell c (snd ir)) (rows df).

(** A column has a float dtype when it holds a float or a NaN and no
    timestamp. *)
Definition is_float_column (vs : list value) : bool :=
  existsb (fun v => match v with VFloat _ _ | VNaN => true | _ => false end) vs
  && forallb (fun v => match v with VTime _ => false | _ => true end) vs.

(** [df_float = df.select_dtypes(include=['float']).apply(pd.to_numeric,
    downcast='float'); df[df_float.columns] = df_float] *)
Definition downcast_floats (df : DataFrame) : DataFrame :=
  fold_left
    (fun d c =>
       if is_float_column (column_values c df)
       then assign c (to_numeric_downcast (column_values c df)) d
       else d)
    (columns df) df.

(** The cast of one cell; that of a NaN raises [IntCastingNaNError], a
    [ValueError]. *)
Definition to_uint (bits : Z) (v : value) : result value :=
  match v with
  | VInt z => Ok (VInt (z mod 2 ^ bits))
  | VNaN => Raise ValueError
  | _ => Ok (VInt (cast_to_uint bits v))
  end.

Fixpoint cast_cells (bits : Z) (vs : list value) : result (list value) :=
  match vs with
  | [] => Ok []
  | v :: vs' => u <- to_uint bits v ;; us <- cast_cells bits vs' ;; Ok (u :: us)
  end.

(** [df[c] = df[c].astype(np.uintN)] *)
Definition astype_uint (bits : Z) (c : string) (df : DataFrame) : result DataFrame :=
  vs <- loc_all c df ;;
  us <- cast_cells bits vs ;;
  Ok (assign c us df).

(** Order of [sort_values]: integers by value, anything else last. *)
Definition cell_key (v : value) : option Z :=
  match v with
  | VInt z => Some z
  | _ => None
  end.

Definition key_le (a b : option Z) : bool :=
  match a, b with
  | Some x, Some y => x <=? y
  | Some _, None => true
  | None, Some _ => false
  | None, None => true
  end.

Definition key_eq (a b : option Z) : bool :=
  match a, b with
  | Some x, Some y => x =? y
  | None, None => true
  | _, _ => false
  end.

Definition row_le (a b : Z * row) : bool :=
  let ia := cell_key (get_cell "iev" (snd a)) in
  let ib := cell_key (get_cell "iev" (snd b)) in
  if key_eq ia ib
  then key_le (cell_key (get_cell "pixel" (snd a))) (cell_key (get_cell "pixel" (snd b)))
  else key_le ia ib.

Fixpoint insert_row (x : Z * row) (l : list (Z * row)) : list (Z * row) :=
  match l with
  | [] => [x]
  | y :: l' => if row_le x y then x :: y :: l' else y :: insert_row x l'
  end.

Fixpoint sort_rows (l : list (Z * row)) : list (Z * row) :=
  match l with
  | [] => []
  | x :: l' => insert_row x (sort_rows l')
  end.

(** [df.sort_values(["iev", "pixel"])]: a stable sort on the two keys; the
    rows keep their index labels. *)
Definition sort_values_iev_pixel (df : DataFrame) : result DataFrame :=
  if mem_string "iev" (columns df) && mem_string "pixel" (columns df)
  then Ok {| columns := columns df; rows := sort_rows (rows df) |}
  else Raise KeyError.

End Frames.

(** ** The HDF5 store *)

Inductive meta : Type :=
| MInt (z : Z)
| MStr (s : string)
| MTime (t : Z).

Definition Metadata : Type := list (string * meta).

Fixpoint meta_get (k : string) (m : Metadata) : option meta :=
  match m with
  | [] => None
  | (k', v) :: m' => if String.eqb k' k then Some v else meta_get k m'
  end.

(** [dict] called with [metadata] and [kwargs] both unpacked as keyword
    arguments: a repeated keyword is a [TypeError]. *)
Definition dict_merge (metadata kwargs : Metadata) : result Metadata :=
  if existsb (fun kv => match meta_get (fst kv) metadata with Some _ => true | None => false end)
             kwargs
  then Raise TypeError
  else Ok (metadata ++ kwargs).

(** Modelled from the spec: [pd.HDFStore], the ColumnarStore of section
    4.1, is not part of the sources.  A store maps a key to a table and its
    [attrs.metadata]; [append] extends the table's rows, a column new to the
    table being added to its columns; setting the metadata replaces it. *)
Record Storer : Type := {
  table : DataFrame;
  attrs_metadata : option Metadata
}.

Definition HDFStore : Type := list (string * Storer).

Fixpoint get_storer (key : string) (store : HDFStore) : option Storer :=
  match store with
  | [] => None
  | (k, st) :: store' => if String.eqb k key then Some st else get_storer key store'
  end.

Definition extend_table (df : DataFrame) (st : Storer) : Storer :=
  {| table := {| columns := fold_left (fun a c => add_column c a) (columns df)
                                      (columns (table st));
                 rows := rows (table st) ++ rows df |};
     attrs_metadata := attrs_metadata st |}.

(** [store.append(key, df, index=False, data_columns=True)] *)
Fixpoint store_append (key : string) (df : DataFrame) (store : HDFStore) : HDFStore :=
  match store with
  | [] => [(key, {| table := df; attrs_metadata := None |})]
  | (k, st) :: store' =>
      if String.eqb k key then (k, extend_table df st) :: store'
      else (k, st) :: store_append key df store'
  end.

Fixpoint replace_metadata (key : string) (m : Metadata) (store : HDFStore) : HDFStore :=
  match store with
  | [] => []
  | (k, st) :: store' =>
      if String.eqb k key
      then (k, {| table := table st; attrs_metadata := Some m |}) :: store'
      else (k, st) :: replace_metadata key m store'
  end.

(** [store.get_storer(key).attrs.metadata = m]: [get_storer] raises
    [KeyError] for a key the store does not hold. *)
Definition save_metadata (key : string) (m : Metadata) (store : HDFStore) : result HDFStore :=
  match get_storer key store with
  | Some _ => Ok (replace_metadata key m store)
  | None => Raise KeyError
  end.

(** ** Files *)

Inductive file : Type :=
| Text (lines : list string)   (* the lines, as iterating the file gives them *)
| H5 (store : HDFStore).

(** The files, each under its path. *)
Definition FileSystem : Type := list (string * file).

Fixpoint read (fs : FileSystem) (path : string) : option file :=
  match fs with
  | [] => None
  | (p, f) :: fs' => if String.eqb p path then Some f else read fs' path
  end.

Definition exists_ (fs : FileSystem) (path : string) : bool :=
  match read fs path with
  | Some _ => true
  | None => false
  end.

Definition remove (path : string) (fs : FileSystem) : FileSystem :=
  filter (fun pf => negb (String.eqb (fst pf) path)) fs.

Definition write_file (path : string) (f : file) (fs : FileSystem) : FileSystem :=
  (path, f) :: remove path fs.

(** [open(path)] followed by the iteration over its lines *)
Definition open_lines (fs : FileSystem) (path : string) : result (list string) :=
  match read fs path with
  | None => Raise FileNotFoundError
  | Some (Text lines) => Ok lines
  | Some (H5 _) => Raise UnicodeDecodeError
  end.

(** [pd.HDFStore(path, complevel=9, complib='blosc:blosclz')], mode ['a']:
    the file is created when it does not exist. *)
Definition HDFStore_open (fs : FileSystem) (path : string) : result (HDFStore * FileSystem) :=
  match read fs path with
  | None => Ok ([], write_file path (H5 []) fs)
  | Some (H5 store) => Ok (store, fs)
  | Some (Text _) => Raise IOError
  end.

(** [pd.HDFStore(path, mode='r', ...)] *)
Definition HDFStore_open_read (fs : FileSystem) (path : string) : result HDFStore :=
  match read fs path with
  | Some (H5 store) => Ok store
  | _ => Raise IOError
  end.

Definition discard {A B : Type} (_ : A) (b : B) : B := b.

(** ** class MonitorWriter *)

Module MonitorWriter.
Section WithPandas.
Context {P : Pandas}.

Definition supported : list string :=
  ["TM_T_PRI"; "TM_T_AUX"; "TM_T_PSU"; "TM_T_SIPM"].
Definition n_modules : Z := 32.
Definition n_tmpix : Z := 64.

(** [pd.Timedelta(1, unit='h')] in nanoseconds *)
Definition hour : Z := 3600000000000.

Definition empty_row (module : Z) : row :=
  [("imon", VInt 0); ("t_cpu", VTime 0); ("module", VInt module)]
  ++ map (fun k => (k, VNaN)) supported.

Definition empty_df : DataFrame :=
  {| columns := ["imon"; "t_cpu"; "module"] ++ supported;
     rows := map (fun i => (Z.of_nat i, empty_row (Z.of_nat i)))
                 (seq 0 (Z.to_nat n_modules)) |}.

(** The attributes of [self] that the generator and the buffer methods
    write; [reported] holds the lines printed by the [ValueError] handler. *)
Record Output : Type := {
  metadata : Metadata;
  n_bytes : Z;
  df_list : list DataFrame;
  df_list_n_bytes : Z;
  reported : list string
}.

Definition _append_to_file (o : Output) (store : HDFStore) : result (Output * HDFStore) :=
  match df_list o with
  | [] => Ok (o, store)
  | _ :: _ =>
      let df := pd_concat (df_list o) in
      let df := downcast_floats df in
      df <- astype_uint 32 "imon" df ;;
      df <- astype_uint 8 "module" df ;;
      let store := store_append "monitor" df store in
      Ok ({| metadata := metadata o;
             n_bytes := n_bytes o + memory_usage df;
             df_list := [];
             df_list_n_bytes := 0;
             reported := reported o |}, store)
  end.

Definition append_monitor_event (df_ev : DataFrame) (o : Output) (store : HDFStore)
  : result (Output * HDFStore) :=
  let o := {| metadata := metadata o;
              n_bytes := n_bytes o;
              df_list := df_list o ++ [df_ev];
              df_list_n_bytes := df_list_n_bytes o + memory_usage df_ev;
              reported := reported o |} in
  if 500000000 <=? df_list_n_bytes o then _append_to_file o store
  else Ok (o, store).

Definition add_metadata (kwargs : Metadata) (o : Output) : result Output :=
  m <- dict_merge (metadata o) kwargs ;;
  Ok {| metadata := m;
        n_bytes := n_bytes o;
        df_list := df_list o;
        df_list_n_bytes := df_list_n_bytes o;
        reported := reported o |}.

Definition report (line : string) (o : Output) : Output :=
  {| metadata := metadata o;
     n_bytes := n_bytes o;
     df_list := df_list o;
     df_list_n_bytes := df_list_n_bytes o;
     reported := reported o ++ [line] |}.

(** *** The generator [_get_next_monitor_event] *)

(** Its local variables; [None] is the integer 0 that [t_cpu] and
    [start_time] hold before a timestamp is assigned. *)
Record Locals : Type := {
  l_imon : Z;
  l_t_cpu : option Z;
  l_start_time : option Z;
  l_df : DataFrame
}.

Definition initial_locals : Locals :=
  {| l_imon := 0; l_t_cpu := None; l_start_time := None; l_df := empty_df |}.

Inductive line_outcome : Type :=
| LNext (l : Locals)                      (* on to the next line *)
| LReport (l : Locals)                    (* ValueError caught and printed *)
| LYield (df : DataFrame) (l : Locals)    (* a monitor event is complete *)
| LRaise (e : exn).                       (* an exception the handler lets through *)

Definition marker : string := "Monitoring Event Done".

(** The body of [for line in file]. *)
Definition handle_line (l : Locals) (line : string) : line_outcome :=
  if String.eqb line "" then LNext l
  else
    let data := split_space (remove_newlines line) in
    match data with
    | d0 :: d1 :: rest =>
        match to_datetime (d0 ++ " " ++ d1)%string with
        | None => LReport l
        | Some t =>
            let t_cpu := t - hour in
            if contains marker line then
              let start_time :=
                match l_start_time l with
                | None => Some t_cpu
                | Some s => Some s
                end in
              let df := set_column "t_cpu" (VTime t_cpu)
                          (set_column "imon" (VInt (l_imon l)) (l_df l)) in
              LYield df {| l_imon := l_imon l; l_t_cpu := Some t_cpu;
                           l_start_time := start_time; l_df := df |}
            else
              let l1 := {| l_imon := l_imon l; l_t_cpu := Some t_cpu;
                           l_start_time := l_start_time l; l_df := l_df l |} in
              match rest with
              | device :: measurement :: d4 :: d5 :: _ =>
                  let key := (device ++ "_" ++ measurement)%string in
                  if mem_string key supported then
                    match py_int d4 with
                    | None => LReport l1
                    | Some device_id =>
                        match py_float d5 with
                        | None => LReport l1
                        | Some value =>
                            LNext {| l_imon := l_imon l; l_t_cpu := Some t_cpu;
                                     l_start_time := l_start_time l;
                                     l_df := set_loc device_id key value (l_df l) |}
                        end
                    end
                  else LNext l1
              | _ => LNext l1              (* len(data) < 6: continue *)
              end
        end
    | _ => LRaise IndexError                (* data[1] *)
    end.

(** After a [yield]: [imon += 1; df = self.empty_df.copy(); continue]. *)
Definition resume (l : Locals) : Locals :=
  {| l_imon := l_imon l + 1; l_t_cpu := l_t_cpu l;
     l_start_time := l_start_time l; l_df := empty_df |}.

Inductive generator : Type :=
| Created (monitor_path : string)
| Suspended (monitor_path : string) (rest : list string) (l : Locals)
| Finished.

Definition time_meta (t : option Z) : meta :=
  match t with
  | None => MInt 0
  | Some t => MTime t
  end.

Definition final_metadata (monitor_path : string) (l : Locals) : Metadata :=
  [("input_path", MStr monitor_path);
   ("n_events", MInt (l_imon l));
   ("start_time", time_meta (l_start_time l));
   ("end_time", time_meta (l_t_cpu l));
   ("n_modules", MInt n_modules);
   ("n_tmpix", MInt n_tmpix)].

(** The generator runs from the lines left to its next [yield], or to the
    end of the file, where it records the metadata and stops. *)
Fixpoint run_lines (monitor_path : string) (lines : list string) (l : Locals)
                   (o : Output) (store : HDFStore)
  : result (option DataFrame * generator * Output * HDFStore) :=
  match lines with
  | [] =>
      o <- add_metadata (final_metadata monitor_path l) o ;;
      Ok (None, Finished, o, store)
  | line :: rest =>
      match handle_line l line with
      | LNext l' => run_lines monitor_path rest l' o store
      | LReport l' => run_lines monitor_path rest l' (report line o) store
      | LYield df l' =>
          '(o, store) <- append_monitor_event df o store ;;
          Ok (Some df, Suspended monitor_path rest l', o, store)
      | LRaise e => Raise e
      end
  end.

(** [next(self.monitor_it)]; [None] is [StopIteration]. *)
Definition next (fs : FileSystem) (it : generator) (o : Output) (store : HDFStore)
  : result (option DataFrame * generator * Output * HDFStore) :=
  match it with
  | Created monitor_path =>
      lines <- open_lines fs monitor_path ;;
      run_lines monitor_path lines initial_locals o store
  | Suspended monitor_path rest l =>
      run_lines monitor_path rest (resume l) o store
  | Finished => Ok (None, Finished, o, store)
  end.

(** *** The writer *)

Record t : Type := {
  out : Output;
  eof : bool;
  aeof : bool;
  t_delta_max : Z;
  monitor_it : generator;
  monitor_ev : DataFrame;
  next_monitor_ev : DataFrame
}.

(** [__init__].  The test on [exists(monitor_path)] builds a
    [FileNotFoundError] and drops it; the first [next] opens the file. *)
Definition init (fs : FileSystem) (monitor_path : string) (store : HDFStore)
  : result (t * HDFStore) :=
  discard (if negb (exists_ fs monitor_path) then Some FileNotFoundError else None)
  (let o := {| metadata := []; n_bytes := 0; df_list := [];
               df_list_n_bytes := 0; reported := [] |} in
   '(ev, it, o, store) <- next fs (Created monitor_path) o store ;;
   match ev with
   | None => Raise IOError               (* "No monitor events found" *)
   | Some ev =>
       Ok ({| out := o; eof := false; aeof := false; t_delta_max := 0;
              monitor_it := it; monitor_ev := ev; next_monitor_ev := ev |}, store)
   end).

Definition as_int (v : value) : result Z :=
  match v with
  | VInt z => Ok z
  | _ => Raise NotModelled
  end.

Definition as_time (v : value) : result Z :=
  match v with
  | VTime t => Ok t
  | _ => Raise NotModelled
  end.

(** [df.loc[0, 'imon']] and [df.loc[0, 't_cpu']] *)
Definition imon_of (df : DataFrame) : result Z :=
  v <- loc 0 "imon" df ;; as_int v.

Definition t_cpu_of (df : DataFrame) : result Z :=
  v <- loc 0 "t_cpu" df ;; as_time v.

(** The lookahead event made in the handler of [StopIteration]: an empty
    event with cycle index [imon + 1], placed [delta] after [t_cpu]. *)
Definition synthetic (imon t_cpu delta : Z) : DataFrame :=
  set_column "t_cpu" (VTime (t_cpu + delta))
    (set_column "imon" (VInt (imon + 1)) empty_df).

(** The [while] loop of [match_to_data_events]; [t_cpu_next_monitor] is its
    local variable. *)
Fixpoint advance (fuel : nat) (fs : FileSystem) (t_cpu_data t_cpu_next_monitor : Z)
                 (w : t) (store : HDFStore) : result (Z * t * HDFStore) :=
  if (t_cpu_next_monitor <? t_cpu_data) && negb (eof w) then
    match fuel with
    | O => Raise OutOfFuel
    | S fuel =>
        let ev := next_monitor_ev w in
        '(nxt, it, o, store) <- next fs (monitor_it w) (out w) store ;;
        match nxt with
        | Some nxt =>
            t_next <- t_cpu_of nxt ;;
            advance fuel fs t_cpu_data t_next
              {| out := o; eof := eof w; aeof := aeof w; t_delta_max := t_delta_max w;
                 monitor_it := it; monitor_ev := ev; next_monitor_ev := nxt |} store
        | None =>
            imon <- imon_of ev ;;
            t_cpu <- t_cpu_of ev ;;
            let nxt := synthetic imon t_cpu (t_delta_max w) in
            t_next <- t_cpu_of nxt ;;
            advance fuel fs t_cpu_data t_next
              {| out := o; eof := true; aeof := aeof w; t_delta_max := t_delta_max w;
                 monitor_it := it; monitor_ev := ev; next_monitor_ev := nxt |} store
        end
    end
  else Ok (t_cpu_next_monitor, w, store).

(** The lines the generator has not read yet. *)
Definition lines_left (fs : FileSystem) (it : generator) : nat :=
  match it with
  | Created monitor_path =>
      match open_lines fs monitor_path with
      | Ok lines => List.length lines
      | Raise _ => O
      end
  | Suspended _ rest _ => List.length rest
  | Finished => O
  end.

(** [imon * self.n_modules + data_ev.loc[:, 'pixel'] // self.n_tmpix] *)
Definition monitor_index (imon : Z) (pixel : value) : result value :=
  match pixel with
  | VInt p => Ok (VInt (imon * n_modules + p / n_tmpix))
  | VNaN => Ok VNaN
  | _ => Raise NotModelled
  end.

Fixpoint map_result {A B : Type} (f : A -> result B) (l : list A) : result (list B) :=
  match l with
  | [] => Ok []
  | a :: l' => b <- f a ;; bs <- map_result f l' ;; Ok (b :: bs)
  end.

(** [if self.t_delta_max < d: self.t_delta_max = d] *)
Definition update_delta (w : t) (d : Z) : t :=
  if t_delta_max w <? d
  then {| out := out w; eof := eof w; aeof := aeof w; t_delta_max := d;
          monitor_it := monitor_it w; monitor_ev := monitor_ev w;
          next_monitor_ev := next_monitor_ev w |}
  else w.

(** The [if] after the loop: the lookahead event becomes the current one
    and is added to the monitor events, once. *)
Definition emit_tail (t_cpu_data t_cpu_next_monitor : Z) (w : t) (store : HDFStore)
  : result (t * HDFStore) :=
  if eof w && (t_cpu_next_monitor <? t_cpu_data) && negb (aeof w) then
    let ev := next_monitor_ev w in
    '(o, store) <- append_monitor_event ev (out w) store ;;
    Ok ({| out := o; eof := eof w; aeof := true; t_delta_max := t_delta_max w;
           monitor_it := monitor_it w; monitor_ev := ev;
           next_monitor_ev := next_monitor_ev w |}, store)
  else Ok (w, store).

(** The last three lines: the frame returned is [data_ev] with its new
    column, which the method writes in place. *)
Definition stamp (w : t) (data_ev : DataFrame) : result DataFrame :=
  imon <- imon_of (monitor_ev w) ;;
  pixel <- loc_all "pixel" data_ev ;;
  index <- map_result (monitor_index imon) pixel ;;
  Ok (assign "monitor_index" index data_ev).

Definition match_to_data_events (fs : FileSystem) (w : t) (store : HDFStore)
                                (data_ev : DataFrame)
  : result (t * HDFStore * DataFrame) :=
  t_cpu_data <- t_cpu_of data_ev ;;
  t_cpu_next_monitor <- t_cpu_of (next_monitor_ev w) ;;
  let w := update_delta w (t_cpu_next_monitor - t_cpu_data) in
  '(t_cpu_next_monitor, w, store) <-
     advance (S (lines_left fs (monitor_it w))) fs t_cpu_data t_cpu_next_monitor w store ;;
  '(w, store) <- emit_tail t_cpu_data t_cpu_next_monitor w store ;;
  data_ev <- stamp w data_ev ;;
  Ok (w, store, data_ev).

(** Successive calls of [match_to_data_events], one for each data event:
    the writer before and after each call, and the event as it leaves. *)
Record call : Type := {
  before : t;
  data_ev : DataFrame;
  after : t;
  stamped : DataFrame
}.

Fixpoint calls (fs : FileSystem) (w : t) (store : HDFStore) (events : list DataFrame)
  : result (list call) :=
  match events with
  | [] => Ok []
  | ev :: events =>
      '(w', store, ev') <- match_to_data_events fs w store ev ;;
      cs <- calls fs w' store events ;;
      Ok ({| before := w; data_ev := ev; after := w'; stamped := ev' |} :: cs)
  end.

(** [for _ in self.monitor_it: pass] *)
Fixpoint drain (fuel : nat) (fs : FileSystem) (it : generator) (o : Output)
               (store : HDFStore) : result (generator * Output * HDFStore) :=
  match fuel with
  | O => Raise OutOfFuel
  | S fuel =>
      '(ev, it, o, store) <- next fs it o store ;;
      match ev with
      | Some _ => drain fuel fs it o store
      | None => Ok (it, o, store)
      end
  end.

Definition _save_metadata (o : Output) (store : HDFStore) : result HDFStore :=
  save_metadata "monitor" (metadata o) store.

Definition finish (fs : FileSystem) (w : t) (store : HDFStore) : result (t * HDFStore) :=
  '(it, o, store) <-
     drain (S (lines_left fs (monitor_it w))) fs (monitor_it w) (out w) store ;;
  '(o, store) <- _append_to_file o store ;;
  o <- add_metadata [("n_bytes", MInt (n_bytes o))] o ;;
  store <- _save_metadata o store ;;
  Ok ({| out := o; eof := eof w; aeof := aeof w; t_delta_max := t_delta_max w;
         monitor_it := it; monitor_ev := monitor_ev w;
         next_monitor_ev := next_monitor_ev w |}, store).

End WithPandas.
End MonitorWriter.

(** ** class DL1Writer *)

Module DL1Writer.
Section WithPandas.
Context {P : Pandas}.

Record t : Type := {
  dl1_path : string;
  totalrows : Z;
  metadata : Metadata;
  n_bytes : Z;
  df_list : list DataFrame;
  df_list_n_bytes : Z;
  monitor : option MonitorWriter.t;
  store : HDFStore
}.

(** [__init__]; [create_directory(dirname(dl1_path))] acts on directories,
    which the file system of the model does not have. *)
Definition init (fs : FileSystem) (dl1_path : string) (totalrows : Z)
                (monitor_path : option string) : result (t * FileSystem) :=
  let fs := if exists_ fs dl1_path then remove dl1_path fs else fs in
  '(store, fs) <- HDFStore_open fs dl1_path ;;
  let w := {| dl1_path := dl1_path; totalrows := totalrows; metadata := [];
              n_bytes := 0; df_list := []; df_list_n_bytes := 0;
              monitor := None; store := store |} in
  match monitor_path with
  | None => Ok (w, fs)
  | Some monitor_path =>
      if String.eqb monitor_path "" then Ok (w, fs)
      else
        '(m, store) <- MonitorWriter.init fs monitor_path store ;;
        Ok ({| dl1_path := dl1_path; totalrows := totalrows; metadata := [];
               n_bytes := 0; df_list := []; df_list_n_bytes := 0;
               monitor := Some m; store := store |}, fs)
  end.

(** The list literal of [_append_to_file]: no comma follows ['tr'], so
    Python joins it with the string on the next line. *)
Definition default_c : list string :=
  ["t_event";
   "t_pulse";
   "amp_pulse";
   "charge";
   "fwhm";
   ("tr" ++ "baseline_start_mean")%string;
   "baseline_start_rms";
   "baseline_end_mean";
   "baseline_end_rms";
   "baseline_subtracted";
   "waveform_mean";
   "waveform_rms";
   "saturation_coeff"].

(** [for column in default_c: if column not in df: df[column] = 0.] *)
Definition fill_defaults (df : DataFrame) : DataFrame :=
  fold_left
    (fun d column => if mem_string column (columns d) then d
                     else set_column column (VFloat 0 0) d)
    default_c df.

(** The frame that [_append_to_file] hands to [store.append]. *)
Definition prepare (frames : list DataFrame) : result DataFrame :=
  let df := pd_concat frames in
  let df := fill_defaults df in
  let df := downcast_floats df in
  df <- astype_uint 32 "iev" df ;;
  df <- astype_uint 32 "pixel" df ;;
  df <- astype_uint 16 "first_cell_id" df ;;
  df <- astype_uint 64 "t_tack" df ;;
  df <- astype_uint 16 "t_event" df ;;
  sort_values_iev_pixel df.

Definition _append_to_file (w : t) : result t :=
  match df_list w with
  | [] => Ok w
  | _ :: _ =>
      df <- prepare (df_list w) ;;
      Ok {| dl1_path := dl1_path w; totalrows := totalrows w; metadata := metadata w;
            n_bytes := n_bytes w + memory_usage df;
            df_list := [];
            df_list_n_bytes := 0;
            monitor := monitor w;
            store := store_append "data" df (store w) |}
  end.

(** [append_event].  [df_list] holds a reference to [df_ev], so the column
    that [match_to_data_events] adds to [df_ev] is in the buffered frame;
    the byte count is taken before the column is added. *)
Definition append_event (fs : FileSystem) (w : t) (df_ev : DataFrame) : result t :=
  let n := df_list_n_bytes w + memory_usage df_ev in
  '(m, store, df_ev) <-
     match monitor w with
     | Some m =>
         '(m, store, df_ev) <- MonitorWriter.match_to_data_events fs m (store w) df_ev ;;
         Ok (Some m, store, df_ev)
     | None => Ok (None, store w, df_ev)
     end ;;
  let w := {| dl1_path := dl1_path w; totalrows := totalrows w; metadata := metadata w;
              n_bytes := n_bytes w;
              df_list := df_list w ++ [df_ev];
              df_list_n_bytes := n;
              monitor := m;
              store := store |} in
  if 500000000 <=? n then _append_to_file w else Ok w.

Definition add_metadata (kwargs : Metadata) (w : t) : result t :=
  m <- dict_merge (metadata w) kwargs ;;
  Ok {| dl1_path := dl1_path w; totalrows := totalrows w; metadata := m;
        n_bytes := n_bytes w; df_list := df_list w;
        df_list_n_bytes := df_list_n_bytes w; monitor := monitor w;
        store := store w |}.

Definition _save_metadata (w : t) : result HDFStore :=
  save_metadata "data" (metadata w) (store w).

(** [finish]; [store.close()] leaves the store in the file. *)
Definition finish (fs : FileSystem) (w : t) : result FileSystem :=
  w <- _append_to_file w ;;
  '(m, store) <-
     match monitor w with
     | Some m =>
         '(m, store) <- MonitorWriter.finish fs m (store w) ;;
         Ok (Some m, store)
     | None => Ok (None, store w)
     end ;;
  let w := {| dl1_path := dl1_path w; totalrows := totalrows w; metadata := metadata w;
              n_bytes := n_bytes w; df_list := df_list w;
              df_list_n_bytes := df_list_n_bytes w; monitor := m;
              store := store |} in
  w <- add_metadata [("n_bytes", MInt (n_bytes w))] w ;;
  store <- _save_metadata w ;;
  Ok (write_file (dl1_path w) (H5 store) fs).

Fixpoint append_events (fs : FileSystem) (w : t) (events : list DataFrame) : result t :=
  match events with
  | [] => Ok w
  | df_ev :: events => w <- append_event fs w df_ev ;; append_events fs w events
  end.

(** A whole run: [with DL1Writer(...) as writer: for each event:
    writer.append_event(df_ev)]. *)
Definition write_run (fs : FileSystem) (dl1_path : string) (totalrows : Z)
                     (monitor_path : option string) (events : list DataFrame)
  : result FileSystem :=
  '(w, fs) <- init fs dl1_path totalrows monitor_path ;;
  w <- append_events fs w events ;;
  finish fs w.

End WithPandas.
End DL1Writer.

(** ** class HDFStoreReader and class DL1Reader *)

Module HDFStoreReader.

Record t : Type := {
  store : HDFStore;
  key : string
}.

(** [self.store.get_storer(self.key)], which raises [KeyError] for a key
    the store does not hold *)
Definition storer (r : t) : result Storer :=
  match get_storer (key r) (store r) with
  | Some st => Ok st
  | None => Raise KeyError
  end.

Definition metadata (r : t) : result Metadata :=
  st <- storer r ;;
  match attrs_metadata st with
  | Some m => Ok m
  | None => Raise AttributeError
  end.

Definition n_rows (r : t) : result Z :=
  st <- storer r ;;
  Ok (nrows (table st)).

Definition n_bytes (r : t) : result meta :=
  m <- metadata r ;;
  match meta_get "n_bytes" m with
  | Some v => Ok v
  | None => Raise KeyError
  end.

(** [self.n_bytes > 8E9] *)
Definition larger_than_8GB (r : t) : result bool :=
  v <- n_bytes r ;;
  match v with
  | MInt z => Ok (8000000000 <? z)
  | _ => Raise TypeError
  end.

(** [self.store[self.key]] *)
Definition getitem (r : t) : result DataFrame :=
  match get_storer (key r) (store r) with
  | Some st => Ok (table st)
  | None => Raise KeyError
  end.

Definition load_entire_table (r : t) (force : bool) : result DataFrame :=
  large <- larger_than_8GB r ;;
  if large && negb force then Raise MemoryError
  else
    _ <- larger_than_8GB r ;;       (* the test before the warning *)
    getitem r.

(** [self.store.select_column(self.key, column)]: the cells of one column
    of the table, a [KeyError] for a column the table does not have. *)
Definition select_column (r : t) (column : string) : result (list value) :=
  st <- storer r ;;
  loc_all column (table st).

(** [values = []; for c in columns: values.append(self.select_column(c))] *)
Definition select_columns (r : t) (cols : list string) : result (list (list value)) :=
  MonitorWriter.map_result (select_column r) cols.

(** Modelled from the spec: [store.select(key, chunksize=n)], the chunked
    reading of section 4.5, is not part of the sources.  It gives the table
    in consecutive sub-tables of [n] rows, the last one with the rows that
    are left. *)
Fixpoint chunk_rows (fuel n : nat) (rs : list (Z * row)) : list (list (Z * row)) :=
  match fuel with
  | O => []
  | S fuel =>
      match rs with
      | [] => []
      | _ :: _ => firstn n rs :: chunk_rows fuel n (skipn n rs)
      end
  end.

Definition select_chunks (df : DataFrame) (chunksize : Z) : list DataFrame :=
  map (fun rs => {| columns := columns df; rows := rs |})
      (chunk_rows (List.length (rows df)) (Z.to_nat chunksize) (rows df)).

(** [iterate_over_chunks(chunksize)], as the list of the frames it yields.
    Without a chunk size, or with 0, the size is the float
    [n_rows / n_bytes * 2E9], which is not modelled, nor is a negative
    size. *)
Definition iterate_over_chunks (r : t) (chunksize : option Z) : result (list DataFrame) :=
  let default := _ <- n_rows r ;; _ <- n_bytes r ;; Raise NotModelled in
  match chunksize with
  | None => default
  | Some n =>
      if n =? 0 then default
      else if n <? 0 then Raise NotModelled
      else df <- getitem r ;; Ok (select_chunks df n)
  end.

Definition iterate_over_rows (r : t) : result (list DataFrame) :=
  iterate_over_chunks r (Some 1).

(** [self.metadata[name]] as a chunk size *)
Definition chunksize_from (r : t) (name : string) : result Z :=
  m <- metadata r ;;
  match meta_get name m with
  | None => Raise KeyError
  | Some (MInt n) => Ok n
  | Some _ => Raise NotModelled
  end.

Definition iterate_over_events (r : t) : result (list DataFrame) :=
  n <- chunksize_from r "n_pixels" ;;
  iterate_over_chunks r (Some n).

End HDFStoreReader.

Module DL1Reader.

(** [__init__]; the reader of the monitor table shares the store. *)
Definition init (fs : FileSystem) (path : string)
  : result (HDFStoreReader.t * option HDFStoreReader.t) :=
  store <- HDFStore_open_read fs path ;;
  Ok ({| HDFStoreReader.store := store; HDFStoreReader.key := "data" |},
      match get_storer "monitor" store with
      | Some _ => Some {| HDFStoreReader.store := store; HDFStoreReader.key := "monitor" |}
      | None => None
      end).

Section GetMonitorColumn.

(** [self.monitor.select_column(column)] once [column] holds the values
    selected before, no longer a name: what pandas does with them is left
    open. *)
Variable select_column_of_values : HDFStoreReader.t -> list value -> result (list value).

(** [series[monitor_index]] for an array of positions: the series of a
    column has the labels 0, 1, ... *)
Definition take (series : list value) (monitor_index : list Z) : result (list value) :=
  MonitorWriter.map_result
    (fun i => if i <? 0 then Raise KeyError
              else match nth_error series (Z.to_nat i) with
                   | Some v => Ok v
                   | None => Raise KeyError
                   end)
    monitor_index.

(** [get_monitor_column]; [self.monitor] is an attribute only of a reader
    whose store has a monitor table. *)
Definition get_monitor_column (reader : HDFStoreReader.t * option HDFStoreReader.t)
                              (monitor_index : list Z) (column : string)
  : result (list value) :=
  column <-
    match
      match snd reader with
      | None => Raise AttributeError
      | Some monitor =>
          series <- HDFStoreReader.select_column monitor column ;;
          take series monitor_index
      end
    with
    | Raise AttributeError => Raise AttributeError   (* "No monitor information ..." *)
    | other => other
    end ;;
  match snd reader with
  | None => Raise AttributeError
  | Some monitor =>
      series <- select_column_of_values monitor column ;;
      take series monitor_index
  end.

End GetMonitorColumn.

End DL1Reader.

(** ** class MonitorReader *)

Module MonitorReader.

Definition init (store : HDFStore) : HDFStoreReader.t :=
  {| HDFStoreReader.store := store; HDFStoreReader.key := "monitor" |}.

Definition iterate_over_events (r : HDFStoreReader.t) : result (list DataFrame) :=
  n <- HDFStoreReader.chunksize_from r "n_modules" ;;
  HDFStoreReader.iterate_over_chunks r (Some n).

End MonitorReader.

(** ** class Reader, class ReaderR1, class ReaderR0 *)

Module Reader.

Inductive error : Type :=
| ZeroDivisionError
| IOError.              (* "This script is only setup to read ... files!" *)

Section WithTargetIO.

(** The arrays of samples and of first cell ids, and what
    [target_io.TargetIOEventReader] gives for a file: its fields and the
    event that [GetR1Event] or [GetR0Event] writes into the arrays. *)
Variables Samples Cells : Type.

Record TIOReader : Type := {
  fR1 : bool;
  fNEvents : Z;
  fRunID : Z;
  fNPixels : Z;
  fNModules : Z;
  fNSamples : Z;
  fNCells : Z;
  GetR1Event : Z -> Samples * Cells;
  GetR0Event : Z -> Samples * Cells
}.

(** [TIOReader(path, N_CELLS, SKIP_SAMPLE, SKIP_END_SAMPLE, SKIP_EVENT,
    SKIP_END_EVENT)], [np.zeros] for the two arrays, and
    [T_SAMPLES_PER_WAVEFORM_BLOCK]. *)
Variable TIOReader_open : string -> Z -> Z -> Z -> Z -> Z -> TIOReader.
Variable zeros_cells : Z -> Cells.
Variable zeros_samples : bool -> Z -> Z -> Samples.
Variable N_BLOCKSAMPLES : Z.

Definition N_ROWS : Z := 8.
Definition N_COLUMNS : Z := 16.
Definition N_CELLS : Z := N_ROWS * N_COLUMNS * N_BLOCKSAMPLES.
Definition SKIP_SAMPLE : Z := 0.
Definition SKIP_END_SAMPLE : Z := 0.
Definition SKIP_EVENT : Z := 2.
Definition SKIP_END_EVENT : Z := 1.

Record t : Type := {
  path : string;
  reader : TIOReader;
  is_r1 : bool;
  n_events : Z;
  run_id : Z;
  n_pixels : Z;
  n_modules : Z;
  n_tmpix : Z;
  n_samples : Z;
  n_cells : Z;
  first_cell_ids : Cells;
  samples : Samples;
  index : option Z
}.

(** [self.get_tio_event] *)
Definition get_tio_event (r : t) : Z -> Samples * Cells :=
  if is_r1 r then GetR1Event (reader r) else GetR0Event (reader r).

(** [__init__]; [max_events] is [None] by default. *)
Definition init (path : string) (max_events : option Z) : t + error :=
  let reader := TIOReader_open path N_CELLS SKIP_SAMPLE SKIP_END_SAMPLE
                               SKIP_EVENT SKIP_END_EVENT in
  if fNModules reader =? 0 then inr ZeroDivisionError
  else
    let n_events :=
      match max_events with
      | Some m => if negb (m =? 0) && (m <? fNEvents reader) then m else fNEvents reader
      | None => fNEvents reader
      end in
    inl {| path := path; reader := reader;
           is_r1 := fR1 reader;
           n_events := n_events;
           run_id := fRunID reader;
           n_pixels := fNPixels reader;
           n_modules := fNModules reader;
           n_tmpix := fNPixels reader / fNModules reader;
           n_samples := fNSamples reader;
           n_cells := fNCells reader;
           first_cell_ids := zeros_cells (fNPixels reader);
           samples := zeros_samples (fR1 reader) (fNPixels reader) (fNSamples reader);
           index := None |}.

(** One step of [__iter__] and the body of [__getitem__]: the event [iev]
    is written into the arrays of the reader. *)
Definition load (r : t) (iev : Z) : t :=
  {| path := path r; reader := reader r; is_r1 := is_r1 r; n_events := n_events r;
     run_id := run_id r; n_pixels := n_pixels r; n_modules := n_modules r;
     n_tmpix := n_tmpix r; n_samples := n_samples r; n_cells := n_cells r;
     first_cell_ids := snd (get_tio_event r iev);
     samples := fst (get_tio_event r iev);
     index := Some iev |}.

(** [__iter__]: the reader as each [yield] leaves it, for [iev] in
    [range(n_events)]; what is yielded is its array [samples]. *)
Fixpoint iter_from (r : t) (iev : Z) (count : nat) : list t :=
  match count with
  | O => []
  | S count => let r := load r iev in r :: iter_from r (iev + 1) count
  end.

Definition iter (r : t) : list t := iter_from r 0 (Z.to_nat (n_events r)).

(** [__getitem__]: the reader afterwards and the copy returned. *)
Definition getitem (r : t) (iev : Z) : t * Samples :=
  let r := load r iev in (r, samples r).

(** [ReaderR1.__init__] and [ReaderR0.__init__] *)
Definition init_R1 (path : string) (max_events : option Z) : t + error :=
  match init path max_events with
  | inl r => if negb (is_r1 r) then inr IOError else inl r
  | inr e => inr e
  end.

Definition init_R0 (path : string) (max_events : option Z) : t + error :=
  match init path max_events with
  | inl r => if is_r1 r then inr IOError else inl r
  | inr e => inr e
  end.

End WithTargetIO.

Arguments fR1 {Samples Cells}.
Arguments fNEvents {Samples Cells}.
Arguments fRunID {Samples Cells}.
Arguments fNPixels {Samples Cells}.
Arguments fNModules {Samples Cells}.
Arguments fNSamples {Samples Cells}.
Arguments fNCells {Samples Cells}.
Arguments GetR1Event {Samples Cells}.
Arguments GetR0Event {Samples Cells}.
Arguments path {Samples Cells}.
Arguments reader {Samples Cells}.
Arguments is_r1 {Samples Cells}.
Arguments n_events {Samples Cells}.
Arguments run_id {Samples Cells}.
Arguments n_pixels {Samples Cells}.
Arguments n_modules {Samples Cells}.
Arguments n_tmpix {Samples Cells}.
Arguments n_samples {Samples Cells}.
Arguments n_cells {Samples Cells}.
Arguments first_cell_ids {Samples Cells}.
Arguments samples {Samples Cells}.
Arguments index {Samples Cells}.
Arguments get_tio_event {Samples Cells}.
Arguments load {Samples Cells}.
Arguments iter_from {Samples Cells}.
Arguments iter {Samples Cells}.
Arguments getitem {Samples Cells}.
Arguments init {Samples Cells}.
Arguments init_R1 {Samples Cells}.
Arguments init_R0 {Samples Cells}.

End Reader.

(** ** An instance of [Pandas] for the examples

    It reads the timestamp layout of the monitor files with six digits of
    fraction, decimal integers, and integer literals as floats; it leaves
    float columns as they are, which is what the downcast does to the small
    integers the examples hold; a frame takes 128 bytes and 8 for a cell. *)

Module Examples.

Definition digit (c : ascii) : option Z :=
  let n := nat_of_ascii c in
  if (48 <=? n)%nat && (n <=? 57)%nat then Some (Z.of_nat (n - 48)) else None.

Fixpoint take_digits (n : nat) (s : string) (acc : Z) : option (Z * string) :=
  match n with
  | O => Some (acc, s)
  | S n' =>
      match s with
      | String c s' =>
          match digit c with
          | Some d => take_digits n' s' (acc * 10 + d)
          | None => None
          end
      | EmptyString => None
      end
  end.

Definition expect (c : ascii) (k : string -> option Z) (s : string) : option Z :=
  match s with
  | String c' s' => if Ascii.eqb c c' then k s' else None
  | EmptyString => None
  end.

Definition field (n : nat) (k : Z -> string -> option Z) (s : string) : option Z :=
  match take_digits n s 0 with
  | Some (z, s') => k z s'
  | None => None
  end.

(** Days from 1970-01-01 to the civil date. *)
Definition days_from_civil (y m d : Z) : Z :=
  let y := if m <=? 2 then y - 1 else y in
  let era := y / 400 in
  let yoe := y - era * 400 in
  let doy := (153 * (if 2 <? m then m - 3 else m + 9) + 2) / 5 + d - 1 in
  let doe := yoe * 365 + yoe / 4 - yoe / 100 + doy in
  era * 146097 + doe - 719468.

Definition parse_datetime : string -> option Z :=
  field 4 (fun y => expect "-" (field 2 (fun m => expect "-" (field 2 (fun d =>
  expect " " (field 2 (fun h => expect ":" (field 2 (fun mi => expect ":" (field 2 (fun sec =>
  expect ":" (field 6 (fun us rest =>
    match rest with
    | EmptyString =>
        if (1 <=? m) && (m <=? 12) && (1 <=? d) && (d <=? 31)
           && (h <? 24) && (mi <? 60) && (sec <? 60)
        then Some ((((days_from_civil y m d * 24 + h) * 60 + mi) * 60 + sec) * 1000000000
                   + us * 1000)
        else None
    | _ => None
    end))))))))))))).

Fixpoint parse_digits (s : string) (acc : Z) : option Z :=
  match s with
  | EmptyString => Some acc
  | String c s' =>
      match digit c with
      | Some d => parse_digits s' (acc * 10 + d)
      | None => None
      end
  end.

Definition parse_int (s : string) : option Z :=
  match s with
  | EmptyString => None
  | String "-" (String c s') => option_map Z.opp (parse_digits (String c s') 0)
  | _ => parse_digits s 0
  end.

Definition float_to_uint (bits : Z) (v : value) : Z :=
  match v with
  | VInt z => z mod 2 ^ bits
  | VFloat m e => (if 0 <=? e then m * 2 ^ e else Z.quot m (2 ^ (- e))) mod 2 ^ bits
  | VTime t => t mod 2 ^ bits
  | VNaN => 0
  end.

Definition pandas : Pandas := {|
  to_datetime := parse_datetime;
  py_int := parse_int;
  py_float := fun s => option_map (fun z => VFloat z 0) (parse_int s);
  to_numeric_downcast := fun vs => vs;
  cast_to_uint := float_to_uint;
  memory_usage := fun df => 128 + 8 * Z.of_nat (List.length (columns df)) * nrows df
|}.

Definition seconds (n : Z) : Z := n * 1000000000.

(** A monitor file: three cycles, written at 01:00:00, 01:00:10 and
    01:00:20 local time on 1970-01-01, that is 0 s, 10 s and 20 s after the
    epoch once the hour is taken off. *)
Definition nl (s : string) : string := (s ++ String newline EmptyString)%string.

Definition monitor_log : list string :=
  [nl "1970-01-01 01:00:00:000000 TM T_PRI 3 25";
   nl "1970-01-01 01:00:00:000000 Monitoring Event Done";
   nl "1970-01-01 01:00:10:000000 TM T_PRI 3 26";
   nl "1970-01-01 01:00:10:000000 Monitoring Event Done";
   nl "1970-01-01 01:00:20:000000 TM T_SIPM 40 27";
   nl "1970-01-01 01:00:20:000000 Monitoring Event Done"].

Definition disk : FileSystem := [("monitor.txt", Text monitor_log)].

(** The same cycles with the sample of the third one given for the module
    4: a monitor file whose device ids are all modules, so that the cycles
    can be cast and written. *)
Definition monitor_log_modules : list string :=
  [nl "1970-01-01 01:00:00:000000 TM T_PRI 3 25";
   nl "1970-01-01 01:00:00:000000 Monitoring Event Done";
   nl "1970-01-01 01:00:10:000000 TM T_PRI 3 26";
   nl "1970-01-01 01:00:10:000000 Monitoring Event Done";
   nl "1970-01-01 01:00:20:000000 TM T_SIPM 4 27";
   nl "1970-01-01 01:00:20:000000 Monitoring Event Done"].

Definition disk_modules : FileSystem := [("monitor.txt", Text monitor_log_modules)].

(** One record of a data event. *)
Definition record (label iev pixel t_cpu : Z) : Z * row :=
  (label, [("iev", VInt iev); ("pixel", VInt pixel); ("first_cell_id", VInt 7);
           ("t_tack", VInt 1000); ("t_cpu", VTime t_cpu)]).

Definition event_columns : list string :=
  ["iev"; "pixel"; "first_cell_id"; "t_tack"; "t_cpu"].

Definition event (iev t_cpu : Z) : DataFrame :=
  {| columns := event_columns;
     rows := [record 0 iev 0 t_cpu; record 1 iev 70 t_cpu] |}.

(** The writer built on the monitor file, and the calls made for the data
    events of the examples; the store stays empty, no frame reaching the
    size at which the buffer is written. *)
Definition or_else {A : Type} (d : A) (r : result A) : A :=
  match r with
  | Ok a => a
  | Raise _ => d
  end.

Definition no_writer : MonitorWriter.t :=
  {| MonitorWriter.out :=
       {| MonitorWriter.metadata := []; MonitorWriter.n_bytes := 0;
          MonitorWriter.df_list := []; MonitorWriter.df_list_n_bytes := 0;
          MonitorWriter.reported := [] |};
     MonitorWriter.eof := false; MonitorWriter.aeof := false;
     MonitorWriter.t_delta_max := 0;
     MonitorWriter.monitor_it := MonitorWriter.Finished;
     MonitorWriter.monitor_ev := MonitorWriter.empty_df;
     MonitorWriter.next_monitor_ev := MonitorWriter.empty_df |}.

Definition w0 : MonitorWriter.t :=
  Eval vm_compute in
    fst (or_else (no_writer, []) (@MonitorWriter.init pandas disk "monitor.txt" [])).

Definition match_35 : MonitorWriter.t * HDFStore * DataFrame :=
  Eval vm_compute in
    or_else (no_writer, [], event 0 0)
      (@MonitorWriter.match_to_data_events pandas disk w0 [] (event 0 (seconds 35))).

Definition calls_for (events : list DataFrame) : list MonitorWriter.call :=
  or_else [] (@MonitorWriter.calls pandas disk w0 [] events).

Definition events_5_15_35 : list DataFrame :=
  [event 0 (seconds 5); event 1 (seconds 15); event 2 (seconds 35)].
Definition events_35 : list DataFrame := [event 0 (seconds 35)].
Definition events_m10_25_35 : list DataFrame :=
  [event 0 (seconds (-10)); event 1 (seconds 25); event 2 (seconds 35)].
Definition events_5_8_35 : list DataFrame :=
  [event 0 (seconds 5); event 1 (seconds 8); event 2 (seconds 35)].

Definition calls_5_15_35 : list MonitorWriter.call :=
  Eval vm_compute in calls_for events_5_15_35.
Definition calls_35 : list MonitorWriter.call :=
  Eval vm_compute in calls_for events_35.
Definition calls_m10_25_35 : list MonitorWriter.call :=
  Eval vm_compute in calls_for events_m10_25_35.
Definition calls_5_8_35 : list MonitorWriter.call :=
  Eval vm_compute in calls_for events_5_8_35.

(** The columns of the table written for the events of the examples. *)
Definition written_columns : list string :=
  event_columns ++
  ["t_event"; "t_pulse"; "amp_pulse"; "charge"; "fwhm"; "trbaseline_start_mean";
   "baseline_start_rms"; "baseline_end_mean"; "baseline_end_rms"; "baseline_subtracted";
   "waveform_mean"; "waveform_rms"; "saturation_coeff"].

(** Two data events, appended one by one or as one frame. *)
Definition one_by_one : list DataFrame := [event 0 (seconds 5); event 1 (seconds 15)].
Definition as_one : list DataFrame := [pd_concat one_by_one].

Definition run_one_by_one : FileSystem :=
  Eval vm_compute in
    or_else [] (@DL1Writer.write_run pandas disk_modules "run_dl1.h5" 4 (Some "monitor.txt")
                  one_by_one).
Definition run_as_one : FileSystem :=
  Eval vm_compute in
    or_else [] (@DL1Writer.write_run pandas disk_modules "run_dl1.h5" 4 (Some "monitor.txt")
                  as_one).
Definition run_plain : FileSystem :=
  Eval vm_compute in
    or_else [] (@DL1Writer.write_run pandas disk "run_dl1.h5" 4 None one_by_one).

Definition no_reader : HDFStoreReader.t :=
  {| HDFStoreReader.store := []; HDFStoreReader.key := "data" |}.
Definition reader_plain : HDFStoreReader.t :=
  Eval vm_compute in fst (or_else (no_reader, None) (DL1Reader.init run_plain "run_dl1.h5")).

(** A table that records 9 GB. *)
Definition reader_9GB : HDFStoreReader.t :=
  {| HDFStoreReader.store :=
       [("data", {| table := event 0 0;
                    attrs_metadata := Some [("n_bytes", MInt 9000000000)] |})];
     HDFStoreReader.key := "data" |}.

(** The same functions, for frames whose records hold 0.3 GB each, as
    [memory_usage] with [deep=True] measures the objects of a column. *)
Definition pandas_large : Pandas := {|
  to_datetime := parse_datetime;
  py_int := parse_int;
  py_float := fun s => option_map (fun z => VFloat z 0) (parse_int s);
  to_numeric_downcast := fun vs => vs;
  cast_to_uint := float_to_uint;
  memory_usage := fun df => 300000000 * nrows df
|}.

Definition late_first : list DataFrame := [event 1 (seconds 15); event 0 (seconds 5)].

Definition large_one_by_one : FileSystem :=
  Eval vm_compute in
    or_else [] (@DL1Writer.write_run pandas_large [] "run_dl1.h5" 4 None late_first).
Definition large_as_one : FileSystem :=
  Eval vm_compute in
    or_else [] (@DL1Writer.write_run pandas_large [] "run_dl1.h5" 4 None
                  [pd_concat late_first]).

(** The call for a data event at 5 s, and the call for one at 45 s that
    follows the call for the event at 35 s. *)
Definition match_5 : MonitorWriter.t * HDFStore * DataFrame :=
  Eval vm_compute in
    or_else (no_writer, [], event 0 0)
      (@MonitorWriter.match_to_data_events pandas disk w0 [] (event 0 (seconds 5))).

Definition match_45 : MonitorWriter.t * HDFStore * DataFrame :=
  Eval vm_compute in
    or_else (no_writer, [], event 0 0)
      (@MonitorWriter.match_to_data_events pandas disk (fst (fst match_35))
         (snd (fst match_35)) (event 1 (seconds 45))).


(** A DL1 writer without a monitor writer: as [__init__] leaves it, after
    one event, and after two events when it was given [n_pixels] or
    [n_bytes] first. *)
Definition no_dl1_writer : DL1Writer.t :=
  {| DL1Writer.dl1_path := ""; DL1Writer.totalrows := 0; DL1Writer.metadata := [];
     DL1Writer.n_bytes := 0; DL1Writer.df_list := []; DL1Writer.df_list_n_bytes := 0;
     DL1Writer.monitor := None; DL1Writer.store := [] |}.

Definition plain_writer : DL1Writer.t :=
  Eval vm_compute in
    fst (or_else (no_dl1_writer, []) (@DL1Writer.init pandas disk "run_dl1.h5" 4 None)).

Definition plain_disk : FileSystem :=
  Eval vm_compute in
    snd (or_else (no_dl1_writer, []) (@DL1Writer.init pandas disk "run_dl1.h5" 4 None)).

Definition plain_writer_1 : DL1Writer.t :=
  Eval vm_compute in
    or_else no_dl1_writer
      (@DL1Writer.append_event pandas plain_disk plain_writer (event 0 (seconds 5))).

Definition writer_with_pixels : DL1Writer.t :=
  Eval vm_compute in
    or_else no_dl1_writer
      (w <- DL1Writer.add_metadata [("n_pixels", MInt 2)] plain_writer ;;
       @DL1Writer.append_events pandas plain_disk w one_by_one).

Definition file_with_pixels : FileSystem :=
  Eval vm_compute in or_else [] (@DL1Writer.finish pandas plain_disk writer_with_pixels).

Definition reader_with_pixels : HDFStoreReader.t :=
  Eval vm_compute in
    fst (or_else (no_reader, None) (DL1Reader.init file_with_pixels "run_dl1.h5")).

Definition events_by_2 : list DataFrame :=
  Eval vm_compute in or_else [] (HDFStoreReader.iterate_over_events reader_with_pixels).

Definition writer_with_n_bytes : DL1Writer.t :=
  Eval vm_compute in
    or_else no_dl1_writer
      (w <- DL1Writer.add_metadata [("n_bytes", MInt 1)] plain_writer ;;
       @DL1Writer.append_events pandas plain_disk w one_by_one).

(** The table of the run without a monitor file, read by 3 rows and row
    by row; the monitor table of the run with one, read by events. *)
Definition chunks_by_3 : list DataFrame :=
  Eval vm_compute in or_else [] (HDFStoreReader.iterate_over_chunks reader_plain (Some 3)).

Definition rows_of_plain : list DataFrame :=
  Eval vm_compute in or_else [] (HDFStoreReader.iterate_over_rows reader_plain).

Definition reader_one_by_one : HDFStoreReader.t * option HDFStoreReader.t :=
  Eval vm_compute in or_else (no_reader, None) (DL1Reader.init run_one_by_one "run_dl1.h5").

(** The frame written for the two events given the later one first. *)
Definition prepared_late : DataFrame :=
  Eval vm_compute in or_else (event 0 0) (@DL1Writer.prepare pandas late_first).

(** The frame written for the two events of the run of the examples. *)
Definition prepared_one_by_one : DataFrame :=
  Eval vm_compute in or_else (event 0 0) (@DL1Writer.prepare pandas one_by_one).

(** The buffer of monitor events after an empty event is added to an
    empty buffer. *)
Definition monitor_buffer_1 : MonitorWriter.Output * HDFStore :=
  Eval vm_compute in
    or_else (MonitorWriter.out no_writer, [])
      (@MonitorWriter.append_monitor_event pandas MonitorWriter.empty_df
         (MonitorWriter.out no_writer) []).

(** A monitor file of two cycles, whose samples are of the module 3, and
    a run on it with a data event after the last cycle. *)
Definition two_cycles : list string :=
  [nl "1970-01-01 01:00:00:000000 TM T_PRI 3 25";
   nl "1970-01-01 01:00:00:000000 Monitoring Event Done";
   nl "1970-01-01 01:00:10:000000 TM T_PRI 3 26";
   nl "1970-01-01 01:00:10:000000 Monitoring Event Done"].

Definition disk_two_cycles : FileSystem := [("monitor.txt", Text two_cycles)].

Definition events_5_35 : list DataFrame := [event 0 (seconds 5); event 1 (seconds 35)].

Definition run_two_cycles : FileSystem :=
  Eval vm_compute in
    or_else [] (@DL1Writer.write_run pandas disk_two_cycles "run_dl1.h5" 4
                  (Some "monitor.txt") events_5_35).

(** A waveform file of 5 events, 2048 pixels and 32 modules; an event is
    its number, as samples and as first cell ids. *)
Definition tio_file (r1 : bool) : Reader.TIOReader (list Z) (list Z) :=
  {| Reader.fR1 := r1; Reader.fNEvents := 5; Reader.fRunID := 1;
     Reader.fNPixels := 2048; Reader.fNModules := 32; Reader.fNSamples := 128;
     Reader.fNCells := 4096;
     Reader.GetR1Event := fun iev => ([iev], [iev]);
     Reader.GetR0Event := fun iev => ([- iev], [iev]) |}.

Definition tio_open (path : string) (_ _ _ _ _ : Z) : Reader.TIOReader (list Z) (list Z) :=
  tio_file (String.eqb path "run_r1.tio").

Definition tio_reader (path : string) (max_events : option Z)
  : Reader.t (list Z) (list Z) + Reader.error :=
  Reader.init tio_open (fun _ => []) (fun _ _ _ => []) 32 path max_events.

End Examples.


(** ** Vocabulary of the statements *)

Definition has_label (i : Z) (df : DataFrame) : Prop :=
  exists r, find_label i (rows df) = Some r.

Section Vocabulary.
Context {P : Pandas}.

(** The date and time a line of the monitor file is written with: its
    first two fields, read by [to_datetime]. *)
Definition line_time (line : string) : option Z :=
  match split_space (remove_newlines line) with
  | d0 :: d1 :: _ => to_datetime (d0 ++ " " ++ d1)%string
  | _ => None
  end.

(** The cycle index of the monitor event the generator yields next. *)
Definition next_imon (it : MonitorWriter.generator) : Z :=
  match it with
  | MonitorWriter.Created _ => 0
  | MonitorWriter.Suspended _ _ l => MonitorWriter.l_imon l + 1
  | MonitorWriter.Finished => 0
  end.

(** The lines the generator has still to read. *)
Definition pending (fs : FileSystem) (it : MonitorWriter.generator) : list string :=
  match it with
  | MonitorWriter.Created monitor_path =>
      match open_lines fs monitor_path with
      | Ok lines => lines
      | Raise _ => []
      end
  | MonitorWriter.Suspended _ rest _ => rest
  | MonitorWriter.Finished => []
  end.

(** The local variables the body of the loop leaves, when it raises
    nothing. *)
Definition locals_after (o : MonitorWriter.line_outcome) : option MonitorWriter.Locals :=
  match o with
  | MonitorWriter.LNext l | MonitorWriter.LReport l | MonitorWriter.LYield _ l => Some l
  | MonitorWriter.LRaise _ => None
  end.

(** The line a file gives for an empty line of text. *)
Definition blank_line : string := String newline EmptyString.

End Vocabulary.

Section VocabularyAligner.
Context {P : Pandas}.
Import MonitorWriter.

(** The cycle index of the current event is at most that of the lookahead
    event, which is below that of every event still to be read. *)
Definition aligned (w : t) : Prop :=
  exists a b,
    imon_of (monitor_ev w) = Ok a /\ imon_of (next_monitor_ev w) = Ok b /\
    a <= b /\ (eof w = false -> b < next_imon (monitor_it w)).

End VocabularyAligner.

(** A result of the model that stands for what Python does: the bound of
    a loop was not exhausted. *)
Definition python {A : Type} (c : result A) : Prop := c <> Raise OutOfFuel.

Section VocabularyCalls.
Context {P : Pandas}.
Import MonitorWriter.

(** What a call of [match_to_data_events] compares [t_delta_max] with: the
    timestamp of the lookahead event on entry less that of the data event. *)
Definition lookahead_delta (c : call) : result Z :=
  tn <- t_cpu_of (next_monitor_ev (before c)) ;;
  td <- t_cpu_of (data_ev c) ;;
  Ok (tn - td).

(** The writer after the calls [cs] made from [w0]. *)
Definition final (w0 : t) (cs : list call) : t := last (map after cs) w0.

(** The largest difference between consecutive timestamps of [ts]. *)
Fixpoint max_consecutive_gap (ts : list Z) : Z :=
  match ts with
  | t1 :: ((t2 :: _) as ts') => Z.max (t2 - t1) (max_consecutive_gap ts')
  | _ => 0
  end.

(** The monitor events the generator has still to yield, from the state
    in which a call finds it. *)
Fixpoint remaining (fuel : nat) (fs : FileSystem) (it : generator) (o : Output)
                   (store : HDFStore) : result (list DataFrame) :=
  match fuel with
  | O => Raise OutOfFuel
  | S fuel =>
      '(ev, it, o, store) <- next fs it o store ;;
      match ev with
      | Some ev => evs <- remaining fuel fs it o store ;; Ok (ev :: evs)
      | None => Ok []
      end
  end.

(** The monitor events read from the file so far, while none has been
    moved to the store: the events added to [df_list], less the synthetic
    one when it has been added. *)
Definition real_cycles (w : t) : list DataFrame :=
  if aeof w then removelast (df_list (out w)) else df_list (out w).

End VocabularyCalls.

(** The rows of a list of frames, and of the table a store holds under a
    key. *)
Definition total_rows (frames : list DataFrame) : Z :=
  fold_right Z.add 0 (map nrows frames).

Definition table_rows (key : string) (store : HDFStore) : Z :=
  match get_storer key store with
  | Some st => nrows (table st)
  | None => 0
  end.

Section VocabularyBuffer.
Context {P : Pandas}.

(** No [append_event] of these frames reaches the size at which the buffer
    is written, the buffer holding [n] bytes before the first of them. *)
Fixpoint stays_below (n : Z) (frames : list DataFrame) : bool :=
  match frames with
  | [] => true
  | df :: frames' =>
      (n + memory_usage df <? 500000000) && stays_below (n + memory_usage df) frames'
  end.

End VocabularyBuffer.

(** The rows a DL1 writer has been given: those of the table of data
    events and those it buffers. *)
Definition appended (w : DL1Writer.t) : Z :=
  table_rows "data" (DL1Writer.store w) + total_rows (DL1Writer.df_list w).

(** The table of data events in the file at [path]. *)
Definition data_table (fs : FileSystem) (path : string) : option DataFrame :=
  match read fs path with
  | Some (H5 store) => option_map table (get_storer "data" store)
  | _ => None
  end.

(** ** Vocabulary of the further properties *)

Section VocabularyCycles.
Context {P : Pandas}.
Import MonitorWriter.

(** A line that ends a monitor cycle: its date and time are read and it
    holds the marker. *)
Definition is_cycle_end (line : string) : bool :=
  match line_time line with
  | Some _ => contains marker line
  | None => false
  end.

(** The cycles of a monitor file. *)
Definition cycle_ends (lines : list string) : Z :=
  Z.of_nat (List.length (filter is_cycle_end lines)).

(** The date and time of the line that ends the first cycle. *)
Fixpoint first_cycle_time (lines : list string) : option Z :=
  match lines with
  | [] => None
  | line :: rest => if is_cycle_end line then line_time line else first_cycle_time rest
  end.

(** The value of [start_time] once a cycle has ended, if one is given by
    [lines] when none has. *)
Definition start_after (start_time : option Z) (lines : list string) : option Z :=
  match start_time with
  | Some s => Some s
  | None => option_map (fun t => t - hour) (first_cycle_time lines)
  end.

(** The value of [t_cpu] after the lines [lines]: the date and time of the
    last of them that has one, less the hour. *)
Definition end_after (t_cpu : option Z) (lines : list string) : option Z :=
  fold_left (fun acc line => match line_time line with
                             | Some t => Some (t - hour)
                             | None => acc
                             end)
            lines t_cpu.

(** The generator of a writer on the file [path], whose lines are [lines],
    has counted the cycles it has read; when it has finished, the metadata
    are those of the whole file. *)
Definition counted (path : string) (lines : list string) (it : generator) (o : Output) : Prop :=
  match it with
  | Created _ => False
  | Suspended p rest l =>
      p = path /\ metadata o = [] /\
      l_imon l + 1 + cycle_ends rest = cycle_ends lines /\
      l_start_time l = start_after None lines /\ l_start_time l <> None /\
      end_after (l_t_cpu l) rest = end_after None lines
  | Finished =>
      exists l, metadata o = final_metadata path l /\
                l_imon l = cycle_ends lines /\
                l_start_time l = start_after None lines /\
                l_t_cpu l = end_after None lines
  end.

End VocabularyCycles.

(** A DL1 writer with a monitor writer on the file [path], whose
    generator has counted the cycles it has read. *)
Definition monitored {P : Pandas} (path : string) (lines : list string) (w : DL1Writer.t)
  : Prop :=
  exists m, DL1Writer.monitor w = Some m /\
            counted path lines (MonitorWriter.monitor_it m) (MonitorWriter.out m).

(** *** The rows of the monitor table *)

Section VocabularyRows.
Context {P : Pandas}.
Import MonitorWriter.

(** A line does not give a supported measurement for a device id that is
    no module, the modules being 0 to 31. *)
Definition device_in_range (line : string) : bool :=
  match split_space (remove_newlines line) with
  | _ :: _ :: device :: measurement :: d4 :: _ :: _ =>
      if mem_string (device ++ "_" ++ measurement)%string supported
      then match py_int d4 with
           | Some device_id => (0 <=? device_id) && (device_id <? 32)
           | None => true
           end
      else true
  | _ => true
  end.

(** The cast of [astype(np.uint32)] on an integer. *)
Definition uint32 (z : Z) : Z := z mod 2 ^ 32.

(** The columns [imon] and [module] of [count] cycles of 32 rows each,
    from the cycle [first] on: the row at the position [k] is that of the
    cycle [k // 32] and of the module [k % 32]. *)
Definition cycle_column (cast : Z -> Z) (first count : nat) : list value :=
  map (fun k => VInt (cast (Z.of_nat k / 32))) (seq (32 * first) (32 * count)).

Definition module_column (first count : nat) : list value :=
  map (fun k => VInt (Z.of_nat k mod 32)) (seq (32 * first) (32 * count)).

(** A frame of the cycle [i]: 32 rows, one for each module in turn. *)
Definition is_block (i : nat) (df : DataFrame) : Prop :=
  column_values "imon" df = cycle_column (fun z => z) i 1 /\
  column_values "module" df = module_column i 1.

(** The frame in which the samples of a cycle are collected: its rows
    have the labels 0 to 31, the row of a label being that of the module. *)
Definition collecting (df : DataFrame) : Prop :=
  map fst (rows df) = map Z.of_nat (seq 0 32) /\
  column_values "module" df = module_column 0 1.

(** The two columns in the monitor table of a store, and in a buffer. *)
Definition stored_columns (s : HDFStore) : list value * list value :=
  match get_storer "monitor" s with
  | Some st => (column_values "imon" (table st), column_values "module" (table st))
  | None => ([], [])
  end.

Definition buffer_columns (frames : list DataFrame) : list value * list value :=
  (flat_map (column_values "imon") frames, flat_map (column_values "module") frames).

(** The monitor events of the cycles 0 to [n - 1] have been appended: the
    first of them are in the monitor table, cast, and the others in the
    buffer. *)
Definition appended_cycles (n : nat) (o : Output) (s : HDFStore) : Prop :=
  exists m, (m <= n)%nat /\
    stored_columns s = (cycle_column uint32 0 m, module_column 0 m) /\
    buffer_columns (df_list o)
    = (cycle_column (fun z => z) m (n - m), module_column m (n - m)).

(** The generator and the buffer of a monitor writer on a file of the
    lines [lines], [extra] being 1 once the empty event has been added
    after the last cycle. *)
Definition in_step (lines : list string) (extra : nat) (it : generator)
                   (o : Output) (s : HDFStore) : Prop :=
  match it with
  | Created _ => False
  | Suspended _ rest l =>
      exists n : nat,
        l_imon l + 1 = Z.of_nat n /\ Z.of_nat n + cycle_ends rest = cycle_ends lines /\
        extra = O /\ appended_cycles n o s /\
        Forall (fun line => device_in_range line = true) rest
  | Finished =>
      exists n : nat, Z.of_nat n = cycle_ends lines /\ appended_cycles (n + extra) o s
  end.

(** A monitor writer whose monitor table and buffer are in step with its
    generator, the lookahead event being the frame of the last cycle read,
    or of the cycle after the last one of the file. *)
Definition tracked (lines : list string) (w : t) (s : HDFStore) : Prop :=
  in_step lines (if aeof w then 1%nat else O) (monitor_it w) (out w) s /\
  (if eof w
   then monitor_it w = Finished /\
        (aeof w = false ->
         exists n : nat, Z.of_nat n = cycle_ends lines /\ is_block n (next_monitor_ev w))
   else aeof w = false /\
        exists k : nat, Z.of_nat k + 1 = next_imon (monitor_it w) /\
                        is_block k (next_monitor_ev w)).

End VocabularyRows.

(** A cell that holds an integer. *)
Definition is_int (v : value) : bool :=
  match v with
  | VInt _ => true
  | _ => false
  end.

Section VocabularyTotal.
Context {P : Pandas}.
Import MonitorWriter.

(** A frame of monitor events: it has the columns that [_append_to_file]
    casts, which hold integers, and a row under the label 0. *)
Definition monitor_frame (df : DataFrame) : Prop :=
  mem_string "imon" (columns df) = true /\
  mem_string "module" (columns df) = true /\
  has_label 0 df /\
  Forall (fun v => is_int v = true) (column_values "imon" df) /\
  Forall (fun v => is_int v = true) (column_values "module" df).

(** A line with a date and a time, or at least two fields. *)
Definition two_fields (line : string) : Prop :=
  (2 <= List.length (split_space (remove_newlines line)))%nat.

(** A writer as [__init__] and [match_to_data_events] leave it, on a
    monitor file whose lines still to be read have two fields or more and
    give no sample for a device id that is no module. *)
Definition ready (fs : FileSystem) (w : t) : Prop :=
  (exists a ta, imon_of (monitor_ev w) = Ok a /\ t_cpu_of (monitor_ev w) = Ok ta) /\
  (exists b tb, imon_of (next_monitor_ev w) = Ok b /\ t_cpu_of (next_monitor_ev w) = Ok tb) /\
  monitor_frame (next_monitor_ev w) /\
  Forall monitor_frame (df_list (out w)) /\
  Forall two_fields (pending fs (monitor_it w)) /\
  Forall (fun line => device_in_range line = true) (pending fs (monitor_it w)) /\
  (monitor_it w = Finished \/
   exists path rest l, monitor_it w = Suspended path rest l /\ metadata (out w) = []).

(** A data event that [match_to_data_events] can stamp: a timestamp in the
    row 0, and pixels that are integers or missing. *)
Definition data_event (ev : DataFrame) : Prop :=
  (exists td, t_cpu_of ev = Ok td) /\
  mem_string "pixel" (columns ev) = true /\
  Forall (fun v => match v with VInt _ | VNaN => True | _ => False end)
         (column_values "pixel" ev).

End VocabularyTotal.

(** The table of monitor events in the file at [path]. *)
Definition monitor_table (fs : FileSystem) (path : string) : option DataFrame :=
  match read fs path with
  | Some (H5 store) => option_map table (get_storer "monitor" store)
  | _ => None
  end.

(** The index labels of a frame, and the frames of a list put end to
    end. *)
Definition labels (df : DataFrame) : list Z := map fst (rows df).

Definition all_rows (frames : list DataFrame) : list (Z * row) := flat_map rows frames.

(** The order in which a frame of data events is written: by [iev], and
    by [pixel] for one [iev], both being integers. *)
Definition iev_pixel_le (a b : Z * row) : Prop :=
  exists ia pa ib pb,
    get_cell "iev" (snd a) = VInt ia /\ get_cell "pixel" (snd a) = VInt pa /\
    get_cell "iev" (snd b) = VInt ib /\ get_cell "pixel" (snd b) = VInt pb /\
    (ia < ib \/ (ia = ib /\ pa <= pb)).


(** * Properties *)

(** ** Cells, columns and labels *)

Lemma mem_string_In (c : string) (l : list string) :
  mem_string c l = true <-> In c l.
Proof.
  unfold mem_string. rewrite existsb_exists. split.
  - intros [x [Hin Heq]]. apply String.eqb_eq in Heq. now subst.
  - intros Hin. exists c. split; [assumption | apply String.eqb_refl].
Qed.

Lemma mem_string_app (c : string) (l1 l2 : list string) :
  mem_string c (l1 ++ l2) = mem_string c l1 || mem_string c l2.
Proof. unfold mem_string. apply existsb_app. Qed.

Lemma mem_add_column_same (c : string) (cols : list string) :
  mem_string c (add_column c cols) = true.
Proof.
  unfold add_column. destruct (mem_string c cols) eqn:E; [assumption|].
  rewrite mem_string_app, E. simpl. now rewrite String.eqb_refl.
Qed.

Lemma mem_add_column_other (c c' : string) (cols : list string) :
  c <> c' -> mem_string c' (add_column c cols) = mem_string c' cols.
Proof.
  intros Hne. unfold add_column. destruct (mem_string c cols); [reflexivity|].
  rewrite mem_string_app. simpl.
  assert (String.eqb c' c = false) as -> by (apply String.eqb_neq; congruence).
  now rewrite !orb_false_r.
Qed.

Lemma mem_add_column_mono (c c' : string) (cols : list string) :
  mem_string c' cols = true -> mem_string c' (add_column c cols) = true.
Proof.
  intros H. unfold add_column. destruct (mem_string c cols); [assumption|].
  rewrite mem_string_app, H. reflexivity.
Qed.

Lemma get_set_same (c : string) (v : value) (r : row) :
  get_cell c (set_cell c v r) = v.
Proof.
  induction r as [|[k v'] r IH]; simpl.
  - now rewrite String.eqb_refl.
  - destruct (String.eqb k c) eqn:E; simpl; rewrite E; [reflexivity | exact IH].
Qed.

Lemma get_set_other (c c' : string) (v : value) (r : row) :
  c <> c' -> get_cell c' (set_cell c v r) = get_cell c' r.
Proof.
  intros Hne. induction r as [|[k v'] r IH]; simpl.
  - assert (String.eqb c c' = false) as -> by (now apply String.eqb_neq). reflexivity.
  - destruct (String.eqb k c) eqn:E; simpl.
    + apply String.eqb_eq in E. subst k.
      assert (String.eqb c c' = false) as -> by (now apply String.eqb_neq). reflexivity.
    + destruct (String.eqb k c'); [reflexivity | exact IH].
Qed.

Lemma find_label_map (f : row -> row) (i : Z) (rs : list (Z * row)) :
  find_label i (map (fun ir => (fst ir, f (snd ir))) rs) = option_map f (find_label i rs).
Proof.
  induction rs as [|[j r] rs IH]; simpl; [reflexivity|].
  destruct (Z.eqb j i); [reflexivity | exact IH].
Qed.

Lemma loc_set_column_same (i : Z) (c : string) (v : value) (df : DataFrame) :
  has_label i df -> loc i c (set_column c v df) = Ok v.
Proof.
  intros [r Hr]. unfold loc, set_column. simpl.
  rewrite mem_add_column_same, find_label_map, Hr. simpl.
  now rewrite get_set_same.
Qed.

Lemma loc_set_column_other (i : Z) (c c' : string) (v : value) (df : DataFrame) :
  c <> c' -> loc i c' (set_column c v df) = loc i c' df.
Proof.
  intros Hne. unfold loc, set_column. simpl.
  rewrite (mem_add_column_other _ _ _ Hne), find_label_map.
  destruct (mem_string c' (columns df)); [|reflexivity].
  destruct (find_label i (rows df)); simpl; [|reflexivity].
  now rewrite get_set_other.
Qed.

Lemma has_label_set_column (i : Z) (c : string) (v : value) (df : DataFrame) :
  has_label i df -> has_label i (set_column c v df).
Proof.
  intros [r Hr]. exists (set_cell c v r). unfold set_column. simpl.
  now rewrite find_label_map, Hr.
Qed.

Lemma has_label_set_loc (i j : Z) (c : string) (v : value) (df : DataFrame) :
  has_label i df -> has_label i (set_loc j c v df).
Proof.
  intros [r Hr]. unfold has_label, set_loc. simpl.
  revert Hr. induction (rows df) as [|[k r'] rs IH]; simpl; [discriminate|].
  intros Hr. destruct (Z.eqb k j) eqn:Ekj; simpl.
  - destruct (Z.eqb k i); [eauto | eauto].
  - destruct (Z.eqb k i); [eauto | auto].
Qed.

Lemma loc_has_label (i : Z) (c : string) (df : DataFrame) (v : value) :
  loc i c df = Ok v -> has_label i df.
Proof.
  unfold loc, has_label. destruct (mem_string c (columns df)); [|discriminate].
  destruct (find_label i (rows df)); [eauto | discriminate].
Qed.

Lemma bind_Ok {A B : Type} (c : result A) (k : A -> result B) (b : B) :
  bind c k = Ok b -> exists a, c = Ok a /\ k a = Ok b.
Proof. destruct c; simpl; [eauto | discriminate]. Qed.

Ltac bind_inv H :=
  let a := fresh "x" in
  let Ha := fresh "H" in
  apply bind_Ok in H; destruct H as [a [Ha H]].

(** ** The generator of monitor events *)

Section Generator.
Context {P : Pandas}.
Import MonitorWriter.

Lemma has_label_empty_df : has_label 0 empty_df.
Proof. unfold has_label. simpl. eauto. Qed.

Lemma handle_line_yield (l l' : Locals) (line : string) (df : DataFrame) :
  has_label 0 (l_df l) ->
  handle_line l line = LYield df l' ->
  exists t,
    line_time line = Some t /\ contains marker line = true /\
    imon_of df = Ok (l_imon l) /\ t_cpu_of df = Ok (t - hour) /\
    Forall (fun ir => get_cell "t_cpu" (snd ir) = VTime (t - hour)) (rows df) /\
    l_imon l' = l_imon l /\ l_t_cpu l' = Some (t - hour).
Proof.
  intros H0 H. unfold handle_line in H. unfold line_time.
  destruct (String.eqb line ""); [discriminate|].
  destruct (split_space (remove_newlines line)) as [|d0 [|d1 rest]]; try discriminate.
  destruct (to_datetime (d0 ++ " " ++ d1)%string) as [t|]; [|discriminate].
  destruct (contains marker line) eqn:Em.
  - inversion H; subst; clear H. exists t. simpl. repeat split.
    + unfold imon_of. rewrite loc_set_column_other by discriminate.
      rewrite loc_set_column_same by assumption. reflexivity.
    + unfold t_cpu_of. rewrite loc_set_column_same; [reflexivity|].
      now apply has_label_set_column.
    + apply Forall_forall. intros ir Hin. apply in_map_iff in Hin.
      destruct Hin as [ir' [<- _]]. simpl. apply get_set_same.
  - destruct rest as [|device [|measurement [|d4 [|d5 rest]]]]; try discriminate.
    destruct (mem_string _ supported); [|discriminate].
    destruct (py_int d4); [|discriminate].
    destruct (py_float d5); discriminate.
Qed.

Lemma handle_line_next (l l' : Locals) (line : string) :
  has_label 0 (l_df l) ->
  handle_line l line = LNext l' \/ handle_line l line = LReport l' ->
  has_label 0 (l_df l') /\ l_imon l' = l_imon l.
Proof.
  intros H0 H. unfold handle_line in H.
  destruct (String.eqb line "").
  { destruct H as [H|H]; inversion H; subst; auto. }
  destruct (split_space (remove_newlines line)) as [|d0 [|d1 rest]];
    try (destruct H as [H|H]; discriminate).
  destruct (to_datetime (d0 ++ " " ++ d1)%string) as [t|].
  2:{ destruct H as [H|H]; inversion H; subst; auto. }
  destruct (contains marker line).
  { destruct H as [H|H]; discriminate. }
  destruct rest as [|device [|measurement [|d4 [|d5 rest]]]];
    try (destruct H as [H|H]; inversion H; subst; simpl; auto; fail).
  destruct (mem_string _ supported).
  2:{ destruct H as [H|H]; inversion H; subst; simpl; auto. }
  destruct (py_int d4).
  2:{ destruct H as [H|H]; inversion H; subst; simpl; auto. }
  destruct (py_float d5);
    destruct H as [H|H]; inversion H; subst; simpl; auto.
  split; [|reflexivity]. now apply has_label_set_loc.
Qed.

Lemma run_lines_yield (path : string) (lines : list string) :
  forall (l : Locals) (o o' : Output) (s s' : HDFStore) (df : DataFrame) (it : generator),
  has_label 0 (l_df l) ->
  run_lines path lines l o s = Ok (Some df, it, o', s') ->
  exists skipped line rest l' t,
    lines = skipped ++ line :: rest /\
    it = Suspended path rest l' /\ l_imon l' = l_imon l /\
    line_time line = Some t /\ contains marker line = true /\
    imon_of df = Ok (l_imon l) /\ t_cpu_of df = Ok (t - hour) /\
    Forall (fun ir => get_cell "t_cpu" (snd ir) = VTime (t - hour)) (rows df).
Proof.
  induction lines as [|line lines IH]; intros l o o' s s' df it H0 H; simpl in H.
  - bind_inv H. discriminate.
  - destruct (handle_line l line) as [l1|l1|df1 l1|e] eqn:E.
    + destruct (handle_line_next l l1 line H0 (or_introl E)) as [H1 H2].
      destruct (IH _ _ _ _ _ _ _ H1 H) as (sk & ln & rest & l' & t & -> & ? & ? & ? & ? & ? & ? & ?).
      exists (line :: sk), ln, rest, l', t. rewrite <- H2.
      repeat split; auto; congruence.
    + destruct (handle_line_next l l1 line H0 (or_intror E)) as [H1 H2].
      destruct (IH _ _ _ _ _ _ _ H1 H) as (sk & ln & rest & l' & t & -> & ? & ? & ? & ? & ? & ? & ?).
      exists (line :: sk), ln, rest, l', t. rewrite <- H2.
      repeat split; auto; congruence.
    + bind_inv H. destruct x as [o1 s1]. inversion H; subst; clear H.
      destruct (handle_line_yield l l1 line df H0 E) as (t & ? & ? & ? & ? & ? & ? & ?).
      exists [], line, lines, l1, t. repeat split; auto.
    + discriminate.
Qed.

Lemma run_lines_stop (path : string) (lines : list string) :
  forall (l : Locals) (o o' : Output) (s s' : HDFStore) (it : generator),
  run_lines path lines l o s = Ok (None, it, o', s') -> it = Finished.
Proof.
  induction lines as [|line lines IH]; intros l o o' s s' it H; simpl in H.
  - bind_inv H. now inversion H.
  - destruct (handle_line l line); eauto; try discriminate.
    bind_inv H. destruct x. discriminate.
Qed.

Lemma next_yield (fs : FileSystem) (it it' : generator) (o o' : Output)
                 (s s' : HDFStore) (df : DataFrame) :
  next fs it o s = Ok (Some df, it', o', s') ->
  imon_of df = Ok (next_imon it) /\
  (exists t, t_cpu_of df = Ok t) /\
  next_imon it' = next_imon it + 1 /\
  (lines_left fs it' < lines_left fs it)%nat.
Proof.
  intros H. destruct it as [path|path rest l|]; simpl in H.
  - bind_inv H.
    destruct (run_lines_yield _ _ initial_locals _ _ _ _ _ _ has_label_empty_df H)
      as (sk & ln & rest & l' & t & -> & -> & Hi & _ & _ & Him & Ht & _).
    simpl in *. rewrite H0. repeat split; eauto; try lia.
    rewrite length_app. simpl. lia.
  - destruct (run_lines_yield _ _ (resume l) _ _ _ _ _ _ has_label_empty_df H)
      as (sk & ln & rest' & l' & t & -> & -> & Hi & _ & _ & Him & Ht & _).
    simpl in *. repeat split; eauto; try lia.
    rewrite length_app. simpl. lia.
  - discriminate.
Qed.

Lemma next_stop (fs : FileSystem) (it it' : generator) (o o' : Output) (s s' : HDFStore) :
  next fs it o s = Ok (None, it', o', s') -> it' = Finished.
Proof.
  intros H. destruct it as [path|path rest l|]; simpl in H.
  - bind_inv H. eapply run_lines_stop; eauto.
  - eapply run_lines_stop; eauto.
  - now inversion H.
Qed.

End Generator.

(** ** The loop of the aligner *)

Section Aligner.
Context {P : Pandas}.
Import MonitorWriter.

Lemma imon_of_synthetic (i t d : Z) : imon_of (synthetic i t d) = Ok (i + 1).
Proof.
  unfold synthetic, imon_of. rewrite loc_set_column_other by discriminate.
  rewrite loc_set_column_same by apply has_label_empty_df. reflexivity.
Qed.

Lemma t_cpu_of_synthetic (i t d : Z) : t_cpu_of (synthetic i t d) = Ok (t + d).
Proof.
  unfold synthetic, t_cpu_of. rewrite loc_set_column_same; [reflexivity|].
  apply has_label_set_column, has_label_empty_df.
Qed.

Lemma advance_unfold (fuel : nat) (fs : FileSystem) (td tn : Z) (w : t) (s : HDFStore) :
  advance fuel fs td tn w s =
  if (tn <? td) && negb (eof w) then
    match fuel with
    | O => Raise OutOfFuel
    | S fuel =>
        let ev := next_monitor_ev w in
        '(nxt, it, o, store) <- next fs (monitor_it w) (out w) s ;;
        match nxt with
        | Some nxt =>
            t_next <- t_cpu_of nxt ;;
            advance fuel fs td t_next
              {| out := o; eof := eof w; aeof := aeof w; t_delta_max := t_delta_max w;
                 monitor_it := it; monitor_ev := ev; next_monitor_ev := nxt |} store
        | None =>
            imon <- imon_of ev ;;
            t_cpu <- t_cpu_of ev ;;
            let nxt := synthetic imon t_cpu (t_delta_max w) in
            t_next <- t_cpu_of nxt ;;
            advance fuel fs td t_next
              {| out := o; eof := true; aeof := aeof w; t_delta_max := t_delta_max w;
                 monitor_it := it; monitor_ev := ev; next_monitor_ev := nxt |} store
        end
    end
  else Ok (tn, w, s).
Proof. destruct fuel; reflexivity. Qed.

(** Once the end of the file has been seen, the loop does nothing. *)
Lemma advance_eof (fuel : nat) (fs : FileSystem) (td tn : Z) (w : t) (s : HDFStore) :
  eof w = true -> advance fuel fs td tn w s = Ok (tn, w, s).
Proof.
  intros H. rewrite advance_unfold, H. simpl. now rewrite andb_false_r.
Qed.

Lemma advance_frame (fuel : nat) (fs : FileSystem) (td : Z) :
  forall (tn : Z) (w : t) (s : HDFStore) (tn' : Z) (w' : t) (s' : HDFStore),
  advance fuel fs td tn w s = Ok (tn', w', s') ->
  t_delta_max w' = t_delta_max w /\ aeof w' = aeof w /\
  (eof w = true -> eof w' = true).
Proof.
  induction fuel as [|fuel IH]; intros tn w s tn' w' s' H.
  - rewrite advance_unfold in H.
    destruct ((tn <? td) && negb (eof w)); [discriminate|].
    inversion H; subst; auto.
  - rewrite advance_unfold in H.
    destruct ((tn <? td) && negb (eof w)) eqn:Hc.
    2:{ inversion H; subst; auto. }
    cbv zeta in H. bind_inv H. destruct x as [[[[df|] it] o] s1].
    + bind_inv H. apply IH in H. simpl in H. intuition.
    + bind_inv H. bind_inv H. bind_inv H. apply IH in H. simpl in H. intuition.
Qed.

(** The loop keeps the current cycle index from falling. *)
Lemma advance_aligned (fuel : nat) (fs : FileSystem) (td : Z) :
  forall (tn : Z) (w : t) (s : HDFStore) (tn' : Z) (w' : t) (s' : HDFStore),
  aligned w ->
  advance fuel fs td tn w s = Ok (tn', w', s') ->
  aligned w' /\
  exists a a', imon_of (monitor_ev w) = Ok a /\ imon_of (monitor_ev w') = Ok a' /\ a <= a'.
Proof.
  induction fuel as [|fuel IH]; intros tn w s tn' w' s' Hal H.
  - rewrite advance_unfold in H.
    destruct ((tn <? td) && negb (eof w)); [discriminate|].
    inversion H; subst. split; [assumption|].
    destruct Hal as (a & b & Ha & _). exists a, a. split; [assumption|]. split; [assumption|lia].
  - rewrite advance_unfold in H.
    destruct ((tn <? td) && negb (eof w)) eqn:Hc.
    2:{ inversion H; subst. split; [assumption|].
        destruct Hal as (a & b & Ha & _). exists a, a. split; [assumption|].
        split; [assumption|lia]. }
    apply andb_prop in Hc. destruct Hc as [_ Heof].
    apply negb_true_iff in Heof.
    destruct Hal as (a & b & Ha & Hb & Hab & Hgen). specialize (Hgen Heof).
    cbv zeta in H. bind_inv H. destruct x as [[[[df|] it] o] s1].
    + bind_inv H.
      destruct (next_yield _ _ _ _ _ _ _ _ H0) as (Hdf & _ & Hit & _).
      apply IH in H.
      * destruct H as [Hal' (a1 & a' & Ha1 & Ha' & Hle)]. split; [assumption|].
        simpl in Ha1. rewrite Hb in Ha1. inversion Ha1; subst a1.
        exists a, a'. split; [assumption|]. split; [assumption|lia].
      * exists b, (next_imon (monitor_it w)). simpl.
        split; [assumption|]. split; [assumption|]. split; [lia|]. intros _. lia.
    + bind_inv H. bind_inv H. bind_inv H.
      apply IH in H.
      * destruct H as [Hal' (a1 & a' & Ha1 & Ha' & Hle)]. split; [assumption|].
        simpl in Ha1. rewrite Hb in Ha1. inversion Ha1; subst a1.
        exists a, a'. split; [assumption|]. split; [assumption|lia].
      * exists b, (x + 1). simpl. rewrite Hb in H1. inversion H1; subst x.
        split; [assumption|]. split; [apply imon_of_synthetic|].
        split; [lia|]. discriminate.
Qed.

(** When the loop meets the end of the file, the lookahead event it leaves
    is the synthetic one, made from the event that is current then. *)
Lemma advance_exhaustion (fuel : nat) (fs : FileSystem) (td : Z) :
  forall (tn : Z) (w : t) (s : HDFStore) (tn' : Z) (w' : t) (s' : HDFStore),
  advance fuel fs td tn w s = Ok (tn', w', s') ->
  eof w = false -> eof w' = true ->
  exists i t0,
    imon_of (monitor_ev w') = Ok i /\ t_cpu_of (monitor_ev w') = Ok t0 /\
    next_monitor_ev w' = synthetic i t0 (t_delta_max w).
Proof.
  induction fuel as [|fuel IH]; intros tn w s tn' w' s' H Hf Ht.
  - rewrite advance_unfold in H.
    destruct ((tn <? td) && negb (eof w)); [discriminate|].
    inversion H; subst. congruence.
  - rewrite advance_unfold in H.
    destruct ((tn <? td) && negb (eof w)) eqn:Hc.
    2:{ inversion H; subst. congruence. }
    cbv zeta in H. bind_inv H. destruct x as [[[[df|] it] o] s1].
    + bind_inv H. apply IH in H; auto.
    + bind_inv H. bind_inv H. bind_inv H.
      rewrite advance_eof in H by reflexivity. inversion H; subst; clear H.
      simpl. eauto.
Qed.

(** On leaving the loop its condition is false, and [t_cpu_next_monitor]
    is the timestamp of the lookahead event. *)
Lemma advance_exit (fuel : nat) (fs : FileSystem) (td : Z) :
  forall (tn : Z) (w : t) (s : HDFStore) (tn' : Z) (w' : t) (s' : HDFStore),
  advance fuel fs td tn w s = Ok (tn', w', s') ->
  (tn' <? td) && negb (eof w') = false /\
  (t_cpu_of (next_monitor_ev w) = Ok tn -> t_cpu_of (next_monitor_ev w') = Ok tn').
Proof.
  induction fuel as [|fuel IH]; intros tn w s tn' w' s' H.
  - rewrite advance_unfold in H.
    destruct ((tn <? td) && negb (eof w)) eqn:Hc; [discriminate|].
    inversion H; subst. auto.
  - rewrite advance_unfold in H.
    destruct ((tn <? td) && negb (eof w)) eqn:Hc.
    2:{ inversion H; subst. auto. }
    cbv zeta in H. bind_inv H. destruct x as [[[[df|] it] o] s1].
    + bind_inv H. apply IH in H. simpl in H. destruct H as [Hx Hy]. auto.
    + bind_inv H. bind_inv H. bind_inv H. apply IH in H. simpl in H.
      destruct H as [Hx Hy]. auto.
Qed.

End Aligner.

(** ** The bound of the loops is large enough *)

Section Fuel.
Context {P : Pandas}.
Import MonitorWriter.

Lemma python_bind {A B : Type} (c : result A) (k : A -> result B) :
  python c -> (forall a, c = Ok a -> python (k a)) -> python (bind c k).
Proof.
  unfold python. intros Hc Hk. destruct c; simpl; [now apply Hk|].
  intros Heq. apply Hc. now inversion Heq.
Qed.

Lemma python_Ok {A : Type} (a : A) : python (Ok a).
Proof. discriminate. Qed.

Lemma python_cast_cells (bits : Z) (vs : list value) : python (cast_cells bits vs).
Proof.
  induction vs as [|v vs IH]; cbn [cast_cells]; [apply python_Ok|].
  apply python_bind; [destruct v; discriminate|]. intros.
  apply python_bind; [exact IH|]. intros. apply python_Ok.
Qed.

Lemma python_astype (bits : Z) (c : string) (df : DataFrame) :
  python (astype_uint bits c df).
Proof.
  unfold astype_uint, loc_all. destruct (mem_string c (columns df)); [|discriminate].
  cbn [bind]. apply python_bind; [apply python_cast_cells|]. intros. apply python_Ok.
Qed.

Lemma python_append_to_file (o : Output) (s : HDFStore) : python (_append_to_file o s).
Proof.
  unfold _append_to_file. destruct (df_list o); [apply python_Ok|].
  apply python_bind; [apply python_astype|]. intros.
  apply python_bind; [apply python_astype|]. intros. apply python_Ok.
Qed.

Lemma python_append_monitor_event (df : DataFrame) (o : Output) (s : HDFStore) :
  python (append_monitor_event df o s).
Proof.
  unfold append_monitor_event.
  match goal with |- python (if ?c then _ else _) => destruct c end;
    [apply python_append_to_file | apply python_Ok].
Qed.

Lemma python_dict_merge (m k : Metadata) : python (dict_merge m k).
Proof. unfold dict_merge. destruct (existsb _ k); discriminate. Qed.

Lemma python_handle_line (l : Locals) (line : string) (e : exn) :
  handle_line l line = LRaise e -> e = IndexError.
Proof.
  unfold handle_line. destruct (String.eqb line ""); [discriminate|].
  destruct (split_space (remove_newlines line)) as [|d0 [|d1 rest]];
    try (intros H; now inversion H).
  destruct (to_datetime _); [|discriminate].
  destruct (contains marker line); [discriminate|].
  destruct rest as [|device [|measurement [|d4 [|d5 rest]]]]; try discriminate.
  destruct (mem_string _ supported); [|discriminate].
  destruct (py_int d4); [|discriminate].
  destruct (py_float d5); discriminate.
Qed.

Lemma python_run_lines (path : string) (lines : list string) :
  forall (l : Locals) (o : Output) (s : HDFStore), python (run_lines path lines l o s).
Proof.
  induction lines as [|line lines IH]; intros l o s; simpl.
  - apply python_bind; [|intros; apply python_Ok].
    unfold add_metadata. apply python_bind; [apply python_dict_merge|].
    intros; apply python_Ok.
  - destruct (handle_line l line) eqn:E; auto.
    + apply python_bind; [apply python_append_monitor_event|].
      intros [o1 s1] _. apply python_Ok.
    + apply python_handle_line in E. subst. discriminate.
Qed.

Lemma python_next (fs : FileSystem) (it : generator) (o : Output) (s : HDFStore) :
  python (next fs it o s).
Proof.
  destruct it; simpl.
  - apply python_bind; [|intros; apply python_run_lines].
    unfold open_lines. destruct (read fs monitor_path) as [[|]|]; discriminate.
  - apply python_run_lines.
  - apply python_Ok.
Qed.

Lemma python_loc_as (f : value -> result Z) (i : Z) (c : string) (df : DataFrame) :
  (forall v, python (f v)) -> python (v <- loc i c df ;; f v).
Proof.
  intros Hf. apply python_bind; [|auto].
  unfold loc. destruct (mem_string c (columns df)); [|discriminate].
  destruct (find_label i (rows df)); discriminate.
Qed.

Lemma python_imon_of (df : DataFrame) : python (imon_of df).
Proof. apply python_loc_as. intros []; discriminate. Qed.

Lemma python_t_cpu_of (df : DataFrame) : python (t_cpu_of df).
Proof. apply python_loc_as. intros []; discriminate. Qed.

Lemma python_advance (fuel : nat) (fs : FileSystem) (td : Z) :
  forall (tn : Z) (w : t) (s : HDFStore),
  (lines_left fs (monitor_it w) < fuel)%nat ->
  python (advance fuel fs td tn w s).
Proof.
  induction fuel as [|fuel IH]; intros tn w s Hlt; [lia|].
  rewrite advance_unfold.
  destruct ((tn <? td) && negb (eof w)); [|apply python_Ok].
  cbv zeta. apply python_bind; [apply python_next|].
  intros [[[[df|] it] o] s1] Hn.
  - apply python_bind; [apply python_t_cpu_of|]. intros t1 _.
    apply IH. simpl. apply next_yield in Hn. lia.
  - apply python_bind; [apply python_imon_of|]. intros i _.
    apply python_bind; [apply python_t_cpu_of|]. intros t0 _.
    apply python_bind; [apply python_t_cpu_of|]. intros t1 _.
    rewrite advance_eof by reflexivity. apply python_Ok.
Qed.

Lemma python_map_result {A B : Type} (f : A -> result B) (l : list A) :
  (forall a, python (f a)) -> python (map_result f l).
Proof.
  intros Hf. induction l as [|a l IH]; simpl; [apply python_Ok|].
  apply python_bind; [apply Hf|]. intros.
  apply python_bind; [apply IH|]. intros. apply python_Ok.
Qed.

(** [match_to_data_events] never stops for want of fuel: what the model
    returns is what the method returns or raises. *)
Lemma python_match_to_data_events (fs : FileSystem) (w : t) (s : HDFStore)
                                  (data_ev : DataFrame) :
  python (match_to_data_events fs w s data_ev).
Proof.
  unfold match_to_data_events.
  apply python_bind; [apply python_t_cpu_of|]. intros td _.
  apply python_bind; [apply python_t_cpu_of|]. intros tn _.
  apply python_bind.
  { apply python_advance. lia. }
  intros [[tn' w1] s1] _.
  apply python_bind.
  { unfold emit_tail.
    destruct (eof w1 && (tn' <? td) && negb (aeof w1)); [|apply python_Ok].
    apply python_bind; [apply python_append_monitor_event|].
    intros [o1 s2] _. apply python_Ok. }
  intros [w2 s2] _.
  apply python_bind; [|intros; apply python_Ok].
  unfold stamp.
  apply python_bind; [apply python_imon_of|]. intros i _.
  apply python_bind.
  { unfold loc_all. destruct (mem_string "pixel" (columns data_ev)); discriminate. }
  intros px _.
  apply python_bind; [|intros; apply python_Ok].
  apply python_map_result. intros []; discriminate.
Qed.

Lemma python_drain (fuel : nat) (fs : FileSystem) :
  forall (it : generator) (o : Output) (s : HDFStore),
  (lines_left fs it < fuel)%nat -> python (drain fuel fs it o s).
Proof.
  induction fuel as [|fuel IH]; intros it o s Hlt; [lia|]. simpl.
  apply python_bind; [apply python_next|].
  intros [[[[df|] it'] o'] s'] Hn; [|apply python_Ok].
  apply IH. apply next_yield in Hn. lia.
Qed.

End Fuel.

(** ** The aligner, call by call *)

Section Calls.
Context {P : Pandas}.
Import MonitorWriter.

Lemma update_delta_max (w : t) (d : Z) :
  t_delta_max (update_delta w d) = Z.max (t_delta_max w) d /\
  eof (update_delta w d) = eof w /\ aeof (update_delta w d) = aeof w /\
  monitor_it (update_delta w d) = monitor_it w /\
  monitor_ev (update_delta w d) = monitor_ev w /\
  next_monitor_ev (update_delta w d) = next_monitor_ev w.
Proof.
  unfold update_delta. destruct (t_delta_max w <? d) eqn:E; simpl.
  - apply Z.ltb_lt in E. repeat split. lia.
  - apply Z.ltb_ge in E. repeat split. lia.
Qed.

Lemma aligned_update_delta (w : t) (d : Z) : aligned w -> aligned (update_delta w d).
Proof.
  unfold aligned. destruct (update_delta_max w d) as (_ & -> & _ & -> & -> & ->). auto.
Qed.

Lemma emit_tail_inv (td tn : Z) (w w' : t) (s s' : HDFStore) :
  emit_tail td tn w s = Ok (w', s') ->
  next_monitor_ev w' = next_monitor_ev w /\ eof w' = eof w /\
  t_delta_max w' = t_delta_max w /\ monitor_it w' = monitor_it w /\
  (monitor_ev w' = monitor_ev w /\ aeof w' = aeof w \/
   monitor_ev w' = next_monitor_ev w /\ aeof w' = true /\ aeof w = false /\
   eof w = true /\ tn < td).
Proof.
  unfold emit_tail. intros H.
  destruct (eof w && (tn <? td) && negb (aeof w)) eqn:E.
  - bind_inv H. destruct x as [o1 s1]. inversion H; subst; clear H. simpl.
    apply andb_prop in E. destruct E as [E E3]. apply andb_prop in E.
    destruct E as [E1 E2]. apply Z.ltb_lt in E2. apply negb_true_iff in E3.
    repeat split; auto. right. auto.
  - inversion H; subst. repeat split; auto.
Qed.

Lemma map_result_length {A B : Type} (f : A -> result B) (l : list A) (l' : list B) :
  map_result f l = Ok l' -> List.length l' = List.length l.
Proof.
  revert l'. induction l as [|a l IH]; intros l' H; simpl in H.
  - inversion H. reflexivity.
  - bind_inv H. bind_inv H. inversion H; subst. simpl. f_equal. now apply IH.
Qed.

Lemma column_values_assign (c : string) (vs : list value) (df : DataFrame) :
  List.length vs = List.length (rows df) ->
  column_values c (assign c vs df) = vs.
Proof.
  unfold column_values, assign. simpl.
  generalize (rows df). intros rs. revert vs.
  induction rs as [|[i r] rs IH]; intros [|v vs] Hlen; simpl in *; try discriminate.
  - reflexivity.
  - rewrite get_set_same. f_equal. apply IH. lia.
Qed.

Lemma stamp_inv (w : t) (ev ev' : DataFrame) :
  stamp w ev = Ok ev' ->
  exists imon,
    imon_of (monitor_ev w) = Ok imon /\
    map_result (monitor_index imon) (column_values "pixel" ev)
    = Ok (column_values "monitor_index" ev').
Proof.
  unfold stamp. intros H. bind_inv H. bind_inv H. bind_inv H.
  inversion H; subst; clear H. exists x. split; [assumption|].
  unfold loc_all in H1. destruct (mem_string "pixel" (columns ev)); [|discriminate].
  inversion H1; subst; clear H1. fold (column_values "pixel" ev) in *.
  rewrite column_values_assign; [assumption|].
  apply map_result_length in H2. rewrite H2. unfold column_values.
  now rewrite length_map.
Qed.

Lemma match_inv (fs : FileSystem) (w w' : t) (s s' : HDFStore) (ev ev' : DataFrame) :
  match_to_data_events fs w s ev = Ok (w', s', ev') ->
  exists td tn tn1 w1 s1 fuel,
    t_cpu_of ev = Ok td /\ t_cpu_of (next_monitor_ev w) = Ok tn /\
    advance fuel fs td tn (update_delta w (tn - td)) s = Ok (tn1, w1, s1) /\
    emit_tail td tn1 w1 s1 = Ok (w', s') /\
    stamp w' ev = Ok ev'.
Proof.
  unfold match_to_data_events. intros H.
  bind_inv H. bind_inv H. bind_inv H. destruct x1 as [[tn1 w1] s1].
  bind_inv H. destruct x1 as [w2 s2]. bind_inv H. inversion H; subst; clear H.
  exists x, x0, tn1, w1, s1. eexists. repeat split; eauto.
Qed.

Lemma init_inv (fs : FileSystem) (path : string) (store : HDFStore) (w : t) (s : HDFStore) :
  init fs path store = Ok (w, s) ->
  aligned w /\ imon_of (monitor_ev w) = Ok 0 /\ eof w = false /\ aeof w = false /\
  t_delta_max w = 0 /\ next_monitor_ev w = monitor_ev w.
Proof.
  unfold init, discard. intros H. bind_inv H.
  destruct x as [[[[df|] it] o] s1]; [|discriminate].
  inversion H; subst; clear H. simpl.
  apply next_yield in H0. destruct H0 as (Hi & _ & Hn & _). simpl in Hi, Hn.
  repeat split; auto.
  exists 0, 0. simpl. repeat split; auto; lia.
Qed.

(** A call keeps the writer aligned and does not lower the cycle index. *)
Lemma match_aligned (fs : FileSystem) (w w' : t) (s s' : HDFStore) (ev ev' : DataFrame) :
  aligned w ->
  match_to_data_events fs w s ev = Ok (w', s', ev') ->
  aligned w' /\
  exists a a', imon_of (monitor_ev w) = Ok a /\ imon_of (monitor_ev w') = Ok a' /\ a <= a'.
Proof.
  intros Hal H. apply match_inv in H.
  destruct H as (td & tn & tn1 & w1 & s1 & fuel & _ & _ & Hadv & Htail & _).
  apply advance_aligned in Hadv; [|now apply aligned_update_delta].
  destruct Hadv as [Hal1 (a & a1 & Ha & Ha1 & Hle)].
  destruct (update_delta_max w (tn - td)) as (_ & _ & _ & _ & Hev & _).
  rewrite Hev in Ha.
  apply emit_tail_inv in Htail.
  destruct Htail as (Hn & He & _ & Hit & [[Hm _] | (Hm & _ & _ & He1 & _)]).
  - split.
    + destruct Hal1 as (x & y & ? & ? & ? & ?). exists x, y.
      rewrite Hm, Hn, He, Hit. auto.
    + exists a, a1. rewrite Hm. auto.
  - destruct Hal1 as (x & y & Hx & Hy & Hxy & Hg). split.
    + exists y, y. rewrite Hm, Hn, He, He1.
      split; [assumption|]. split; [assumption|]. split; [lia|discriminate].
    + exists a, y. rewrite Hm. rewrite Ha1 in Hx. inversion Hx; subst.
      split; [assumption|]. split; [assumption|lia].
Qed.

Lemma calls_watermark (fs : FileSystem) (events : list DataFrame) :
  forall (w : t) (s : HDFStore) (cs : list call) (a : Z),
  aligned w -> imon_of (monitor_ev w) = Ok a ->
  calls fs w s events = Ok cs ->
  exists imons,
    map (fun c => imon_of (monitor_ev (after c))) cs = map Ok imons /\
    StronglySorted Z.le (a :: imons) /\
    Forall (fun c => exists imon,
              imon_of (monitor_ev (after c)) = Ok imon /\
              map_result (monitor_index imon) (column_values "pixel" (data_ev c))
              = Ok (column_values "monitor_index" (stamped c))) cs.
Proof.
  induction events as [|ev events IH]; intros w s cs a Hal Ha H; simpl in H.
  - inversion H; subst. exists []. simpl. repeat constructor.
  - bind_inv H. destruct x as [[w' s'] ev']. bind_inv H. inversion H; subst; clear H.
    pose proof (match_aligned _ _ _ _ _ _ _ Hal H0) as [Hal' (a0 & a' & Ha0 & Ha' & Hle)].
    rewrite Ha in Ha0. inversion Ha0; subst a0.
    destruct (IH _ _ _ a' Hal' Ha' H1) as (imons & Hm & Hs & Hst).
    exists (a' :: imons). simpl. rewrite Ha', Hm. split; [reflexivity|]. split.
    + constructor; [assumption|].
      constructor; [assumption|].
      apply StronglySorted_inv in Hs. destruct Hs as [_ Hall].
      eapply Forall_impl; [|exact Hall]. simpl. intros; lia.
    + constructor; [|assumption]. simpl.
      apply match_inv in H0.
      destruct H0 as (td & tn & tn1 & w1 & s1 & fuel & _ & _ & _ & _ & Hstamp).
      apply stamp_inv in Hstamp. exact Hstamp.
Qed.

(** C1. For data events with strictly increasing timestamps matched one
    after the other by a writer built on a monitor file that holds an
    event, the cycle index of the current monitor event never falls from
    one call to the next, and each record of an event is given that index
    times [n_modules] plus its module, [pixel // n_tmpix]. *)
Theorem watermark_never_regresses
    (fs : FileSystem) (monitor_path : string) (store : HDFStore)
    (w0 : t) (s0 : HDFStore) (events : list DataFrame) (ts : list Z) (cs : list call) :
  init fs monitor_path store = Ok (w0, s0) ->
  map t_cpu_of events = map Ok ts ->
  StronglySorted Z.lt ts ->
  calls fs w0 s0 events = Ok cs ->
  exists imons,
    map (fun c => imon_of (monitor_ev (after c))) cs = map Ok imons /\
    StronglySorted Z.le imons /\
    Forall (fun c => exists imon,
              imon_of (monitor_ev (after c)) = Ok imon /\
              map_result (monitor_index imon) (column_values "pixel" (data_ev c))
              = Ok (column_values "monitor_index" (stamped c))) cs.
Proof.
  intros Hinit _ _ Hcalls.
  apply init_inv in Hinit. destruct Hinit as (Hal & H0 & _).
  destruct (calls_watermark _ _ _ _ _ _ Hal H0 Hcalls) as (imons & Hm & Hs & Hst).
  exists imons. split; [assumption|]. split; [|assumption].
  now apply StronglySorted_inv in Hs.
Qed.

End Calls.

(** ** The aligner past the end of the monitor file, and [t_delta_max] *)

Section Extrapolation.
Context {P : Pandas}.
Import MonitorWriter.

Lemma last_cons_default {A : Type} (a d : A) (l : list A) : last (a :: l) d = last l a.
Proof.
  revert a d. induction l as [|b l IH]; intros a d; [reflexivity|].
  change (last (a :: b :: l) d) with (last (b :: l) d).
  rewrite (IH b d), (IH b a). reflexivity.
Qed.

(** The loop that meets the end of the file has read every event the
    generator had still to yield; the last of them, or the lookahead event
    it began with when there was none, is then the current event, and the
    lookahead time is that of the synthetic event. *)
Lemma advance_reads_the_rest (fuel : nat) (fs : FileSystem) (td : Z) :
  forall (tn : Z) (w : t) (s : HDFStore) (tn' : Z) (w' : t) (s' : HDFStore),
  advance fuel fs td tn w s = Ok (tn', w', s') ->
  eof w = false -> eof w' = true ->
  exists evs,
    remaining fuel fs (monitor_it w) (out w) s = Ok evs /\
    monitor_ev w' = last evs (next_monitor_ev w) /\
    t_cpu_of (next_monitor_ev w') = Ok tn'.
Proof.
  induction fuel as [|fuel IH]; intros tn w s tn' w' s' H Hf Ht;
    rewrite advance_unfold in H.
  - destruct ((tn <? td) && negb (eof w)); [discriminate|].
    inversion H; subst. congruence.
  - destruct ((tn <? td) && negb (eof w)); [|inversion H; subst; congruence].
    cbv zeta in H. bind_inv H. destruct x as [[[[nxt|] it] o] s1].
    + bind_inv H. apply IH in H; [|exact Hf | exact Ht].
      cbn [monitor_it out next_monitor_ev] in H. destruct H as (evs & Hr & Hm & Hn).
      exists (nxt :: evs). cbn [remaining]. rewrite H0. cbn [bind]. rewrite Hr. cbn [bind].
      split; [reflexivity|]. split; [|exact Hn].
      rewrite last_cons_default. exact Hm.
    + bind_inv H. bind_inv H. bind_inv H.
      rewrite advance_eof in H by reflexivity. inversion H; subst; clear H.
      exists []. cbn [remaining]. rewrite H0. cbn [bind monitor_ev next_monitor_ev last].
      split; [reflexivity|]. split; [reflexivity | exact H3].
Qed.

(** What the [if] after the loop does, by its test. *)
Lemma emit_tail_exact (td tn : Z) (w w' : t) (s s' : HDFStore) :
  emit_tail td tn w s = Ok (w', s') ->
  if eof w && (tn <? td) && negb (aeof w)
  then monitor_ev w' = next_monitor_ev w /\ aeof w' = true /\
       append_monitor_event (next_monitor_ev w) (out w) s = Ok (out w', s')
  else w' = w /\ s' = s.
Proof.
  unfold emit_tail. destruct (eof w && (tn <? td) && negb (aeof w)).
  - cbv zeta. intros H. bind_inv H. destruct x as [o1 s1]. inversion H; subst; clear H.
    cbn [monitor_ev aeof out]. split; [reflexivity|]. split; [reflexivity | exact H0].
  - intros H. inversion H; subst. split; reflexivity.
Qed.

Lemma update_delta_generator (w : t) (d : Z) :
  monitor_it (update_delta w d) = monitor_it w /\ out (update_delta w d) = out w.
Proof. unfold update_delta. destruct (t_delta_max w <? d); split; reflexivity. Qed.

(** C2, as the code has it.  A call made after the end of the monitor file
    has been seen leaves the lookahead event as it is: nothing more is
    synthesized; the lookahead event, which is the synthetic one, becomes
    the current event and is added to the monitor events when the data
    event is later than it and this has not been done before, and
    otherwise the call changes neither the current event nor the monitor
    events.  The call that meets the end of the file has read every event
    the generator had still to yield; it leaves as lookahead the one
    synthetic event, an empty event whose cycle index is that of the last
    event read plus one and whose timestamp is that of the last event read
    plus [t_delta_max]; the current event is then the synthetic event
    when the data event is later than it, and the last event read
    otherwise.  The records are stamped with the cycle index of the
    current event. *)
Theorem exhaustion_synthesizes_one_lookahead
    (fs : FileSystem) (w w' : t) (s s' : HDFStore) (ev ev' : DataFrame) :
  match_to_data_events fs w s ev = Ok (w', s', ev') ->
  exists td,
    t_cpu_of ev = Ok td /\
    (eof w = true ->
     eof w' = true /\ next_monitor_ev w' = next_monitor_ev w /\
     exists tn,
       t_cpu_of (next_monitor_ev w) = Ok tn /\
       if (tn <? td) && negb (aeof w)
       then monitor_ev w' = next_monitor_ev w /\ aeof w' = true /\
            append_monitor_event (next_monitor_ev w) (out w) s = Ok (out w', s')
       else monitor_ev w' = monitor_ev w /\ aeof w' = aeof w /\
            out w' = out w /\ s' = s) /\
    (eof w = false -> eof w' = true ->
     exists evs last_ev i t0,
       remaining (S (lines_left fs (monitor_it w))) fs (monitor_it w) (out w) s = Ok evs /\
       last_ev = last evs (next_monitor_ev w) /\
       imon_of last_ev = Ok i /\ t_cpu_of last_ev = Ok t0 /\
       next_monitor_ev w' = synthetic i t0 (t_delta_max w') /\
       if (t0 + t_delta_max w' <? td) && negb (aeof w)
       then monitor_ev w' = next_monitor_ev w' /\ aeof w' = true
       else monitor_ev w' = last_ev /\ aeof w' = aeof w) /\
    (exists imon,
       imon_of (monitor_ev w') = Ok imon /\
       map_result (monitor_index imon) (column_values "pixel" ev)
       = Ok (column_values "monitor_index" ev')).
Proof.
  intros H. unfold match_to_data_events in H.
  bind_inv H. rename x into td. rename H0 into Htd.
  bind_inv H. rename x into tn. rename H0 into Htn.
  cbv zeta in H. bind_inv H. destruct x as [[tn1 w1] s1]. rename H0 into Hadv.
  bind_inv H. destruct x as [w2 s2]. rename H0 into Htail.
  bind_inv H. inversion H; subst w2 s2 x; clear H. rename H0 into Hstamp.
  destruct (update_delta_max w (tn - td)) as (_ & Hue & Hua & _ & Hum & Hun).
  destruct (update_delta_generator w (tn - td)) as [Hit Hout].
  rewrite Hit in Hadv.
  pose proof (emit_tail_inv _ _ _ _ _ _ Htail) as (Hn & He & Hd & _ & _).
  pose proof (emit_tail_exact _ _ _ _ _ _ Htail) as Hexact.
  exists td. split; [exact Htd|]. split; [|split].
  - intros Heof. rewrite advance_eof in Hadv by congruence.
    inversion Hadv; subst tn1 w1 s1; clear Hadv.
    rewrite He, Hn, Hue, Hun. split; [exact Heof|]. split; [reflexivity|].
    exists tn. split; [exact Htn|].
    rewrite Hue, Hua, Hun, Hout, Heof in Hexact. cbn [andb] in Hexact.
    destruct ((tn <? td) && negb (aeof w)).
    + exact Hexact.
    + destruct Hexact as [-> ->]. rewrite Hum, Hua, Hout. auto.
  - intros Hf Ht. rewrite He in Ht.
    pose proof (advance_frame _ _ _ _ _ _ _ _ _ Hadv) as (Hd1 & Ha1 & _).
    pose proof (advance_exhaustion _ _ _ _ _ _ _ _ _ Hadv ltac:(congruence) Ht)
      as (i & t0 & Hi & Ht0 & Hsyn).
    pose proof (advance_reads_the_rest _ _ _ _ _ _ _ _ _ Hadv ltac:(congruence) Ht)
      as (evs & Hrem & Hlast & Htn1).
    rewrite Hit, Hout in Hrem. rewrite Hun in Hlast.
    rewrite Hsyn, t_cpu_of_synthetic in Htn1. inversion Htn1 as [Htn1']; clear Htn1.
    exists evs, (monitor_ev w1), i, t0.
    split; [exact Hrem|]. split; [exact Hlast|]. split; [exact Hi|]. split; [exact Ht0|].
    rewrite Hn, Hd, Hd1. split; [exact Hsyn|].
    rewrite Ht, Ha1, Hua, <- Htn1' in Hexact. cbn [andb] in Hexact.
    destruct ((t0 + t_delta_max (update_delta w (tn - td)) <? td) && negb (aeof w)).
    + destruct Hexact as (Hm & Ha & _). split; [exact Hm | exact Ha].
    + destruct Hexact as [-> _]. rewrite Ha1, Hua. split; reflexivity.
  - now apply stamp_inv in Hstamp.
Qed.

Lemma match_delta (fs : FileSystem) (w w' : t) (s s' : HDFStore) (ev ev' : DataFrame) :
  match_to_data_events fs w s ev = Ok (w', s', ev') ->
  exists tn td,
    t_cpu_of (next_monitor_ev w) = Ok tn /\ t_cpu_of ev = Ok td /\
    t_delta_max w' = Z.max (t_delta_max w) (tn - td).
Proof.
  intros H. apply match_inv in H.
  destruct H as (td & tn & tn1 & w1 & s1 & fuel & Htd & Htn & Hadv & Htail & _).
  exists tn, td. split; [assumption|]. split; [assumption|].
  apply advance_frame in Hadv. destruct Hadv as (Hd1 & _).
  apply emit_tail_inv in Htail. destruct Htail as (_ & _ & Hd & _).
  rewrite Hd, Hd1. apply update_delta_max.
Qed.

Lemma last_cons {A : Type} (l : list A) :
  forall (x d : A), last (x :: l) d = last l x.
Proof.
  induction l as [|y l IH]; intros x d; [reflexivity|].
  change (last (x :: y :: l) d) with (last (y :: l) d).
  rewrite (IH y d), (IH y x). reflexivity.
Qed.

Lemma calls_delta (fs : FileSystem) (events : list DataFrame) :
  forall (w : t) (s : HDFStore) (cs : list call),
  calls fs w s events = Ok cs ->
  exists deltas,
    map lookahead_delta cs = map Ok deltas /\
    t_delta_max (final w cs) = fold_left Z.max deltas (t_delta_max w).
Proof.
  induction events as [|ev events IH]; intros w s cs H; simpl in H.
  - inversion H; subst. exists []. split; reflexivity.
  - bind_inv H. destruct x as [[w' s'] ev']. bind_inv H. inversion H; subst; clear H.
    destruct (match_delta _ _ _ _ _ _ _ H0) as (tn & td & Htn & Htd & Hmax).
    destruct (IH _ _ _ H1) as (deltas & Hm & Hf).
    exists ((tn - td) :: deltas). split.
    + simpl. rewrite Hm. unfold lookahead_delta at 1. simpl. rewrite Htn, Htd. reflexivity.
    + simpl fold_left. rewrite <- Hmax, <- Hf. unfold final.
      simpl map. now rewrite last_cons.
Qed.

(** C3, as the code has it.  After any number of calls made by a writer
    just built, [t_delta_max] is the largest of 0 and, for the calls made
    so far, the timestamp of the lookahead event when the call begins less
    the timestamp of the data event. *)
Theorem t_delta_max_is_largest_lookahead_delta
    (fs : FileSystem) (monitor_path : string) (store : HDFStore)
    (w0 : t) (s0 : HDFStore) (events : list DataFrame) (cs : list call) :
  init fs monitor_path store = Ok (w0, s0) ->
  calls fs w0 s0 events = Ok cs ->
  exists deltas,
    map lookahead_delta cs = map Ok deltas /\
    t_delta_max (final w0 cs) = fold_left Z.max deltas 0.
Proof.
  intros Hinit Hcalls. apply init_inv in Hinit.
  destruct Hinit as (_ & _ & _ & _ & Hd & _).
  destruct (calls_delta _ _ _ _ _ Hcalls) as (deltas & Hm & Hf).
  exists deltas. rewrite Hf, Hd. auto.
Qed.

End Extrapolation.

(** ** The monitor file: timestamps, missing file, malformed lines *)

Section MonitorFile.
Context {P : Pandas}.
Import MonitorWriter.

Lemma handle_line_shift (l : Locals) (line : string) (t0 : Z) :
  line <> "" -> line_time line = Some t0 ->
  exists l', locals_after (handle_line l line) = Some l' /\ l_t_cpu l' = Some (t0 - hour).
Proof.
  intros Hne Ht. unfold handle_line. unfold line_time in Ht.
  destruct (String.eqb line "") eqn:E; [apply String.eqb_eq in E; contradiction|].
  destruct (split_space (remove_newlines line)) as [|d0 [|d1 rest]]; try discriminate.
  rewrite Ht. destruct (contains marker line); [simpl; eauto|].
  destruct rest as [|device [|measurement [|d4 [|d5 rest]]]]; try (simpl; eauto; fail).
  destruct (mem_string _ supported); [|simpl; eauto].
  destruct (py_int d4); simpl; eauto.
  destruct (py_float d5); simpl; eauto.
Qed.

(** C9. The monitor event that the generator yields carries, in every one
    of its rows, the date and time written on the line that ends the cycle
    less one hour; and every line whose date and time can be read,
    whatever else it holds, leaves that date and time less one hour in
    [t_cpu]. *)
Theorem monitor_timestamp_is_line_time_less_one_hour
    (fs : FileSystem) (it it' : generator) (o o' : Output) (s s' : HDFStore)
    (df : DataFrame) :
  next fs it o s = Ok (Some df, it', o', s') ->
  (exists skipped line rest t0,
     pending fs it = skipped ++ line :: rest /\ pending fs it' = rest /\
     contains marker line = true /\ line_time line = Some t0 /\
     t_cpu_of df = Ok (t0 - hour) /\
     Forall (fun ir => get_cell "t_cpu" (snd ir) = VTime (t0 - hour)) (rows df)) /\
  (forall (l : Locals) (line : string) (t0 : Z),
     line <> "" -> line_time line = Some t0 ->
     exists l', locals_after (handle_line l line) = Some l' /\
                l_t_cpu l' = Some (t0 - hour)).
Proof.
  intros H. split; [|intros; now apply handle_line_shift].
  destruct it as [path|path rest l|]; simpl in H.
  - bind_inv H.
    destruct (run_lines_yield _ _ initial_locals _ _ _ _ _ _ has_label_empty_df H)
      as (sk & ln & rest & l' & t0 & -> & -> & _ & Ht & Hm & _ & Hdf & Hall).
    exists sk, ln, rest, t0. simpl. rewrite H0. repeat split; auto.
  - destruct (run_lines_yield _ _ (resume l) _ _ _ _ _ _ has_label_empty_df H)
      as (sk & ln & rest' & l' & t0 & -> & -> & _ & Ht & Hm & _ & Hdf & Hall).
    exists sk, ln, rest', t0. simpl. repeat split; auto.
  - discriminate.
Qed.

Lemma read_remove_same (path : string) (fs : FileSystem) :
  read (remove path fs) path = None.
Proof.
  induction fs as [|[p f] fs IH]; simpl; [reflexivity|].
  destruct (String.eqb p path) eqn:E; simpl; [exact IH|]. now rewrite E.
Qed.

Lemma read_remove_other (path p : string) (fs : FileSystem) :
  p <> path -> read (remove path fs) p = read fs p.
Proof.
  intros Hne. induction fs as [|[q f] fs IH]; simpl; [reflexivity|].
  destruct (String.eqb q path) eqn:E; simpl.
  - apply String.eqb_eq in E. subst q.
    assert (String.eqb path p = false) as -> by (apply String.eqb_neq; congruence).
    exact IH.
  - destruct (String.eqb q p); [reflexivity | exact IH].
Qed.

Lemma remove_absent (path : string) (fs : FileSystem) :
  read fs path = None -> remove path fs = fs.
Proof.
  induction fs as [|[p f] fs IH]; simpl; [reflexivity|].
  destruct (String.eqb p path); simpl; [discriminate|].
  intros H. now rewrite IH.
Qed.

Lemma remove_remove (path : string) (fs : FileSystem) :
  remove path (remove path fs) = remove path fs.
Proof. apply remove_absent, read_remove_same. Qed.

(** What [__init__] of the DL1 writer leaves at [dl1_path] before the
    store is opened. *)
Lemma removed_if_exists (path : string) (fs : FileSystem) :
  (if exists_ fs path then remove path fs else fs) = remove path fs.
Proof.
  unfold exists_. destruct (read fs path) eqn:E; [reflexivity|].
  symmetry. now apply remove_absent.
Qed.

(** C4. When no file is at the path of the monitor file, building the
    monitor writer raises [FileNotFoundError], an [IOError]: the test on
    the path raises nothing, the first [next] opens the file.  Building
    the DL1 writer with that path raises it too. *)
Theorem missing_monitor_file_raises
    (fs : FileSystem) (monitor_path dl1_path : string) (totalrows : Z) (store : HDFStore) :
  read fs monitor_path = None ->
  monitor_path <> "" ->
  monitor_path <> dl1_path ->
  init fs monitor_path store = Raise FileNotFoundError /\
  DL1Writer.init fs dl1_path totalrows (Some monitor_path) = Raise FileNotFoundError /\
  is_IOError FileNotFoundError = true.
Proof.
  intros Hnone Hne Hneq.
  assert (Hinit : forall fs' st, read fs' monitor_path = None ->
                                 init fs' monitor_path st = Raise FileNotFoundError).
  { intros fs' st H'. unfold init, discard. simpl. unfold open_lines. now rewrite H'. }
  split; [now apply Hinit|]. split; [|reflexivity].
  unfold DL1Writer.init. rewrite removed_if_exists.
  unfold HDFStore_open. rewrite read_remove_same. simpl.
  assert (String.eqb monitor_path "" = false) as -> by now apply String.eqb_neq.
  rewrite Hinit; [reflexivity|].
  unfold write_file. simpl.
  assert (String.eqb dl1_path monitor_path = false) as ->
    by (apply String.eqb_neq; congruence).
  rewrite remove_remove. now rewrite read_remove_other.
Qed.


(** C6 fails on the code.  An empty line of the monitor file, which the
    file gives as a newline alone, passes [if line:]; it has one field, so
    [data[1]] raises [IndexError], which [except ValueError] lets through:
    the generator ends there, and so does the construction of the writer
    when the line comes before the first monitor event. *)
Theorem blank_line_raises_IndexError
    (l : Locals) (path : string) (rest : list string) (store : HDFStore) :
  handle_line l blank_line = LRaise IndexError /\
  init [(path, Text (blank_line :: rest))] path store = Raise IndexError.
Proof.
  split; [reflexivity|].
  unfold init, discard. simpl. unfold open_lines. simpl.
  now rewrite String.eqb_refl.
Qed.

End MonitorFile.

(** ** Columns and rows through [_append_to_file] *)

Section Prepare.
Context {P : Pandas}.

Lemma add_column_present (c : string) (cols : list string) :
  mem_string c cols = true -> add_column c cols = cols.
Proof. unfold add_column. now intros ->. Qed.

Lemma mem_add_column (c c' : string) (cols : list string) :
  mem_string c' (add_column c cols) = mem_string c' cols || String.eqb c' c.
Proof.
  unfold add_column. destruct (mem_string c cols) eqn:E.
  - destruct (String.eqb c' c) eqn:E'; [|now rewrite orb_false_r].
    apply String.eqb_eq in E'. subst. now rewrite E.
  - rewrite mem_string_app. simpl. now rewrite orb_false_r.
Qed.

Lemma length_assign_rows (c : string) (vs : list value) (rs : list (Z * row)) :
  List.length (assign_rows c vs rs) = List.length rs.
Proof.
  revert vs. induction rs as [|[i r] rs IH]; intros [|v vs]; simpl; auto.
Qed.

Lemma nrows_assign (c : string) (vs : list value) (df : DataFrame) :
  nrows (assign c vs df) = nrows df.
Proof. unfold nrows, assign. simpl. now rewrite length_assign_rows. Qed.

Lemma nrows_set_column (c : string) (v : value) (df : DataFrame) :
  nrows (set_column c v df) = nrows df.
Proof. unfold nrows, set_column. simpl. now rewrite length_map. Qed.

Lemma downcast_floats_shape (df : DataFrame) :
  columns (downcast_floats df) = columns df /\ nrows (downcast_floats df) = nrows df.
Proof.
  unfold downcast_floats.
  assert (H : forall (l : list string) (d : DataFrame),
             (forall c, In c l -> mem_string c (columns d) = true) ->
             let d' := fold_left
                         (fun d c =>
                            if is_float_column (column_values c df)
                            then assign c (to_numeric_downcast (column_values c df)) d
                            else d) l d in
             columns d' = columns d /\ nrows d' = nrows d).
  { induction l as [|c l IH]; intros d Hin; simpl; [auto|].
    destruct (is_float_column (column_values c df)).
    - destruct (IH (assign c (to_numeric_downcast (column_values c df)) d)) as [H1 H2].
      + intros c' Hc'. simpl. apply mem_add_column_mono. apply Hin. now right.
      + rewrite H1, H2, nrows_assign. simpl.
        rewrite add_column_present; [auto|]. apply Hin. now left.
    - apply IH. intros c' Hc'. apply Hin. now right. }
  apply H. intros c Hc. now apply mem_string_In.
Qed.

Lemma cast_cells_spec (bits : Z) (vs : list value) :
  forall us, cast_cells bits vs = Ok us -> Forall2 (fun v u => to_uint bits v = Ok u) vs us.
Proof.
  induction vs as [|v vs IH]; intros us H; cbn [cast_cells] in H.
  - inversion H; subst. constructor.
  - bind_inv H. bind_inv H. inversion H; subst. constructor; [assumption | now apply IH].
Qed.

(** A cast returns when the column holds no NaN. *)
Lemma cast_cells_returns (bits : Z) (vs : list value) :
  Forall (fun v => v <> VNaN) vs -> exists us, cast_cells bits vs = Ok us.
Proof.
  induction vs as [|v vs IH]; intros H; cbn [cast_cells]; [eauto|].
  apply Forall_cons_iff in H. destruct H as [Hv H].
  destruct (IH H) as [us ->].
  destruct v; cbn [to_uint bind]; eauto. congruence.
Qed.

Lemma astype_uint_inv (bits : Z) (c : string) (df df' : DataFrame) :
  astype_uint bits c df = Ok df' ->
  mem_string c (columns df) = true /\
  exists us, cast_cells bits (column_values c df) = Ok us /\ df' = assign c us df.
Proof.
  unfold astype_uint, loc_all. destruct (mem_string c (columns df)) eqn:E; [|discriminate].
  cbn [bind]. intros H. bind_inv H. inversion H; subst; clear H.
  split; [reflexivity|]. exists x. split; [exact H0 | reflexivity].
Qed.

Lemma astype_uint_shape (bits : Z) (c : string) (df df' : DataFrame) :
  astype_uint bits c df = Ok df' ->
  columns df' = columns df /\ nrows df' = nrows df.
Proof.
  intros H. apply astype_uint_inv in H. destruct H as (E & us & _ & ->).
  cbn [assign columns]. rewrite add_column_present by assumption.
  split; [reflexivity|apply nrows_assign].
Qed.

Lemma length_insert_row (x : Z * row) (l : list (Z * row)) :
  List.length (insert_row x l) = S (List.length l).
Proof.
  induction l as [|y l IH]; simpl; [reflexivity|].
  destruct (row_le x y); simpl; [reflexivity | now rewrite IH].
Qed.

Lemma length_sort_rows (l : list (Z * row)) :
  List.length (sort_rows l) = List.length l.
Proof.
  induction l as [|x l IH]; simpl; [reflexivity|].
  now rewrite length_insert_row, IH.
Qed.

Lemma sort_values_shape (df df' : DataFrame) :
  sort_values_iev_pixel df = Ok df' ->
  columns df' = columns df /\ nrows df' = nrows df.
Proof.
  unfold sort_values_iev_pixel.
  destruct (mem_string "iev" (columns df) && mem_string "pixel" (columns df)); [|discriminate].
  intros H. inversion H; subst; clear H. unfold nrows. simpl.
  now rewrite length_sort_rows.
Qed.

Lemma fill_defaults_shape (df : DataFrame) :
  nrows (DL1Writer.fill_defaults df) = nrows df /\
  forall c, mem_string c (columns (DL1Writer.fill_defaults df))
            = mem_string c (columns df) || mem_string c DL1Writer.default_c.
Proof.
  unfold DL1Writer.fill_defaults. generalize DL1Writer.default_c. intros l. revert df.
  induction l as [|column l IH]; intros df; simpl.
  - split; [reflexivity|]. intros c. now rewrite orb_false_r.
  - destruct (mem_string column (columns df)) eqn:E.
    + destruct (IH df) as [H1 H2]. split; [assumption|]. intros c. rewrite H2.
      destruct (String.eqb c column) eqn:Ec; [|reflexivity].
      apply String.eqb_eq in Ec. subst. now rewrite E.
    + destruct (IH (set_column column (VFloat 0 0) df)) as [H1 H2].
      split; [now rewrite H1, nrows_set_column|]. intros c. rewrite H2. simpl.
      rewrite mem_add_column. now rewrite orb_assoc.
Qed.

Lemma length_range_index (rs : list (Z * row)) :
  forall start, List.length (range_index start rs) = List.length rs.
Proof.
  induction rs as [|[i r] rs IH]; intros start; simpl; [reflexivity|]. now rewrite IH.
Qed.

Lemma nrows_pd_concat (frames : list DataFrame) :
  nrows (pd_concat frames) = total_rows frames.
Proof.
  unfold nrows, pd_concat, total_rows. simpl. rewrite length_range_index.
  induction frames as [|df frames IH]; simpl; [reflexivity|].
  rewrite length_app, Nat2Z.inj_add, IH. reflexivity.
Qed.

(** The frame that is written has the rows of the buffered frames, and
    the columns of their concatenation and of [default_c]. *)
Lemma prepare_shape (frames : list DataFrame) (df : DataFrame) :
  DL1Writer.prepare frames = Ok df ->
  nrows df = total_rows frames /\
  forall c, mem_string c (columns df)
            = mem_string c (columns (pd_concat frames)) || mem_string c DL1Writer.default_c.
Proof.
  unfold DL1Writer.prepare. intros H.
  bind_inv H. bind_inv H. bind_inv H. bind_inv H. bind_inv H.
  apply sort_values_shape in H. destruct H as [Hc Hn].
  repeat match goal with
         | Ha : astype_uint _ _ _ = Ok _ |- _ =>
             apply astype_uint_shape in Ha; destruct Ha as [? ?]
         end.
  destruct (downcast_floats_shape (DL1Writer.fill_defaults (pd_concat frames))) as [Hdc Hdn].
  destruct (fill_defaults_shape (pd_concat frames)) as [Hfn Hfc].
  split.
  - rewrite <- nrows_pd_concat. congruence.
  - intros c. rewrite <- Hfc. congruence.
Qed.

(** A column that neither the buffered frames nor [default_c] name is not
    in the frame that is written. *)
Lemma prepare_lacks (c : string) (frames : list DataFrame) (df : DataFrame) :
  DL1Writer.prepare frames = Ok df ->
  mem_string c (columns (pd_concat frames)) = false ->
  mem_string c DL1Writer.default_c = false ->
  mem_string c (columns df) = false.
Proof.
  intros H H1 H2. apply prepare_shape in H. destruct H as [_ H].
  now rewrite H, H1, H2.
Qed.

End Prepare.

(** ** The store *)

Lemma get_storer_append_same (key : string) (df : DataFrame) (store : HDFStore) :
  get_storer key (store_append key df store)
  = Some match get_storer key store with
         | Some st => extend_table df st
         | None => {| table := df; attrs_metadata := None |}
         end.
Proof.
  induction store as [|[k st] store IH]; simpl.
  - now rewrite String.eqb_refl.
  - destruct (String.eqb k key) eqn:E; simpl; rewrite E; [reflexivity | exact IH].
Qed.

Lemma get_storer_append_other (key key' : string) (df : DataFrame) (store : HDFStore) :
  key <> key' -> get_storer key' (store_append key df store) = get_storer key' store.
Proof.
  intros Hne. induction store as [|[k st] store IH]; simpl.
  - assert (String.eqb key key' = false) as -> by now apply String.eqb_neq. reflexivity.
  - destruct (String.eqb k key) eqn:E; simpl.
    + apply String.eqb_eq in E. subst k.
      assert (String.eqb key key' = false) as -> by now apply String.eqb_neq. reflexivity.
    + destruct (String.eqb k key'); [reflexivity | exact IH].
Qed.

Lemma get_storer_replace_same (key : string) (m : Metadata) (store : HDFStore) :
  get_storer key (replace_metadata key m store)
  = option_map (fun st => {| table := table st; attrs_metadata := Some m |})
               (get_storer key store).
Proof.
  induction store as [|[k st] store IH]; simpl; [reflexivity|].
  destruct (String.eqb k key) eqn:E; simpl; rewrite E; [reflexivity | exact IH].
Qed.

Lemma get_storer_replace_other (key key' : string) (m : Metadata) (store : HDFStore) :
  key <> key' -> get_storer key' (replace_metadata key m store) = get_storer key' store.
Proof.
  intros Hne. induction store as [|[k st] store IH]; simpl; [reflexivity|].
  destruct (String.eqb k key) eqn:E; simpl.
  - apply String.eqb_eq in E. subst k.
    assert (String.eqb key key' = false) as -> by now apply String.eqb_neq. reflexivity.
  - destruct (String.eqb k key'); [reflexivity | exact IH].
Qed.

Lemma table_rows_append (key : string) (df : DataFrame) (store : HDFStore) :
  table_rows key (store_append key df store) = table_rows key store + nrows df.
Proof.
  unfold table_rows. rewrite get_storer_append_same.
  destruct (get_storer key store); simpl; [|reflexivity].
  unfold nrows. simpl. rewrite length_app. lia.
Qed.

Lemma save_metadata_inv (key : string) (m : Metadata) (store store' : HDFStore) :
  save_metadata key m store = Ok store' ->
  (exists st, get_storer key store = Some st /\
              get_storer key store' = Some {| table := table st; attrs_metadata := Some m |}) /\
  forall key', key <> key' -> get_storer key' store' = get_storer key' store.
Proof.
  unfold save_metadata. destruct (get_storer key store) as [st|] eqn:E; [|discriminate].
  intros H. inversion H; subst; clear H. split.
  - exists st. split; [reflexivity|]. now rewrite get_storer_replace_same, E.
  - intros key' Hne. now apply get_storer_replace_other.
Qed.

Lemma meta_get_app (k : string) (m1 m2 : Metadata) :
  meta_get k (m1 ++ m2)
  = match meta_get k m1 with
    | Some v => Some v
    | None => meta_get k m2
    end.
Proof.
  induction m1 as [|[k' v] m1 IH]; simpl; [reflexivity|].
  destruct (String.eqb k' k); [reflexivity | exact IH].
Qed.

Lemma dict_merge_single (m m' : Metadata) (k : string) (v : meta) :
  dict_merge m [(k, v)] = Ok m' -> meta_get k m' = Some v.
Proof.
  unfold dict_merge. simpl. destruct (meta_get k m) eqn:E; simpl; [discriminate|].
  intros H. inversion H; subst. rewrite meta_get_app, E. simpl.
  now rewrite String.eqb_refl.
Qed.

(** ** The monitor writer leaves the table of data events alone *)

Section DataTable.
Context {P : Pandas}.
Import MonitorWriter.

Lemma monitor_append_to_file_data (o o' : Output) (s s' : HDFStore) :
  _append_to_file o s = Ok (o', s') -> get_storer "data" s' = get_storer "data" s.
Proof.
  unfold _append_to_file. destruct (df_list o).
  - intros H. now inversion H.
  - intros H. bind_inv H. bind_inv H. inversion H; subst.
    now apply get_storer_append_other.
Qed.

Lemma append_monitor_event_data (df : DataFrame) (o o' : Output) (s s' : HDFStore) :
  append_monitor_event df o s = Ok (o', s') -> get_storer "data" s' = get_storer "data" s.
Proof.
  unfold append_monitor_event.
  match goal with |- (if ?c then _ else _) = _ -> _ => destruct c end.
  - apply monitor_append_to_file_data.
  - intros H. now inversion H.
Qed.

Lemma run_lines_data (path : string) (lines : list string) :
  forall (l : Locals) (o o' : Output) (s s' : HDFStore) (r : option DataFrame) (it : generator),
  run_lines path lines l o s = Ok (r, it, o', s') ->
  get_storer "data" s' = get_storer "data" s.
Proof.
  induction lines as [|line lines IH]; intros l o o' s s' r it H; simpl in H.
  - bind_inv H. now inversion H.
  - destruct (handle_line l line); eauto; try discriminate.
    bind_inv H. destruct x as [o1 s1]. inversion H; subst.
    eapply append_monitor_event_data; eauto.
Qed.

Lemma next_data (fs : FileSystem) (it it' : generator) (o o' : Output) (s s' : HDFStore)
                (r : option DataFrame) :
  next fs it o s = Ok (r, it', o', s') -> get_storer "data" s' = get_storer "data" s.
Proof.
  destruct it; simpl; intros H.
  - bind_inv H. eapply run_lines_data; eauto.
  - eapply run_lines_data; eauto.
  - now inversion H.
Qed.

Lemma advance_data (fuel : nat) (fs : FileSystem) (td : Z) :
  forall (tn : Z) (w : t) (s : HDFStore) (tn' : Z) (w' : t) (s' : HDFStore),
  advance fuel fs td tn w s = Ok (tn', w', s') ->
  get_storer "data" s' = get_storer "data" s.
Proof.
  induction fuel as [|fuel IH]; intros tn w s tn' w' s' H; rewrite advance_unfold in H;
    destruct ((tn <? td) && negb (eof w)); try discriminate;
    try (inversion H; subst; reflexivity).
  cbv zeta in H. bind_inv H. destruct x as [[[[df|] it] o] s1].
  - bind_inv H. apply IH in H. apply next_data in H0. congruence.
  - bind_inv H. bind_inv H. bind_inv H. apply IH in H. apply next_data in H0. congruence.
Qed.

Lemma match_data (fs : FileSystem) (w w' : t) (s s' : HDFStore) (ev ev' : DataFrame) :
  match_to_data_events fs w s ev = Ok (w', s', ev') ->
  get_storer "data" s' = get_storer "data" s /\ nrows ev' = nrows ev.
Proof.
  intros H. apply match_inv in H.
  destruct H as (td & tn & tn1 & w1 & s1 & fuel & _ & _ & Hadv & Htail & Hstamp).
  apply advance_data in Hadv. split.
  - unfold emit_tail in Htail.
    destruct (eof w1 && (tn1 <? td) && negb (aeof w1)).
    + bind_inv Htail. destruct x as [o1 s2]. inversion Htail; subst.
      apply append_monitor_event_data in H. congruence.
    + inversion Htail; subst. assumption.
  - unfold stamp in Hstamp. bind_inv Hstamp. bind_inv Hstamp. bind_inv Hstamp.
    inversion Hstamp; subst. apply nrows_assign.
Qed.

Lemma drain_data (fuel : nat) (fs : FileSystem) :
  forall (it it' : generator) (o o' : Output) (s s' : HDFStore),
  drain fuel fs it o s = Ok (it', o', s') -> get_storer "data" s' = get_storer "data" s.
Proof.
  induction fuel as [|fuel IH]; intros it it' o o' s s' H; simpl in H; [discriminate|].
  bind_inv H. destruct x as [[[[df|] it1] o1] s1].
  - apply IH in H. apply next_data in H0. congruence.
  - inversion H; subst. eapply next_data; eauto.
Qed.

Lemma finish_data (fs : FileSystem) (w w' : t) (s s' : HDFStore) :
  finish fs w s = Ok (w', s') -> get_storer "data" s' = get_storer "data" s.
Proof.
  unfold finish. intros H. bind_inv H. destruct x as [[it o] s1].
  bind_inv H. destruct x as [o2 s2]. bind_inv H. bind_inv H. inversion H; subst.
  apply drain_data in H0. apply monitor_append_to_file_data in H1.
  unfold _save_metadata in H3. apply save_metadata_inv in H3. destruct H3 as [_ H3].
  rewrite H3 by discriminate. congruence.
Qed.

Lemma init_data (fs : FileSystem) (path : string) (s s' : HDFStore) (w : t) :
  init fs path s = Ok (w, s') -> get_storer "data" s' = get_storer "data" s.
Proof.
  unfold init, discard. intros H. bind_inv H.
  destruct x as [[[[df|] it] o] s1]; [|discriminate].
  inversion H; subst. eapply next_data; eauto.
Qed.

End DataTable.

(** ** The DL1 writer *)

Section Writer.
Context {P : Pandas}.
Import DL1Writer.

Lemma total_rows_app (l1 l2 : list DataFrame) :
  total_rows (l1 ++ l2) = total_rows l1 + total_rows l2.
Proof.
  unfold total_rows. induction l1 as [|df l1 IH]; simpl; [reflexivity|].
  rewrite IH. lia.
Qed.

Lemma append_to_file_rows (w w' : t) :
  _append_to_file w = Ok w' ->
  appended w' = appended w /\ dl1_path w' = dl1_path w /\
  metadata w' = metadata w /\ monitor w' = monitor w /\ df_list w' = [].
Proof.
  unfold _append_to_file, appended. destruct (df_list w) as [|df l] eqn:E.
  - intros H. inversion H; subst. rewrite E. auto.
  - intros H. bind_inv H. inversion H; subst; clear H. simpl.
    apply prepare_shape in H0. destruct H0 as [Hn _].
    rewrite table_rows_append, Hn. unfold total_rows. simpl. repeat split. lia.
Qed.

Lemma append_event_rows (fs : FileSystem) (w w' : t) (ev : DataFrame) :
  append_event fs w ev = Ok w' ->
  appended w' = appended w + nrows ev /\ dl1_path w' = dl1_path w /\
  metadata w' = metadata w.
Proof.
  unfold append_event. intros H. bind_inv H. destruct x as [[m s] ev'].
  assert (Hs : get_storer "data" s = get_storer "data" (store w) /\ nrows ev' = nrows ev).
  { destruct (monitor w).
    - bind_inv H0. destruct x as [[m1 s1] ev1]. inversion H0; subst.
      eapply match_data; eauto.
    - inversion H0; subst. auto. }
  destruct Hs as [Hs Hn].
  match type of H with
  | (if ?c then _ else _) = _ => destruct c
  end.
  - apply append_to_file_rows in H. destruct H as (Ha & Hp & Hm & _ & _).
    rewrite Ha, Hp, Hm. unfold appended, table_rows. simpl.
    rewrite Hs, total_rows_app. unfold total_rows at 2. simpl. repeat split. lia.
  - inversion H; subst; clear H. unfold appended, table_rows. simpl.
    rewrite Hs, total_rows_app. unfold total_rows at 2. simpl. repeat split. lia.
Qed.

Lemma append_events_rows (fs : FileSystem) (events : list DataFrame) :
  forall (w w' : t),
  append_events fs w events = Ok w' ->
  appended w' = appended w + total_rows events /\ dl1_path w' = dl1_path w /\
  metadata w' = metadata w.
Proof.
  induction events as [|ev events IH]; intros w w' H; simpl in H.
  - inversion H; subst. unfold total_rows. simpl. repeat split. lia.
  - bind_inv H. apply append_event_rows in H0. apply IH in H.
    destruct H0 as (Ha & Hp & Hm). destruct H as (Ha' & Hp' & Hm').
    rewrite Ha', Hp', Hm', Ha. unfold total_rows. simpl. repeat split; auto. lia.
Qed.

Lemma read_write_file (path : string) (f : file) (fs : FileSystem) :
  read (write_file path f fs) path = Some f.
Proof. unfold write_file. simpl. now rewrite String.eqb_refl. Qed.

Lemma finish_rows (fs fs' : FileSystem) (w : t) :
  finish fs w = Ok fs' ->
  exists store st m b,
    read fs' (dl1_path w) = Some (H5 store) /\
    get_storer "data" store = Some st /\
    nrows (table st) = appended w /\
    attrs_metadata st = Some m /\ meta_get "n_bytes" m = Some (MInt b).
Proof.
  unfold finish. intros H. bind_inv H. bind_inv H. destruct x0 as [m s].
  bind_inv H. bind_inv H. inversion H; subst; clear H.
  apply append_to_file_rows in H0. destruct H0 as (Ha & Hp & Hm & Hmon & Hnil).
  assert (Hs : get_storer "data" s = get_storer "data" (store x)).
  { destruct (monitor x).
    - bind_inv H1. destruct x2 as [m1 s1]. inversion H1; subst.
      eapply finish_data; eauto.
    - inversion H1; subst. reflexivity. }
  unfold add_metadata in H2. bind_inv H2. inversion H2; subst; clear H2.
  apply dict_merge_single in H. simpl in H.
  unfold _save_metadata in H3. simpl in H3.
  apply save_metadata_inv in H3. destruct H3 as [(st & Hst & Hst') _].
  simpl dl1_path. rewrite Hp, read_write_file.
  exists x1. eexists. exists x2. eexists.
  split; [reflexivity|]. split; [exact Hst'|]. simpl.
  split; [|split; [reflexivity|exact H]].
  rewrite <- Ha. unfold appended, table_rows.
  rewrite Hnil, <- Hs, Hst. unfold total_rows. simpl. lia.
Qed.

End Writer.

(** ** Runs of the DL1 writer, and the reader *)

Section Runs.
Context {P : Pandas}.
Import DL1Writer.

Lemma init_removes (fs : FileSystem) (path : string) (totalrows : Z)
                   (monitor_path : option string) :
  init fs path totalrows monitor_path = init (remove path fs) path totalrows monitor_path.
Proof.
  unfold init. rewrite !removed_if_exists, remove_remove. reflexivity.
Qed.

Lemma dl1_init_inv (fs fs' : FileSystem) (path : string) (totalrows : Z)
               (monitor_path : option string) (w : t) :
  init fs path totalrows monitor_path = Ok (w, fs') ->
  get_storer "data" (store w) = None /\ df_list w = [] /\ metadata w = [] /\
  dl1_path w = path /\ read fs' path = Some (H5 []).
Proof.
  unfold init. rewrite removed_if_exists. unfold HDFStore_open.
  rewrite read_remove_same. simpl. intros H.
  destruct monitor_path as [mp|].
  - destruct (String.eqb mp "").
    + inversion H; subst. simpl. rewrite String.eqb_refl. auto.
    + bind_inv H. destruct x as [m s]. inversion H; subst. simpl.
      apply init_data in H0. rewrite String.eqb_refl. auto.
  - inversion H; subst. simpl. rewrite String.eqb_refl. auto.
Qed.

(** After a run that ends well, the file holds a table of data events
    with as many rows as the events appended, and the byte count in its
    metadata. *)
Lemma write_run_rows (fs fs' : FileSystem) (path : string) (totalrows : Z)
                     (monitor_path : option string) (events : list DataFrame) :
  write_run fs path totalrows monitor_path events = Ok fs' ->
  exists store st m b,
    read fs' path = Some (H5 store) /\
    get_storer "data" store = Some st /\
    nrows (table st) = total_rows events /\
    attrs_metadata st = Some m /\ meta_get "n_bytes" m = Some (MInt b).
Proof.
  unfold write_run. intros H. bind_inv H. destruct x as [w fs1]. bind_inv H.
  apply dl1_init_inv in H0. destruct H0 as (Hd & Hl & _ & Hp & _).
  apply append_events_rows in H1. destruct H1 as (Ha & Hp' & _).
  apply finish_rows in H. destruct H as (store & st & m & b & Hr & Hg & Hn & Hm & Hb).
  exists store, st, m, b. rewrite Hp', Hp in Hr.
  repeat split; auto. rewrite Hn, Ha. unfold appended, table_rows.
  rewrite Hd, Hl. unfold total_rows. simpl. lia.
Qed.

(** C8. For a reader whose table records [b] bytes, [load_entire_table]
    without [force] raises [MemoryError] exactly when [b] is over 8 GB;
    when [b] is at most 8 GB, or with [force], it returns the whole table,
    which has [n_rows] rows; and for the file of a run of the DL1 writer
    that is the number of rows of the events appended. *)
Theorem load_entire_table_guard (r : HDFStoreReader.t) (b : Z) :
  HDFStoreReader.n_bytes r = Ok (MInt b) ->
  (HDFStoreReader.load_entire_table r false = Raise MemoryError <-> 8000000000 < b) /\
  (forall force : bool,
     b <= 8000000000 \/ force = true ->
     exists df, HDFStoreReader.load_entire_table r force = Ok df /\
                HDFStoreReader.getitem r = Ok df /\
                HDFStoreReader.n_rows r = Ok (nrows df)) /\
  (forall (fs fs' : FileSystem) (path : string) (totalrows : Z)
          (monitor_path : option string) (events : list DataFrame)
          (m : option HDFStoreReader.t),
     write_run fs path totalrows monitor_path events = Ok fs' ->
     DL1Reader.init fs' path = Ok (r, m) ->
     HDFStoreReader.n_rows r = Ok (total_rows events)).
Proof.
  intros Hb.
  assert (Hst : exists st, get_storer (HDFStoreReader.key r) (HDFStoreReader.store r) = Some st).
  { unfold HDFStoreReader.n_bytes, HDFStoreReader.metadata, HDFStoreReader.storer in Hb.
    destruct (get_storer _ _); [eauto | discriminate]. }
  destruct Hst as [st Hst].
  assert (Hget : HDFStoreReader.getitem r = Ok (table st))
    by (unfold HDFStoreReader.getitem; now rewrite Hst).
  assert (Hrows : HDFStoreReader.n_rows r = Ok (nrows (table st)))
    by (unfold HDFStoreReader.n_rows, HDFStoreReader.storer; now rewrite Hst).
  assert (Hload : forall force,
             HDFStoreReader.load_entire_table r force
             = if (8000000000 <? b) && negb force then Raise MemoryError else Ok (table st)).
  { intros force. unfold HDFStoreReader.load_entire_table, HDFStoreReader.larger_than_8GB.
    rewrite Hb. simpl. destruct ((8000000000 <? b) && negb force); [reflexivity|].
    exact Hget. }
  split; [|split].
  - rewrite Hload. simpl. rewrite andb_true_r.
    destruct (8000000000 <? b) eqn:E.
    + apply Z.ltb_lt in E. tauto.
    + apply Z.ltb_ge in E. split; [discriminate | lia].
  - intros force Hor. exists (table st). rewrite Hload.
    assert ((8000000000 <? b) && negb force = false) as ->.
    { destruct Hor as [Hle | ->]; [|apply andb_false_r].
      apply Z.ltb_ge in Hle. now rewrite Hle. }
    auto.
  - intros fs fs' path totalrows monitor_path events m Hrun Hinit.
    apply write_run_rows in Hrun.
    destruct Hrun as (store & st' & m' & b' & Hr & Hg & Hn & _).
    unfold DL1Reader.init, HDFStore_open_read in Hinit. rewrite Hr in Hinit.
    simpl in Hinit. inversion Hinit; subst; clear Hinit.
    simpl in Hst. rewrite Hg in Hst. inversion Hst; subst.
    rewrite Hrows. now rewrite Hn.
Qed.

(** C10. Building a DL1 writer on a path does what it does when no file
    is at the path, whatever file was there, and so does a whole run; the
    store of the writer is empty, the file at the path is an empty store,
    and with a monitor file too the store holds no table of data events. *)
Theorem writer_starts_from_empty_store
    (fs : FileSystem) (path : string) (totalrows : Z) (monitor_path : option string)
    (events : list DataFrame) :
  init fs path totalrows monitor_path = init (remove path fs) path totalrows monitor_path /\
  write_run fs path totalrows monitor_path events
  = write_run (remove path fs) path totalrows monitor_path events /\
  (exists w fs', init fs path totalrows None = Ok (w, fs') /\
                 store w = [] /\ df_list w = [] /\ read fs' path = Some (H5 [])) /\
  match init fs path totalrows monitor_path with
  | Ok (w, fs') =>
      get_storer "data" (store w) = None /\ df_list w = [] /\ read fs' path = Some (H5 [])
  | Raise _ => True
  end.
Proof.
  split; [apply init_removes|]. split; [|split].
  - unfold write_run. now rewrite init_removes.
  - unfold init. rewrite removed_if_exists. unfold HDFStore_open.
    rewrite read_remove_same. simpl. eexists _, _. split; [reflexivity|].
    simpl. rewrite String.eqb_refl. auto.
  - destruct (init fs path totalrows monitor_path) as [[w fs']|e] eqn:E; [|exact I].
    apply dl1_init_inv in E. tauto.
Qed.

Lemma append_events_buffered (fs : FileSystem) (events : list DataFrame) :
  forall (w : t),
  monitor w = None ->
  stays_below (df_list_n_bytes w) events = true ->
  exists n,
    append_events fs w events
    = Ok {| dl1_path := dl1_path w; totalrows := totalrows w; metadata := metadata w;
            n_bytes := n_bytes w; df_list := df_list w ++ events;
            df_list_n_bytes := n; monitor := None; store := store w |}.
Proof.
  induction events as [|ev events IH]; intros w Hm Hs; simpl in *.
  - exists (df_list_n_bytes w). rewrite app_nil_r. destruct w; simpl in *. now subst.
  - apply andb_prop in Hs. destruct Hs as [H1 H2].
    unfold append_event. rewrite Hm. simpl.
    apply Z.ltb_lt in H1.
    assert ((500000000 <=? df_list_n_bytes w + memory_usage ev) = false) as ->
      by (apply Z.leb_gt; lia).
    simpl.
    match goal with
    | |- context [append_events fs ?w1 events] => destruct (IH w1 eq_refl H2) as [n Hn]
    end.
    exists n. rewrite Hn. simpl. now rewrite <- app_assoc.
Qed.

Lemma append_to_file_same_records
    (p : string) (tr : Z) (m : Metadata) (nb n1 n2 : Z) (l1 l2 : list DataFrame)
    (mon : option MonitorWriter.t) (st : HDFStore) :
  pd_concat l1 = pd_concat l2 -> l1 <> [] -> l2 <> [] ->
  _append_to_file {| dl1_path := p; totalrows := tr; metadata := m; n_bytes := nb;
                     df_list := l1; df_list_n_bytes := n1; monitor := mon; store := st |}
  = _append_to_file {| dl1_path := p; totalrows := tr; metadata := m; n_bytes := nb;
                       df_list := l2; df_list_n_bytes := n2; monitor := mon; store := st |}.
Proof.
  intros Hc Hn1 Hn2. unfold _append_to_file.
  cbn [df_list dl1_path totalrows metadata n_bytes monitor store].
  destruct l1 as [|a1 l1]; [contradiction|]. destruct l2 as [|a2 l2]; [contradiction|].
  unfold prepare. rewrite Hc. reflexivity.
Qed.

(** C7, as the code has it.  Without a monitor writer, two ways of
    appending the same records, neither of which fills the buffer to the
    0.5 GB at which it is written before the run ends, leave the same
    file. *)
Theorem chunking_without_early_flush
    (fs : FileSystem) (path : string) (totalrows : Z) (l1 l2 : list DataFrame) :
  pd_concat l1 = pd_concat l2 ->
  l1 <> [] -> l2 <> [] ->
  stays_below 0 l1 = true ->
  stays_below 0 l2 = true ->
  write_run fs path totalrows None l1 = write_run fs path totalrows None l2.
Proof.
  intros Hc Hn1 Hn2 Hs1 Hs2. unfold write_run.
  destruct (init fs path totalrows None) as [[w fs1]|e] eqn:E; [|reflexivity].
  cbn [bind]. unfold init in E. rewrite removed_if_exists in E.
  unfold HDFStore_open in E. rewrite read_remove_same in E. cbn [bind] in E.
  inversion E; subst; clear E.
  match goal with
  | |- context [append_events ?f ?w0 l1] =>
      destruct (append_events_buffered f l1 w0 eq_refl Hs1) as [n1 ->];
      destruct (append_events_buffered f l2 w0 eq_refl Hs2) as [n2 ->]
  end.
  cbn [bind DL1Writer.df_list DL1Writer.dl1_path DL1Writer.totalrows DL1Writer.metadata
       DL1Writer.n_bytes DL1Writer.monitor DL1Writer.store app].
  unfold finish.
  rewrite (append_to_file_same_records _ _ _ _ n1 n2 l1 l2 _ _ Hc Hn1 Hn2).
  reflexivity.
Qed.

End Runs.



(** ** Columns of a concatenation, and the lines left *)

Section Shapes.
Context {P : Pandas}.
Import MonitorWriter.

Lemma mem_fold_add_column (c : string) (l cols : list string) :
  mem_string c (fold_left (fun a c' => add_column c' a) l cols)
  = mem_string c cols || mem_string c l.
Proof.
  revert cols. induction l as [|c' l IH]; intros cols; simpl.
  - now rewrite orb_false_r.
  - rewrite IH, mem_add_column. now rewrite orb_assoc.
Qed.

Lemma mem_pd_concat (c : string) (frames : list DataFrame) :
  mem_string c (columns (pd_concat frames))
  = existsb (fun df => mem_string c (columns df)) frames.
Proof.
  unfold pd_concat. simpl.
  assert (H : forall cols,
             mem_string c (fold_left
                             (fun cols df => fold_left (fun a c' => add_column c' a)
                                                       (columns df) cols) frames cols)
             = mem_string c cols || existsb (fun df => mem_string c (columns df)) frames).
  { induction frames as [|df frames IH]; intros cols; simpl.
    - now rewrite orb_false_r.
    - rewrite IH, mem_fold_add_column. now rewrite orb_assoc. }
  rewrite H. reflexivity.
Qed.

Lemma lines_left_pending (fs : FileSystem) (it : generator) :
  lines_left fs it = List.length (pending fs it).
Proof.
  destruct it; simpl; [|reflexivity|reflexivity].
  destruct (open_lines fs monitor_path); reflexivity.
Qed.

Lemma map_result_monitor_index (imon : Z) (pixels : list value) :
  Forall (fun v => match v with VInt _ | VNaN => True | _ => False end) pixels ->
  exists index, map_result (monitor_index imon) pixels = Ok index.
Proof.
  induction pixels as [|v pixels IH]; intros H; simpl; [eauto|].
  apply Forall_cons_iff in H. destruct H as [Hv H].
  destruct (IH H) as [index ->].
  destruct v; try contradiction; simpl; eauto.
Qed.

End Shapes.

(** ** The bound of the loops is large enough for a whole run *)

Section FuelWriter.
Context {P : Pandas}.

Lemma python_sort_values (df : DataFrame) : python (sort_values_iev_pixel df).
Proof.
  unfold sort_values_iev_pixel.
  destruct (mem_string "iev" (columns df) && mem_string "pixel" (columns df)); discriminate.
Qed.

Lemma python_prepare (frames : list DataFrame) : python (DL1Writer.prepare frames).
Proof.
  unfold DL1Writer.prepare. cbv zeta.
  repeat (apply python_bind; [apply python_astype | intros ? _]).
  apply python_sort_values.
Qed.

Lemma python_dl1_append_to_file (w : DL1Writer.t) : python (DL1Writer._append_to_file w).
Proof.
  unfold DL1Writer._append_to_file. destruct (DL1Writer.df_list w); [apply python_Ok|].
  apply python_bind; [apply python_prepare | intros; apply python_Ok].
Qed.

Lemma python_monitor_init (fs : FileSystem) (path : string) (s : HDFStore) :
  python (MonitorWriter.init fs path s).
Proof.
  unfold MonitorWriter.init, discard.
  apply python_bind; [apply python_next|].
  intros [[[[df|] it] o] s1] _; [apply python_Ok | discriminate].
Qed.

Lemma python_save_metadata (key : string) (m : Metadata) (s : HDFStore) :
  python (save_metadata key m s).
Proof. unfold save_metadata. destruct (get_storer key s); discriminate. Qed.

Lemma python_monitor_finish (fs : FileSystem) (w : MonitorWriter.t) (s : HDFStore) :
  python (MonitorWriter.finish fs w s).
Proof.
  unfold MonitorWriter.finish.
  apply python_bind; [apply python_drain; lia|]. intros [[it o] s1] _.
  apply python_bind; [apply python_append_to_file|]. intros [o2 s2] _.
  apply python_bind.
  { unfold MonitorWriter.add_metadata.
    apply python_bind; [apply python_dict_merge | intros; apply python_Ok]. }
  intros o3 _.
  apply python_bind; [apply python_save_metadata | intros; apply python_Ok].
Qed.

Lemma python_append_event (fs : FileSystem) (w : DL1Writer.t) (ev : DataFrame) :
  python (DL1Writer.append_event fs w ev).
Proof.
  unfold DL1Writer.append_event. cbv zeta. apply python_bind.
  - destruct (DL1Writer.monitor w); [|apply python_Ok].
    apply python_bind; [apply python_match_to_data_events|].
    intros [[m1 s1] ev1] _. apply python_Ok.
  - intros [[m s] ev'] _.
    match goal with |- python (if ?c then _ else _) => destruct c end;
      [apply python_dl1_append_to_file | apply python_Ok].
Qed.

Lemma python_append_events (fs : FileSystem) (events : list DataFrame) :
  forall w, python (DL1Writer.append_events fs w events).
Proof.
  induction events as [|ev events IH]; intros w; simpl; [apply python_Ok|].
  apply python_bind; [apply python_append_event | intros; apply IH].
Qed.

Lemma python_dl1_finish (fs : FileSystem) (w : DL1Writer.t) : python (DL1Writer.finish fs w).
Proof.
  unfold DL1Writer.finish.
  apply python_bind; [apply python_dl1_append_to_file|]. intros w1 _.
  apply python_bind.
  { destruct (DL1Writer.monitor w1); [|apply python_Ok].
    apply python_bind; [apply python_monitor_finish|].
    intros [m1 s1] _. apply python_Ok. }
  intros [m s] _. cbv zeta.
  apply python_bind.
  { unfold DL1Writer.add_metadata.
    apply python_bind; [apply python_dict_merge | intros; apply python_Ok]. }
  intros w2 _.
  apply python_bind; [apply python_save_metadata | intros; apply python_Ok].
Qed.

Lemma python_dl1_init (fs : FileSystem) (path : string) (rows_expected : Z)
                      (monitor_path : option string) :
  python (DL1Writer.init fs path rows_expected monitor_path).
Proof.
  unfold DL1Writer.init. cbv zeta. apply python_bind.
  - unfold HDFStore_open. destruct (read _ path) as [[|]|]; discriminate.
  - intros [s fs1] _. destruct monitor_path as [mp|]; [|apply python_Ok].
    destruct (String.eqb mp ""); [apply python_Ok|].
    apply python_bind; [apply python_monitor_init|].
    intros [m s1] _. apply python_Ok.
Qed.

(** A run never stops for want of fuel: what the model returns is what
    the run returns or raises. *)
Lemma python_write_run (fs : FileSystem) (path : string) (rows_expected : Z)
                       (monitor_path : option string) (events : list DataFrame) :
  python (DL1Writer.write_run fs path rows_expected monitor_path events).
Proof.
  unfold DL1Writer.write_run.
  apply python_bind; [apply python_dl1_init|]. intros [w fs1] _.
  apply python_bind; [apply python_append_events|]. intros w1 _.
  apply python_dl1_finish.
Qed.

End FuelWriter.

(** * Further properties *)

(** ** The cycles of the monitor file and the metadata of the monitor table *)

Section Cycles.
Context {P : Pandas}.
Import MonitorWriter.

Lemma cycle_ends_cons (line : string) (rest : list string) :
  cycle_ends (line :: rest) = (if is_cycle_end line then 1 else 0) + cycle_ends rest.
Proof.
  unfold cycle_ends. cbn [filter]. destruct (is_cycle_end line); cbn [List.length]; lia.
Qed.

Lemma cycle_ends_nonneg (lines : list string) : 0 <= cycle_ends lines.
Proof. unfold cycle_ends. lia. Qed.

Lemma start_after_cons (start : option Z) (line : string) (rest : list string) :
  start_after start (line :: rest)
  = start_after (if is_cycle_end line then start_after start [line] else start) rest.
Proof.
  unfold start_after. destruct start as [s|].
  - destruct (is_cycle_end line); reflexivity.
  - cbn [first_cycle_time]. destruct (is_cycle_end line) eqn:E; [|reflexivity].
    unfold is_cycle_end in E. destruct (line_time line); [reflexivity | discriminate].
Qed.

Lemma end_after_cons (t_cpu : option Z) (line : string) (rest : list string) :
  end_after t_cpu (line :: rest) = end_after (end_after t_cpu [line]) rest.
Proof. reflexivity. Qed.

Lemma start_after_Some (start : option Z) (lines : list string) :
  start <> None -> start_after start lines = start.
Proof. destruct start; [reflexivity | congruence]. Qed.

(** What the body of the loop does to the cycle counter and to the start
    time, by the kind of the line. *)
Lemma handle_line_cycle (l : Locals) (line : string) :
  match handle_line l line with
  | LYield _ l' =>
      is_cycle_end line = true /\ l_imon l' = l_imon l /\
      l_start_time l' = start_after (l_start_time l) [line] /\ l_start_time l' <> None /\
      l_t_cpu l' = end_after (l_t_cpu l) [line]
  | LNext l' | LReport l' =>
      is_cycle_end line = false /\ l_imon l' = l_imon l /\ l_start_time l' = l_start_time l /\
      l_t_cpu l' = end_after (l_t_cpu l) [line]
  | LRaise _ => True
  end.
Proof.
  unfold handle_line, start_after, first_cycle_time, is_cycle_end, end_after, line_time.
  cbn [fold_left].
  destruct (String.eqb line "") eqn:E.
  - apply String.eqb_eq in E. subst line. cbn. auto.
  - destruct (split_space (remove_newlines line)) as [|d0 [|d1 rest]]; [exact I | exact I |].
    destruct (to_datetime (d0 ++ " " ++ d1)%string) as [t|]; [|auto].
    destruct (contains marker line).
    + cbn [l_imon l_start_time l_t_cpu option_map]. destruct (l_start_time l);
        (split; [reflexivity|]; split; [reflexivity|]; split; [reflexivity|];
         split; [discriminate | reflexivity]).
    + destruct rest as [|dev [|meas [|d4 [|d5 more]]]];
        cbn [l_imon l_start_time l_t_cpu]; auto.
      destruct (mem_string (dev ++ "_" ++ meas)%string supported);
        cbn [l_imon l_start_time l_t_cpu]; auto.
      destruct (py_int d4); cbn [l_imon l_start_time l_t_cpu]; auto.
      destruct (py_float d5); cbn [l_imon l_start_time l_t_cpu]; auto.
Qed.

Lemma monitor_append_to_file_metadata (o o' : Output) (s s' : HDFStore) :
  _append_to_file o s = Ok (o', s') -> metadata o' = metadata o.
Proof.
  unfold _append_to_file. destruct (df_list o).
  - intros H. now inversion H.
  - intros H. bind_inv H. bind_inv H. inversion H; subst. reflexivity.
Qed.

Lemma append_monitor_event_metadata (df : DataFrame) (o o' : Output) (s s' : HDFStore) :
  append_monitor_event df o s = Ok (o', s') -> metadata o' = metadata o.
Proof.
  unfold append_monitor_event.
  match goal with |- (if ?c then _ else _) = _ -> _ => destruct c end.
  - intros H. apply monitor_append_to_file_metadata in H. exact H.
  - intros H. now inversion H.
Qed.

Lemma run_lines_counted (path : string) (lines : list string) :
  forall (l : Locals) (o o' : Output) (s s' : HDFStore) (r : option DataFrame) (it : generator),
  metadata o = [] ->
  run_lines path lines l o s = Ok (r, it, o', s') ->
  match r with
  | Some _ =>
      exists rest l',
        it = Suspended path rest l' /\ metadata o' = [] /\
        l_imon l' = l_imon l /\ 1 + cycle_ends rest = cycle_ends lines /\
        start_after (l_start_time l') rest = start_after (l_start_time l) lines /\
        l_start_time l' <> None /\
        end_after (l_t_cpu l') rest = end_after (l_t_cpu l) lines
  | None =>
      it = Finished /\ cycle_ends lines = 0 /\
      exists l', metadata o' = final_metadata path l' /\
                 l_imon l' = l_imon l + cycle_ends lines /\
                 l_start_time l' = start_after (l_start_time l) lines /\
                 l_t_cpu l' = end_after (l_t_cpu l) lines
  end.
Proof.
  induction lines as [|line lines IH]; intros l o o' s s' r it Hm H; cbn [run_lines] in H.
  - unfold add_metadata, dict_merge in H. rewrite Hm in H. cbn in H.
    inversion H; subst. split; [reflexivity|]. split; [reflexivity|]. exists l.
    split; [reflexivity|]. split; [unfold cycle_ends; cbn; lia|].
    split; [|reflexivity].
    unfold start_after. destruct (l_start_time l); reflexivity.
  - pose proof (handle_line_cycle l line) as Hl.
    rewrite cycle_ends_cons, start_after_cons, end_after_cons.
    destruct (handle_line l line) as [l1|l1|df l1|e]; [| | |discriminate].
    + destruct Hl as (Hc & Hi & Hs & He). rewrite Hc.
      apply IH in H; [|exact Hm]. rewrite Hi, Hs, He in H. exact H.
    + destruct Hl as (Hc & Hi & Hs & He). rewrite Hc.
      apply IH in H; [|exact Hm]. rewrite Hi, Hs, He in H. exact H.
    + destruct Hl as (Hc & Hi & Hs & Hn & He). rewrite Hc.
      bind_inv H. destruct x as [o1 s1]. inversion H; subst.
      apply append_monitor_event_metadata in H0.
      exists lines, l1. split; [reflexivity|]. split; [congruence|].
      split; [exact Hi|]. split; [lia|]. split; [rewrite Hs; reflexivity|].
      split; [exact Hn | rewrite He; reflexivity].
Qed.

Lemma next_counted (fs : FileSystem) (path : string) (lines : list string)
                   (it it' : generator) (o o' : Output) (s s' : HDFStore)
                   (r : option DataFrame) :
  counted path lines it o ->
  next fs it o s = Ok (r, it', o', s') ->
  counted path lines it' o'.
Proof.
  destruct it as [p|p rest l|]; cbn [counted next].
  - intros [].
  - intros (Hp & Hm & Hc & Hs & Hn & He) H. subst p.
    apply run_lines_counted in H; [|exact Hm].
    cbn [resume l_imon l_start_time l_t_cpu] in H.
    rewrite (start_after_Some (l_start_time l)) in H by exact Hn.
    destruct r as [df|].
    + destruct H as (rest' & l' & -> & Hm' & Hi' & Hc' & Hs' & Hn' & He'). cbn [counted].
      rewrite (start_after_Some (l_start_time l')) in Hs' by exact Hn'.
      split; [reflexivity|]. split; [exact Hm'|]. split; [lia|].
      split; [congruence|]. split; [exact Hn' | congruence].
    + destruct H as (-> & _ & l' & Hm' & Hc' & Hs' & He'). cbn [counted].
      exists l'. split; [exact Hm'|]. split; [lia|]. split; congruence.
  - intros Hc H. inversion H; subst. exact Hc.
Qed.

Lemma init_counted (fs : FileSystem) (path : string) (lines : list string)
                   (store s : HDFStore) (w : t) :
  read fs path = Some (Text lines) ->
  init fs path store = Ok (w, s) ->
  counted path lines (monitor_it w) (out w) /\ 0 < cycle_ends lines.
Proof.
  unfold init, discard. intros Hr H. bind_inv H.
  destruct x as [[[[df|] it] o] s1]; [|discriminate].
  inversion H; subst. cbn [monitor_it out].
  cbn [next] in H0. unfold open_lines in H0. rewrite Hr in H0. cbn [bind] in H0.
  apply run_lines_counted in H0; [|reflexivity].
  destruct H0 as (rest & l' & -> & Hm & Hi & Hc & Hs & Hn & He).
  cbn [initial_locals l_imon l_start_time l_t_cpu] in Hi, Hs, He.
  rewrite (start_after_Some (l_start_time l')) in Hs by exact Hn.
  pose proof (cycle_ends_nonneg rest) as Hge.
  split.
  - cbn [counted]. split; [reflexivity|]. split; [exact Hm|]. split; [lia|].
    split; [exact Hs|]. split; [exact Hn | exact He].
  - lia.
Qed.

End Cycles.

Section CyclesWriter.
Context {P : Pandas}.
Import MonitorWriter.

Lemma counted_metadata (path : string) (lines : list string) (it : generator)
                       (o o' : Output) :
  metadata o' = metadata o -> counted path lines it o -> counted path lines it o'.
Proof. intros Hm. destruct it; cbn [counted]; try rewrite Hm; auto. Qed.

Lemma advance_counted (fuel : nat) (fs : FileSystem) (path : string) (lines : list string)
                      (td : Z) :
  forall (tn : Z) (w : t) (s : HDFStore) (tn' : Z) (w' : t) (s' : HDFStore),
  counted path lines (monitor_it w) (out w) ->
  advance fuel fs td tn w s = Ok (tn', w', s') ->
  counted path lines (monitor_it w') (out w').
Proof.
  induction fuel as [|fuel IH]; intros tn w s tn' w' s' Hc H; rewrite advance_unfold in H;
    destruct ((tn <? td) && negb (eof w)); try discriminate;
    try (inversion H; subst; exact Hc).
  cbv zeta in H. bind_inv H. destruct x as [[[[df|] it] o] s1].
  - bind_inv H. apply IH in H; [exact H|]. cbn [monitor_it out].
    eapply next_counted; eauto.
  - bind_inv H. bind_inv H. bind_inv H. apply IH in H; [exact H|]. cbn [monitor_it out].
    eapply next_counted; eauto.
Qed.

Lemma update_delta_out (w : t) (d : Z) : out (update_delta w d) = out w.
Proof. unfold update_delta. destruct (t_delta_max w <? d); reflexivity. Qed.

Lemma emit_tail_metadata (td tn : Z) (w w' : t) (s s' : HDFStore) :
  emit_tail td tn w s = Ok (w', s') -> metadata (out w') = metadata (out w).
Proof.
  unfold emit_tail. destruct (eof w && (tn <? td) && negb (aeof w)).
  - intros H. bind_inv H. destruct x as [o1 s1]. inversion H; subst. cbn [out].
    eapply append_monitor_event_metadata; eauto.
  - intros H. inversion H; subst. reflexivity.
Qed.

Lemma match_counted (fs : FileSystem) (path : string) (lines : list string)
                    (w w' : t) (s s' : HDFStore) (ev ev' : DataFrame) :
  counted path lines (monitor_it w) (out w) ->
  match_to_data_events fs w s ev = Ok (w', s', ev') ->
  counted path lines (monitor_it w') (out w').
Proof.
  intros Hc H. apply match_inv in H.
  destruct H as (td & tn & tn1 & w1 & s1 & fuel & _ & _ & Hadv & Htail & _).
  apply advance_counted with (path := path) (lines := lines) in Hadv.
  - pose proof (emit_tail_metadata _ _ _ _ _ _ Htail) as Hm.
    apply emit_tail_inv in Htail. destruct Htail as (_ & _ & _ & Hit & _).
    rewrite Hit. eapply counted_metadata; eauto.
  - rewrite update_delta_out.
    destruct (update_delta_max w (tn - td)) as (_ & _ & _ & -> & _). exact Hc.
Qed.

Lemma drain_counted (fuel : nat) (fs : FileSystem) (path : string) (lines : list string) :
  forall (it it' : generator) (o o' : Output) (s s' : HDFStore),
  counted path lines it o ->
  drain fuel fs it o s = Ok (it', o', s') ->
  counted path lines it' o' /\ it' = Finished.
Proof.
  induction fuel as [|fuel IH]; intros it it' o o' s s' Hc H; simpl in H; [discriminate|].
  bind_inv H. destruct x as [[[[df|] it1] o1] s1].
  - eapply IH; [|exact H]. eapply next_counted; eauto.
  - inversion H; subst. split; [eapply next_counted; eauto | eapply next_stop; eauto].
Qed.

Lemma monitor_finish_storer (fs : FileSystem) (w w' : t) (s s' : HDFStore) :
  finish fs w s = Ok (w', s') ->
  exists st m, get_storer "monitor" s' = Some st /\ attrs_metadata st = Some m /\
               m = metadata (out w').
Proof.
  unfold finish. intros H. bind_inv H. destruct x as [[it o] s1].
  bind_inv H. destruct x as [o2 s2]. bind_inv H. bind_inv H. inversion H; subst.
  unfold _save_metadata in H3. apply save_metadata_inv in H3.
  destruct H3 as [(st & _ & Hst) _]. eexists _, _. split; [exact Hst|].
  split; reflexivity.
Qed.

Lemma monitor_finish_metadata (fs : FileSystem) (path : string) (lines : list string)
                              (w w' : t) (s s' : HDFStore) :
  counted path lines (monitor_it w) (out w) ->
  finish fs w s = Ok (w', s') ->
  exists l b,
    metadata (out w') = final_metadata path l ++ [("n_bytes", MInt b)] /\
    l_imon l = cycle_ends lines /\ l_start_time l = start_after None lines /\
    l_t_cpu l = end_after None lines.
Proof.
  unfold finish. intros Hc H. bind_inv H. destruct x as [[it o] s1].
  bind_inv H. destruct x as [o2 s2]. bind_inv H. bind_inv H. inversion H; subst.
  apply drain_counted with (path := path) (lines := lines) in H0; [|exact Hc].
  destruct H0 as [Hc1 ->]. cbn [counted] in Hc1. destruct Hc1 as (l & Hm & Hi & Hs & He).
  apply monitor_append_to_file_metadata in H1.
  unfold add_metadata in H2. bind_inv H2. inversion H2; subst. cbn [out metadata].
  unfold dict_merge in H0. rewrite H1, Hm in H0. cbn in H0. inversion H0; subst.
  exists l, (n_bytes o2). split; [reflexivity|]. split; [assumption|]. split; assumption.
Qed.

End CyclesWriter.

Section CyclesRun.
Context {P : Pandas}.
Import DL1Writer.

Lemma read_write_file_other (path p : string) (f : file) (fs : FileSystem) :
  path <> p -> read (write_file path f fs) p = read fs p.
Proof.
  intros Hne. unfold write_file. cbn [read].
  assert (String.eqb path p = false) as -> by (now apply String.eqb_neq).
  apply read_remove_other. congruence.
Qed.

Lemma dl1_append_to_file_other (w w' : t) (k : string) :
  _append_to_file w = Ok w' -> k <> "data" ->
  get_storer k (store w') = get_storer k (store w).
Proof.
  unfold _append_to_file. destruct (df_list w).
  - intros H _. now inversion H.
  - intros H Hk. bind_inv H. inversion H; subst. cbn [store].
    apply get_storer_append_other. congruence.
Qed.

(** What [append_event] does to the monitor writer. *)
Lemma append_event_monitor (fs : FileSystem) (w w' : t) (ev : DataFrame) :
  append_event fs w ev = Ok w' ->
  match monitor w with
  | Some m =>
      exists m' s ev',
        MonitorWriter.match_to_data_events fs m (store w) ev = Ok (m', s, ev') /\
        monitor w' = Some m'
  | None =>
      monitor w' = None /\
      forall k, k <> "data" -> get_storer k (store w') = get_storer k (store w)
  end.
Proof.
  unfold append_event. intros H. bind_inv H. destruct x as [[m s] ev'].
  destruct (monitor w) as [m0|].
  - bind_inv H0. destruct x as [[m1 s1] ev1]. inversion H0; subst.
    exists m1, s, ev'. split; [assumption|].
    match type of H with
    | (if ?c then _ else _) = _ => destruct c
    end.
    + apply append_to_file_rows in H. destruct H as (_ & _ & _ & Hm & _).
      rewrite Hm. reflexivity.
    + inversion H; subst. reflexivity.
  - inversion H0; subst.
    match type of H with
    | (if ?c then _ else _) = _ => destruct c
    end.
    + split.
      * apply append_to_file_rows in H. destruct H as (_ & _ & _ & Hm & _).
        rewrite Hm. reflexivity.
      * intros k Hk. rewrite (dl1_append_to_file_other _ _ k H Hk). reflexivity.
    + inversion H; subst. split; [reflexivity|]. intros k _. reflexivity.
Qed.

Lemma append_event_monitored (fs : FileSystem) (path : string) (lines : list string)
                             (w w' : t) (ev : DataFrame) :
  monitored path lines w -> append_event fs w ev = Ok w' -> monitored path lines w'.
Proof.
  intros (m & Hm & Hc) H. apply append_event_monitor in H. rewrite Hm in H.
  destruct H as (m' & s & ev' & Hmatch & Hm').
  exists m'. split; [exact Hm'|]. eapply match_counted; eauto.
Qed.

Lemma append_events_monitored (fs : FileSystem) (path : string) (lines : list string)
                              (events : list DataFrame) :
  forall (w w' : t),
  monitored path lines w -> append_events fs w events = Ok w' -> monitored path lines w'.
Proof.
  induction events as [|ev events IH]; intros w w' Hm H; simpl in H.
  - inversion H; subst. exact Hm.
  - bind_inv H. eapply IH; [|exact H]. eapply append_event_monitored; eauto.
Qed.

Lemma append_events_monitor (fs : FileSystem) (events : list DataFrame) :
  forall (w w' : t),
  append_events fs w events = Ok w' ->
  match monitor w with
  | Some _ => exists m', monitor w' = Some m'
  | None =>
      monitor w' = None /\
      forall k, k <> "data" -> get_storer k (store w') = get_storer k (store w)
  end.
Proof.
  induction events as [|ev events IH]; intros w w' H; simpl in H.
  - inversion H; subst. destruct (monitor w'); eauto.
  - bind_inv H. apply append_event_monitor in H0. apply IH in H.
    destruct (monitor w) as [m|].
    + destruct H0 as (m' & s & ev' & _ & Hm'). rewrite Hm' in H. exact H.
    + destruct H0 as [Hm' Hk]. rewrite Hm' in H. destruct H as [Hm'' Hk'].
      split; [exact Hm''|]. intros k Hne. rewrite Hk', Hk by exact Hne. reflexivity.
Qed.

(** The monitor writer of a DL1 writer, by the monitor path given. *)
Lemma dl1_init_monitor (fs fs' : FileSystem) (path : string) (rows_expected : Z)
                       (monitor_path : option string) (w : t) :
  init fs path rows_expected monitor_path = Ok (w, fs') ->
  fs' = write_file path (H5 []) (remove path fs) /\
  match monitor_path with
  | None => monitor w = None /\ store w = []
  | Some mp =>
      if String.eqb mp "" then monitor w = None /\ store w = []
      else exists m, MonitorWriter.init fs' mp [] = Ok (m, store w) /\ monitor w = Some m
  end.
Proof.
  unfold init. rewrite removed_if_exists. unfold HDFStore_open.
  rewrite read_remove_same. cbn [bind]. intros H.
  destruct monitor_path as [mp|].
  - destruct (String.eqb mp "").
    + inversion H; subst. cbn [monitor store]. auto.
    + bind_inv H. destruct x as [m s]. inversion H; subst. cbn [monitor store].
      split; [reflexivity|]. exists m. split; [assumption | reflexivity].
  - inversion H; subst. cbn [monitor store]. auto.
Qed.

Lemma dl1_init_monitored (fs fs' : FileSystem) (path mp : string) (rows_expected : Z)
                         (lines : list string) (w : t) :
  read fs mp = Some (Text lines) -> mp <> "" -> mp <> path ->
  init fs path rows_expected (Some mp) = Ok (w, fs') ->
  monitored mp lines w /\ 0 < cycle_ends lines.
Proof.
  intros Hr Hne Hp H. apply dl1_init_monitor in H. destruct H as [Hfs H].
  assert (String.eqb mp "" = false) as E by (now apply String.eqb_neq).
  rewrite E in H. destruct H as (m & Hi & Hm).
  assert (Hr' : read fs' mp = Some (Text lines)).
  { subst fs'. rewrite read_write_file_other by congruence.
    rewrite read_remove_other by exact Hp. exact Hr. }
  apply (init_counted _ _ _ _ _ _ Hr') in Hi. destruct Hi as [Hc Hpos].
  split; [|exact Hpos]. exists m. split; assumption.
Qed.

(** The store that [finish] leaves in the file. *)
Lemma dl1_finish_store (fs fs' : FileSystem) (w : t) :
  finish fs w = Ok fs' ->
  exists w1 s1 final,
    _append_to_file w = Ok w1 /\
    match monitor w1 with
    | Some m => exists m', MonitorWriter.finish fs m (store w1) = Ok (m', s1)
    | None => s1 = store w1
    end /\
    read fs' (dl1_path w) = Some (H5 final) /\
    (forall k, k <> "data" -> get_storer k final = get_storer k s1) /\
    exists st, get_storer "data" final = Some st /\
               attrs_metadata st = Some (metadata w ++ [("n_bytes", MInt (n_bytes w1))]).
Proof.
  unfold finish. intros H. bind_inv H. bind_inv H. destruct x0 as [m s].
  bind_inv H. bind_inv H. inversion H; subst; clear H.
  pose proof (append_to_file_rows _ _ H0) as (_ & Hp & Hmeta & _ & _).
  unfold add_metadata in H2. bind_inv H2. inversion H2; subst; clear H2.
  cbn [metadata n_bytes] in H.
  unfold _save_metadata in H3. cbn [metadata store] in H3.
  apply save_metadata_inv in H3. destruct H3 as [(st & Hst & Hst') Hother].
  exists x, s, x1. split; [exact H0|]. split.
  - destruct (monitor x).
    + apply bind_Ok in H1. destruct H1 as ([m1 s2] & Hf & H1). inversion H1; subst.
      exists m1. exact Hf.
    + inversion H1; subst. reflexivity.
  - cbn [dl1_path]. rewrite Hp, read_write_file. split; [reflexivity|].
    split; [intros k Hk; apply Hother; congruence|].
    eexists. split; [exact Hst'|]. cbn [attrs_metadata].
    unfold dict_merge in H. destruct (existsb _ _); [discriminate|].
    inversion H; subst. rewrite Hmeta. reflexivity.
Qed.

End CyclesRun.

Section Run.
Context {P : Pandas}.
Import DL1Writer.

Lemma first_cycle_time_Some (lines : list string) :
  0 < cycle_ends lines -> exists t0, first_cycle_time lines = Some t0.
Proof.
  induction lines as [|line lines IH].
  - unfold cycle_ends. cbn. lia.
  - rewrite cycle_ends_cons. cbn [first_cycle_time].
    destruct (is_cycle_end line) eqn:E.
    + intros _. unfold is_cycle_end in E. destruct (line_time line); [eauto | discriminate].
    + intros H. apply IH. lia.
Qed.

(** The store in the file of a run: whether it has a monitor table. *)
Lemma write_run_store (fs fs' : FileSystem) (path : string) (rows_expected : Z)
                      (monitor_path : option string) (events : list DataFrame) :
  write_run fs path rows_expected monitor_path events = Ok fs' ->
  exists final,
    read fs' path = Some (H5 final) /\
    (get_storer "monitor" final = None <-> monitor_path = None \/ monitor_path = Some "").
Proof.
  unfold write_run. intros H. bind_inv H. destruct x as [w fs1]. bind_inv H.
  pose proof (dl1_init_inv _ _ _ _ _ _ H0) as (_ & _ & _ & Hpath & _).
  apply dl1_init_monitor in H0. destruct H0 as [_ Hinit].
  pose proof (append_events_rows _ _ _ _ H1) as (_ & Hpath' & _).
  apply append_events_monitor in H1.
  apply dl1_finish_store in H.
  destruct H as (w1 & s1 & final & Hflush & Hfin & Hread & Hother & _).
  pose proof (append_to_file_rows _ _ Hflush) as (_ & _ & _ & Hm1 & _).
  rewrite Hpath', Hpath in Hread. exists final. split; [exact Hread|].
  rewrite (Hother "monitor") by discriminate.
  assert (Hplain : monitor w = None /\ store w = [] -> get_storer "monitor" s1 = None).
  { intros [Hm Hs]. rewrite Hm in H1. destruct H1 as [Hm' Hk].
    rewrite Hm1, Hm' in Hfin. subst s1.
    rewrite (dl1_append_to_file_other _ _ "monitor" Hflush) by discriminate.
    rewrite Hk by discriminate. rewrite Hs. reflexivity. }
  assert (Hwith : (exists m, monitor w = Some m) -> get_storer "monitor" s1 <> None).
  { intros [m Hm]. rewrite Hm in H1. destruct H1 as [m' Hm'].
    rewrite Hm1, Hm' in Hfin. destruct Hfin as [m'' Hfin].
    apply monitor_finish_storer in Hfin. destruct Hfin as (st & md & Hst & _).
    rewrite Hst. discriminate. }
  destruct monitor_path as [mp|].
  - destruct (String.eqb mp "") eqn:E.
    + apply String.eqb_eq in E. subst mp. split; [auto|]. intros _. apply Hplain, Hinit.
    + apply String.eqb_neq in E. split.
      * intros Hn. exfalso. apply Hwith; [|exact Hn].
        destruct Hinit as (m & _ & Hm). eauto.
      * intros [Hc|Hc]; [discriminate | congruence].
  - split; [auto|]. intros _. apply Hplain, Hinit.
Qed.

(** The monitor table in the file of a run with a monitor file. *)
Lemma write_run_monitor_table
    (fs fs' : FileSystem) (path mp : string) (rows_expected : Z)
    (lines : list string) (events : list DataFrame) :
  read fs mp = Some (Text lines) -> mp <> "" -> mp <> path ->
  write_run fs path rows_expected (Some mp) events = Ok fs' ->
  exists final st l b,
    read fs' path = Some (H5 final) /\
    get_storer "monitor" final = Some st /\
    attrs_metadata st
    = Some (MonitorWriter.final_metadata mp l ++ [("n_bytes", MInt b)]) /\
    MonitorWriter.l_imon l = cycle_ends lines /\
    MonitorWriter.l_start_time l = start_after None lines /\
    MonitorWriter.l_t_cpu l = end_after None lines /\
    0 < cycle_ends lines.
Proof.
  intros Hr Hne Hp H. unfold write_run in H. bind_inv H. destruct x as [w fs1]. bind_inv H.
  pose proof (dl1_init_inv _ _ _ _ _ _ H0) as (_ & _ & _ & Hpath & _).
  apply (dl1_init_monitored _ _ _ _ _ _ _ Hr Hne Hp) in H0. destruct H0 as [Hmon Hpos].
  pose proof (append_events_rows _ _ _ _ H1) as (_ & Hpath' & _).
  apply (append_events_monitored _ _ _ _ _ _ Hmon) in H1.
  apply dl1_finish_store in H.
  destruct H as (w1 & s1 & final & Hflush & Hfin & Hread & Hother & _).
  destruct H1 as (m & Hm & Hc).
  pose proof (append_to_file_rows _ _ Hflush) as (_ & _ & _ & Hm1 & _).
  rewrite Hm1, Hm in Hfin. destruct Hfin as (m' & Hfin).
  destruct (monitor_finish_storer _ _ _ _ _ Hfin) as (st & md & Hst & Hmd & ->).
  destruct (monitor_finish_metadata _ _ _ _ _ _ _ Hc Hfin) as (l & b & Hmeta & Hi & Hs & He).
  rewrite Hpath', Hpath in Hread.
  exists final, st, l, b. split; [exact Hread|].
  split; [rewrite (Hother "monitor") by discriminate; exact Hst|].
  split; [rewrite Hmd, Hmeta; reflexivity|].
  repeat (split; [assumption|]). exact Hpos.
Qed.

(** X1. A run with a monitor file leaves, in the metadata of the monitor
    table, the path of the monitor file, the number of cycles of the whole
    file whatever the data events were, the time of the line that ends
    the first cycle and that of the last line that has one, each less one
    hour, and 32 modules of 64 pixels; the file has one cycle at least. *)
Theorem monitor_metadata_of_run
    (fs fs' : FileSystem) (path mp : string) (rows_expected : Z)
    (lines : list string) (events : list DataFrame) :
  read fs mp = Some (Text lines) -> mp <> "" -> mp <> path ->
  write_run fs path rows_expected (Some mp) events = Ok fs' ->
  exists r m md t0,
    DL1Reader.init fs' path = Ok (r, Some m) /\
    HDFStoreReader.metadata m = Ok md /\
    meta_get "input_path" md = Some (MStr mp) /\
    meta_get "n_events" md = Some (MInt (cycle_ends lines)) /\
    0 < cycle_ends lines /\
    first_cycle_time lines = Some t0 /\
    meta_get "start_time" md = Some (MTime (t0 - MonitorWriter.hour)) /\
    meta_get "end_time" md = Some (MonitorWriter.time_meta (end_after None lines)) /\
    meta_get "n_modules" md = Some (MInt 32) /\
    meta_get "n_tmpix" md = Some (MInt 64).
Proof.
  intros Hr Hne Hp H.
  destruct (write_run_monitor_table _ _ _ _ _ _ _ Hr Hne Hp H)
    as (final & st & l & b & Hread & Hst & Hmd & Hi & Hs & He & Hpos).
  destruct (first_cycle_time_Some _ Hpos) as [t0 Ht0].
  unfold DL1Reader.init, HDFStore_open_read. rewrite Hread. cbn [bind]. rewrite Hst.
  eexists _, _, _, t0.
  split; [reflexivity|].
  split.
  { unfold HDFStoreReader.metadata, HDFStoreReader.storer.
    cbn [HDFStoreReader.key HDFStoreReader.store].
    rewrite Hst. cbn [bind]. rewrite Hmd. reflexivity. }
  unfold start_after in Hs. rewrite Ht0 in Hs. cbn [option_map] in Hs.
  split; [reflexivity|].
  split; [rewrite <- Hi; reflexivity|].
  split; [exact Hpos|].
  split; [exact Ht0|].
  split.
  { change (Some (MonitorWriter.time_meta (MonitorWriter.l_start_time l))
            = Some (MTime (t0 - MonitorWriter.hour))).
    rewrite Hs. reflexivity. }
  split; [rewrite <- He; reflexivity|].
  split; reflexivity.
Qed.

(** X2. The reader of a file that a run has written finds a monitor table
    exactly when the run was given a monitor path, and not the empty one;
    the reader of the monitor table then shares the store.  A file that
    does not exist is an [IOError]. *)
Theorem reader_finds_monitor_iff_written_with_one
    (fs fs' : FileSystem) (path : string) (rows_expected : Z)
    (monitor_path : option string) (events : list DataFrame) :
  write_run fs path rows_expected monitor_path events = Ok fs' ->
  (exists r m,
     DL1Reader.init fs' path = Ok (r, m) /\
     HDFStoreReader.key r = "data" /\
     (m = None <-> monitor_path = None \/ monitor_path = Some "") /\
     (forall m', m = Some m' ->
        HDFStoreReader.key m' = "monitor" /\
        HDFStoreReader.store m' = HDFStoreReader.store r)) /\
  (forall p, read fs' p = None -> DL1Reader.init fs' p = Raise IOError).
Proof.
  intros H. apply write_run_store in H. destruct H as (final & Hread & Hiff). split.
  - unfold DL1Reader.init, HDFStore_open_read. rewrite Hread. cbn [bind].
    eexists _, _. split; [reflexivity|]. split; [reflexivity|].
    destruct (get_storer "monitor" final) as [st|].
    + split.
      * split; [discriminate|]. intros Hc. apply Hiff in Hc. discriminate.
      * intros m' Hm'. inversion Hm'; subst. split; reflexivity.
    + split.
      * split; [intros _; now apply Hiff | reflexivity].
      * intros m' Hm'. discriminate.
  - intros p Hp. unfold DL1Reader.init, HDFStore_open_read. rewrite Hp. reflexivity.
Qed.

(** X3. For a file written without a monitor path, [get_monitor_column]
    raises [AttributeError], whatever the indices and the column asked
    for. *)
Theorem get_monitor_column_needs_monitor
    (select_column_of_values : HDFStoreReader.t -> list value -> result (list value))
    (fs fs' : FileSystem) (path : string) (rows_expected : Z)
    (monitor_path : option string) (events : list DataFrame)
    (reader : HDFStoreReader.t * option HDFStoreReader.t)
    (monitor_index : list Z) (column : string) :
  monitor_path = None \/ monitor_path = Some "" ->
  write_run fs path rows_expected monitor_path events = Ok fs' ->
  DL1Reader.init fs' path = Ok reader ->
  DL1Reader.get_monitor_column select_column_of_values reader monitor_index column
  = Raise AttributeError.
Proof.
  intros Hmp H Hinit. apply write_run_store in H. destruct H as (final & Hread & Hiff).
  apply Hiff in Hmp.
  unfold DL1Reader.init, HDFStore_open_read in Hinit. rewrite Hread in Hinit.
  cbn [bind] in Hinit. rewrite Hmp in Hinit. inversion Hinit; subst.
  reflexivity.
Qed.

(** X4. A run in which no event is appended does not end well, with or
    without a monitor file: [finish] finds no table of data events to
    give the metadata to.  Without a monitor file it is the [KeyError] of
    [get_storer]. *)
Theorem run_without_events_fails
    (fs : FileSystem) (path : string) (rows_expected : Z) (monitor_path : option string) :
  (forall fs', write_run fs path rows_expected monitor_path [] <> Ok fs') /\
  write_run fs path rows_expected None [] = Raise KeyError.
Proof.
  split.
  - intros fs' H. unfold write_run in H. bind_inv H. destruct x as [w fs1]. bind_inv H.
    apply dl1_init_inv in H0. destruct H0 as (Hd & Hl & _).
    cbn [append_events] in H1. inversion H1; subst x.
    unfold finish in H. bind_inv H. bind_inv H. destruct x0 as [m s].
    bind_inv H. bind_inv H.
    unfold _append_to_file in H0. rewrite Hl in H0. inversion H0; subst x.
    assert (Hs : get_storer "data" s = None).
    { destruct (monitor w).
      - apply bind_Ok in H2. destruct H2 as ([m1 s2] & Hf & H2). inversion H2; subst.
        apply finish_data in Hf. congruence.
      - inversion H2; subst. exact Hd. }
    unfold add_metadata in H3. bind_inv H3. inversion H3; subst.
    unfold _save_metadata, save_metadata in H4. cbn [store] in H4.
    rewrite Hs in H4. discriminate.
  - unfold write_run, init. rewrite removed_if_exists. unfold HDFStore_open.
    rewrite read_remove_same. reflexivity.
Qed.

(** X23. [get_monitor_column] selects twice, and the second time it gives
    [select_column] the values it has selected, not the name of the
    column: if [select_column] raises for what is not a name, then
    [get_monitor_column] returns for no reader, no indices and no
    column. *)
Theorem get_monitor_column_selects_twice
    (select_column_of_values : HDFStoreReader.t -> list value -> result (list value))
    (reader : HDFStoreReader.t * option HDFStoreReader.t)
    (monitor_index : list Z) (column : string) (values : list value) :
  (forall m vs, exists e, select_column_of_values m vs = Raise e) ->
  DL1Reader.get_monitor_column select_column_of_values reader monitor_index column
  <> Ok values.
Proof.
  intros Hsel. unfold DL1Reader.get_monitor_column.
  destruct (snd reader) as [m|]; [|discriminate].
  destruct (vs <- HDFStoreReader.select_column m column ;;
            DL1Reader.take vs monitor_index) as [picked|e].
  - cbn [bind]. destruct (Hsel m picked) as [e ->]. discriminate.
  - destruct e; discriminate.
Qed.

End Run.

(** ** The calls of [match_to_data_events] *)

Section Bracket.
Context {P : Pandas}.
Import MonitorWriter.

Lemma advance_behind (fuel : nat) (fs : FileSystem) (td : Z) :
  forall (tn : Z) (w : t) (s : HDFStore) (tn' : Z) (w' : t) (s' : HDFStore),
  t_cpu_of (next_monitor_ev w) = Ok tn ->
  advance fuel fs td tn w s = Ok (tn', w', s') ->
  monitor_ev w' = monitor_ev w \/
  exists tc, t_cpu_of (monitor_ev w') = Ok tc /\ tc < td.
Proof.
  induction fuel as [|fuel IH]; intros tn w s tn' w' s' Ht H; rewrite advance_unfold in H;
    destruct ((tn <? td) && negb (eof w)) eqn:E; try discriminate;
    try (inversion H; subst; left; reflexivity).
  apply andb_prop in E. destruct E as [E _]. apply Z.ltb_lt in E.
  cbv zeta in H. bind_inv H. destruct x as [[[[df|] it] o] s1].
  - bind_inv H. apply IH in H; [|exact H1]. cbn [monitor_ev] in H.
    destruct H as [-> | H]; [|right; exact H]. right. eauto.
  - bind_inv H. bind_inv H. bind_inv H. apply IH in H; [|exact H3]. cbn [monitor_ev] in H.
    destruct H as [-> | H]; [|right; exact H]. right. eauto.
Qed.

(** X5. A call of [match_to_data_events] leaves the data event between
    the current monitor event and the lookahead event: when the current
    event has changed, its timestamp is before that of the data event; and
    while the monitor file is not exhausted, the timestamp of the lookahead
    event is not before that of the data event. *)
Theorem data_event_is_bracketed
    (fs : FileSystem) (w w' : t) (s s' : HDFStore) (ev ev' : DataFrame) :
  match_to_data_events fs w s ev = Ok (w', s', ev') ->
  exists td,
    t_cpu_of ev = Ok td /\
    (monitor_ev w' = monitor_ev w \/
     exists tc, t_cpu_of (monitor_ev w') = Ok tc /\ tc < td) /\
    (eof w' = false ->
     exists tn, t_cpu_of (next_monitor_ev w') = Ok tn /\ td <= tn).
Proof.
  intros H. apply match_inv in H.
  destruct H as (td & tn & tn1 & w1 & s1 & fuel & Htd & Htn & Hadv & Htail & _).
  destruct (update_delta_max w (tn - td)) as (_ & _ & _ & _ & Hev & Hnext).
  pose proof (advance_exit _ _ _ _ _ _ _ _ _ Hadv) as [Hexit Hnext1].
  rewrite Hnext in Hnext1. specialize (Hnext1 Htn).
  apply advance_behind in Hadv; [|rewrite Hnext; exact Htn]. rewrite Hev in Hadv.
  apply emit_tail_inv in Htail. destruct Htail as (Hn & He & _ & _ & Hcase).
  exists td. split; [exact Htd|]. split.
  - destruct Hcase as [[Hm _] | (Hm & _ & _ & _ & Hlt)].
    + rewrite Hm. exact Hadv.
    + right. exists tn1. rewrite Hm. split; [exact Hnext1 | exact Hlt].
  - intros Heof. rewrite He in Heof. rewrite Heof in Hexit.
    cbn [negb] in Hexit. rewrite andb_true_r in Hexit. apply Z.ltb_ge in Hexit.
    exists tn1. rewrite Hn. split; [exact Hnext1 | exact Hexit].
Qed.

(** X6. Once the monitor file is exhausted and the empty event has been
    added, a call reads and writes nothing more: the store, the buffer,
    the current and the lookahead event stay as they are, and the records
    of every later data event are given the index of that last event. *)
Theorem writer_is_frozen_after_the_tail
    (fs : FileSystem) (w w' : t) (s s' : HDFStore) (ev ev' : DataFrame) :
  eof w = true -> aeof w = true ->
  match_to_data_events fs w s ev = Ok (w', s', ev') ->
  s' = s /\ out w' = out w /\ monitor_it w' = monitor_it w /\
  monitor_ev w' = monitor_ev w /\ next_monitor_ev w' = next_monitor_ev w /\
  eof w' = true /\ aeof w' = true /\
  exists imon,
    imon_of (monitor_ev w) = Ok imon /\
    map_result (monitor_index imon) (column_values "pixel" ev)
    = Ok (column_values "monitor_index" ev').
Proof.
  intros Heof Haeof H. apply match_inv in H.
  destruct H as (td & tn & tn1 & w1 & s1 & fuel & _ & _ & Hadv & Htail & Hstamp).
  destruct (update_delta_max w (tn - td)) as (_ & He & Ha & Hit & Hev & Hnext).
  rewrite advance_eof in Hadv by (rewrite He; exact Heof).
  inversion Hadv; subst tn1 w1 s1; clear Hadv.
  unfold emit_tail in Htail. rewrite Ha, Haeof, andb_false_r in Htail.
  inversion Htail; subst w' s'; clear Htail.
  rewrite update_delta_out, Hit, Hev, Hnext, He, Ha.
  repeat (split; [first [reflexivity | assumption]|]).
  apply stamp_inv in Hstamp. rewrite Hev in Hstamp. exact Hstamp.
Qed.

Lemma run_lines_suffix (path : string) (lines : list string) :
  forall (l : Locals) (o o' : Output) (s s' : HDFStore) (r : option DataFrame) (it : generator),
  run_lines path lines l o s = Ok (r, it, o', s') ->
  (forall p, it <> Created p) /\
  exists consumed, lines = consumed ++ pending [] it.
Proof.
  induction lines as [|line lines IH]; intros l o o' s s' r it H; cbn [run_lines] in H.
  - bind_inv H. inversion H; subst. split; [discriminate|]. exists []. reflexivity.
  - destruct (handle_line l line) as [l1|l1|df l1|e]; [| | |discriminate].
    + apply IH in H. destruct H as [Hc [c ->]]. split; [exact Hc|].
      exists (line :: c). reflexivity.
    + apply IH in H. destruct H as [Hc [c ->]]. split; [exact Hc|].
      exists (line :: c). reflexivity.
    + bind_inv H. destruct x as [o1 s1]. inversion H; subst. split; [discriminate|].
      exists [line]. reflexivity.
Qed.

Lemma pending_read (fs : FileSystem) (it : generator) :
  (forall p, it <> Created p) -> pending fs it = pending [] it.
Proof.
  destruct it; intros H; [exfalso; eapply H; reflexivity | reflexivity | reflexivity].
Qed.

Lemma next_suffix (fs : FileSystem) (it it' : generator) (o o' : Output) (s s' : HDFStore)
                  (r : option DataFrame) :
  next fs it o s = Ok (r, it', o', s') ->
  exists consumed, pending fs it = consumed ++ pending fs it'.
Proof.
  intros H. destruct it as [p|p rest l|]; cbn [next pending] in *.
  - bind_inv H. rewrite H0. apply run_lines_suffix in H. destruct H as [Hc H].
    rewrite (pending_read fs it') by exact Hc. exact H.
  - apply run_lines_suffix in H. destruct H as [Hc H].
    rewrite (pending_read fs it') by exact Hc. exact H.
  - inversion H; subst. exists []. reflexivity.
Qed.

Lemma advance_suffix (fuel : nat) (fs : FileSystem) (td : Z) :
  forall (tn : Z) (w : t) (s : HDFStore) (tn' : Z) (w' : t) (s' : HDFStore),
  advance fuel fs td tn w s = Ok (tn', w', s') ->
  exists consumed, pending fs (monitor_it w) = consumed ++ pending fs (monitor_it w').
Proof.
  induction fuel as [|fuel IH]; intros tn w s tn' w' s' H; rewrite advance_unfold in H;
    destruct ((tn <? td) && negb (eof w)); try discriminate;
    try (inversion H; subst; exists []; reflexivity).
  cbv zeta in H. bind_inv H. destruct x as [[[[df|] it] o] s1].
  - bind_inv H. apply IH in H. cbn [monitor_it] in H. apply next_suffix in H0.
    destruct H as [c2 H]. destruct H0 as [c1 H0]. exists (c1 ++ c2).
    rewrite H0, H, app_assoc. reflexivity.
  - bind_inv H. bind_inv H. bind_inv H. apply IH in H. cbn [monitor_it] in H.
    apply next_suffix in H0.
    destruct H as [c2 H]. destruct H0 as [c1 H0]. exists (c1 ++ c2).
    rewrite H0, H, app_assoc. reflexivity.
Qed.

(** X7. The monitor file is read once, forward: the lines the generator
    has still to read after a call of [match_to_data_events] are the last
    of those it had to read before the call. *)
Theorem monitor_file_is_read_once_forward
    (fs : FileSystem) (w w' : t) (s s' : HDFStore) (ev ev' : DataFrame) :
  match_to_data_events fs w s ev = Ok (w', s', ev') ->
  exists consumed,
    pending fs (monitor_it w) = consumed ++ pending fs (monitor_it w') /\
    (lines_left fs (monitor_it w') <= lines_left fs (monitor_it w))%nat.
Proof.
  intros H. apply match_inv in H.
  destruct H as (td & tn & tn1 & w1 & s1 & fuel & _ & _ & Hadv & Htail & _).
  destruct (update_delta_max w (tn - td)) as (_ & _ & _ & Hit & _).
  apply advance_suffix in Hadv. rewrite Hit in Hadv.
  apply emit_tail_inv in Htail. destruct Htail as (_ & _ & _ & Hit' & _).
  rewrite Hit'. destruct Hadv as [c Hc]. exists c. split; [exact Hc|].
  rewrite !lines_left_pending, Hc, length_app. lia.
Qed.

End Bracket.

Section Stamp.
Context {P : Pandas}.
Import MonitorWriter.

Lemma map_fst_assign_rows (c : string) (vs : list value) (rs : list (Z * row)) :
  map fst (assign_rows c vs rs) = map fst rs.
Proof.
  revert vs. induction rs as [|[i r] rs IH]; intros vs; destruct vs as [|v vs];
    try reflexivity.
  cbn [assign_rows map fst]. now rewrite IH.
Qed.

Lemma column_values_assign_other (c c' : string) (vs : list value) (df : DataFrame) :
  c <> c' -> column_values c' (assign c vs df) = column_values c' df.
Proof.
  intros Hne. unfold column_values, assign. cbn [rows].
  generalize (rows df) as rs. intros rs. revert vs.
  induction rs as [|[i r] rs IH]; intros vs; destruct vs as [|v vs]; try reflexivity.
  cbn [assign_rows map snd].
  rewrite IH, get_set_other by exact Hne. reflexivity.
Qed.

Lemma map_result_Forall2 {A B : Type} (f : A -> result B) (l : list A) :
  forall l', map_result f l = Ok l' -> Forall2 (fun a b => f a = Ok b) l l'.
Proof.
  induction l as [|a l IH]; intros l' H; cbn [map_result] in H.
  - inversion H; subst. constructor.
  - bind_inv H. bind_inv H. inversion H; subst. constructor; [assumption | now apply IH].
Qed.

(** X8. [match_to_data_events] adds the column [monitor_index] to the data
    event and changes nothing else of it: the other columns and the index
    labels are kept.  The index of a record is 32 times the cycle index of
    the current monitor event plus the pixel over 64; for a pixel from 0
    to 2047 the cycle index and the module are read back from it by
    division by 32. *)
Theorem stamping_adds_one_column
    (fs : FileSystem) (w w' : t) (s s' : HDFStore) (ev ev' : DataFrame) :
  match_to_data_events fs w s ev = Ok (w', s', ev') ->
  columns ev' = add_column "monitor_index" (columns ev) /\
  labels ev' = labels ev /\
  (forall c, c <> "monitor_index" -> column_values c ev' = column_values c ev) /\
  exists imon,
    imon_of (monitor_ev w') = Ok imon /\
    Forall2 (fun pixel index =>
               match pixel with
               | VInt p =>
                   exists i, index = VInt i /\ i = imon * 32 + p / 64 /\
                             (0 <= p < 2048 -> i / 32 = imon /\ i mod 32 = p / 64)
               | _ => index = VNaN
               end)
            (column_values "pixel" ev) (column_values "monitor_index" ev').
Proof.
  intros H. apply match_inv in H.
  destruct H as (td & tn & tn1 & w1 & s1 & fuel & _ & _ & _ & _ & Hstamp).
  pose proof (stamp_inv _ _ _ Hstamp) as (imon & Himon & Hidx).
  unfold stamp in Hstamp. bind_inv Hstamp. bind_inv Hstamp. bind_inv Hstamp.
  inversion Hstamp; subst ev'; clear Hstamp.
  split; [reflexivity|].
  split; [unfold labels, assign; cbn [rows]; apply map_fst_assign_rows|].
  split; [intros c Hc; apply column_values_assign_other; congruence|].
  exists imon. split; [exact Himon|].
  apply map_result_Forall2 in Hidx.
  eapply Forall2_impl; [|exact Hidx].
  intros pixel index Hpi. unfold monitor_index, n_modules, n_tmpix in Hpi.
  destruct pixel as [p| | |]; inversion Hpi; subst; [|reflexivity].
  eexists. split; [reflexivity|]. split; [reflexivity|].
  intros Hp.
  assert (0 <= p / 64 < 32) by (split; [apply Z.div_pos; lia | apply Z.div_lt_upper_bound; lia]).
  split.
  - replace (imon * 32 + p / 64) with (p / 64 + imon * 32) by lia.
    rewrite Z.div_add by lia. rewrite Z.div_small by lia. lia.
  - replace (imon * 32 + p / 64) with (p / 64 + imon * 32) by lia.
    rewrite Z.mod_add by lia. apply Z.mod_small. lia.
Qed.

End Stamp.

(** ** The lines of the monitor file *)

Section Lines.
Context {P : Pandas}.
Import MonitorWriter.

Lemma find_label_set_label_same (id : Z) (c : string) (v : value) (rs : list (Z * row)) :
  find_label id (set_label id c v rs)
  = Some (set_cell c v match find_label id rs with
                       | Some r => r
                       | None => []
                       end).
Proof.
  induction rs as [|[i r] rs IH]; cbn [set_label find_label].
  - rewrite Z.eqb_refl. reflexivity.
  - destruct (Z.eqb i id) eqn:E; cbn [find_label]; rewrite E; [reflexivity | exact IH].
Qed.

Lemma find_label_set_label_other (i id : Z) (c : string) (v : value) (rs : list (Z * row)) :
  i <> id -> find_label i (set_label id c v rs) = find_label i rs.
Proof.
  intros Hne. induction rs as [|[j r] rs IH]; cbn [set_label find_label].
  - assert (Z.eqb id i = false) as -> by (apply Z.eqb_neq; congruence). reflexivity.
  - destruct (Z.eqb j id) eqn:E; cbn [find_label].
    + apply Z.eqb_eq in E. subst j.
      assert (Z.eqb id i = false) as -> by (apply Z.eqb_neq; congruence). reflexivity.
    + destruct (Z.eqb j i); [reflexivity | exact IH].
Qed.

Lemma labels_set_label (id : Z) (c : string) (v : value) (rs : list (Z * row)) :
  map fst (set_label id c v rs)
  = match find_label id rs with
    | Some _ => map fst rs
    | None => map fst rs ++ [id]
    end.
Proof.
  induction rs as [|[i r] rs IH]; cbn [set_label find_label map fst]; [reflexivity|].
  destruct (Z.eqb i id) eqn:E; cbn [map fst]; [reflexivity|].
  rewrite IH. destruct (find_label id rs); reflexivity.
Qed.

(** X10. A line with a date and a time, that does not end a cycle, and
    gives a supported measurement, an integer and a number, sets one cell
    of the frame of the cycle: that of the device id, in the column of
    the measurement.  The rows under other labels are kept, and so are the
    other cells of the row.  A device id that is no label of the frame is
    not refused: a row is added for it. *)
Theorem sample_line_sets_one_cell
    (l : Locals) (line d0 d1 device measurement d4 d5 : string) (more : list string)
    (t0 id : Z) (v : value) :
  line <> "" ->
  split_space (remove_newlines line)
  = d0 :: d1 :: device :: measurement :: d4 :: d5 :: more ->
  to_datetime (d0 ++ " " ++ d1)%string = Some t0 ->
  contains marker line = false ->
  mem_string (device ++ "_" ++ measurement)%string supported = true ->
  py_int d4 = Some id ->
  py_float d5 = Some v ->
  exists l',
    handle_line l line = LNext l' /\
    l_imon l' = l_imon l /\
    loc id (device ++ "_" ++ measurement)%string (l_df l') = Ok v /\
    (forall i, i <> id ->
       find_label i (rows (l_df l')) = find_label i (rows (l_df l))) /\
    (forall c r r', c <> (device ++ "_" ++ measurement)%string ->
       find_label id (rows (l_df l)) = Some r ->
       find_label id (rows (l_df l')) = Some r' ->
       get_cell c r' = get_cell c r) /\
    labels (l_df l') = match find_label id (rows (l_df l)) with
                       | Some _ => labels (l_df l)
                       | None => labels (l_df l) ++ [id]
                       end.
Proof.
  intros Hne Hsplit Htime Hmark Hkey Hint Hfloat.
  unfold handle_line.
  assert (String.eqb line "" = false) as -> by (now apply String.eqb_neq).
  rewrite Hsplit, Htime, Hmark, Hkey, Hint, Hfloat.
  eexists. split; [reflexivity|]. cbn [l_imon l_df].
  split; [reflexivity|].
  split.
  { unfold loc, set_loc. cbn [columns rows].
    rewrite mem_add_column_same, find_label_set_label_same, get_set_same. reflexivity. }
  split.
  { intros i Hi. unfold set_loc. cbn [rows]. now apply find_label_set_label_other. }
  split.
  { intros c r r' Hc Hr Hr'. unfold set_loc in Hr'. cbn [rows] in Hr'.
    rewrite find_label_set_label_same, Hr in Hr'. inversion Hr'; subst.
    apply get_set_other. intros E. apply Hc. symmetry. exact E. }
  unfold labels, set_loc. cbn [rows]. apply labels_set_label.
Qed.

End Lines.

(** ** Reading a table in chunks and in columns *)

Section Chunks.
Import HDFStoreReader.

Lemma chunk_rows_nil (fuel n : nat) : chunk_rows fuel n [] = [].
Proof. destruct fuel; reflexivity. Qed.

Lemma chunk_rows_spec (n : nat) :
  (0 < n)%nat ->
  forall (fuel : nat) (rs : list (Z * row)),
  (List.length rs <= fuel)%nat ->
  List.concat (chunk_rows fuel n rs) = rs /\
  Forall (fun c => (0 < List.length c <= n)%nat) (chunk_rows fuel n rs) /\
  Forall (fun c => List.length c = n) (removelast (chunk_rows fuel n rs)).
Proof.
  intros Hn. induction fuel as [|fuel IH]; intros rs Hlen.
  - destruct rs; [|cbn in Hlen; lia]. cbn. auto.
  - destruct rs as [|x rs]; [cbn; auto|].
    cbn [chunk_rows]. remember (x :: rs) as l eqn:El.
    assert (Hl : (0 < List.length l)%nat) by (subst l; cbn; lia).
    assert (Hskip : (List.length (skipn n l) <= fuel)%nat) by (rewrite length_skipn; lia).
    destruct (IH (skipn n l) Hskip) as (Hc & Hall & Hlast).
    split; [cbn [List.concat]; rewrite Hc; apply firstn_skipn|].
    split.
    + constructor; [rewrite length_firstn; lia | exact Hall].
    + destruct (chunk_rows fuel n (skipn n l)) as [|c cs] eqn:E; [constructor|].
      change (removelast (firstn n l :: c :: cs)) with (firstn n l :: removelast (c :: cs)).
      constructor; [|exact Hlast].
      rewrite length_firstn.
      assert (skipn n l <> []) by (intros E'; rewrite E', chunk_rows_nil in E; discriminate).
      assert (List.length (skipn n l) <> 0%nat) by (destruct (skipn n l); [congruence | cbn; lia]).
      rewrite length_skipn in *. lia.
Qed.

Lemma all_rows_frames (cols : list string) (l : list (list (Z * row))) :
  all_rows (map (fun rs => {| columns := cols; rows := rs |}) l) = List.concat l.
Proof.
  unfold all_rows. induction l as [|c l IH]; [reflexivity|].
  cbn [map flat_map List.concat rows]. now rewrite IH.
Qed.

Lemma removelast_map {A B : Type} (f : A -> B) (l : list A) :
  removelast (map f l) = map f (removelast l).
Proof.
  induction l as [|a l IH]; [reflexivity|].
  destruct l as [|b l]; [reflexivity|].
  change (removelast (map f (a :: b :: l))) with (f a :: removelast (map f (b :: l))).
  rewrite IH. reflexivity.
Qed.

Lemma select_chunks_spec (df : DataFrame) (n : Z) :
  0 < n ->
  all_rows (select_chunks df n) = rows df /\
  Forall (fun c => columns c = columns df /\ 0 < nrows c <= n) (select_chunks df n) /\
  Forall (fun c => nrows c = n) (removelast (select_chunks df n)).
Proof.
  intros Hn. unfold select_chunks.
  destruct (chunk_rows_spec (Z.to_nat n) ltac:(lia) (List.length (rows df)) (rows df)
              (le_n _)) as (Hc & Hall & Hlast).
  split; [rewrite all_rows_frames; exact Hc|].
  split.
  - apply Forall_map. eapply Forall_impl; [|exact Hall].
    intros c Hlen. cbv beta in Hlen. cbn [columns]. split; [reflexivity|].
    unfold nrows. cbn [rows]. lia.
  - rewrite removelast_map. apply Forall_map. eapply Forall_impl; [|exact Hlast].
    intros c Hlen. cbv beta in Hlen. unfold nrows. cbn [rows]. lia.
Qed.

Lemma iterate_over_chunks_inv (r : t) (n : Z) (chunks : list DataFrame) :
  0 < n ->
  iterate_over_chunks r (Some n) = Ok chunks ->
  exists df, getitem r = Ok df /\ chunks = select_chunks df n.
Proof.
  intros Hn. unfold iterate_over_chunks.
  assert ((n =? 0) = false) as -> by (apply Z.eqb_neq; lia).
  assert ((n <? 0) = false) as -> by (apply Z.ltb_ge; lia).
  intros H. bind_inv H. inversion H; subst. eauto.
Qed.

(** X11. [iterate_over_chunks] with a chunk size over 0 gives the whole
    table: the chunks put end to end are the rows of the table, in their
    order; each chunk has the columns of the table and from 1 to the chunk
    size rows, and all but the last have the chunk size.  The chunked
    selection of the store is modelled from the specification. *)
Theorem chunks_cover_the_table (r : t) (n : Z) (chunks : list DataFrame) :
  0 < n ->
  iterate_over_chunks r (Some n) = Ok chunks ->
  exists df,
    getitem r = Ok df /\
    all_rows chunks = rows df /\
    Forall (fun c => columns c = columns df /\ 0 < nrows c <= n) chunks /\
    Forall (fun c => nrows c = n) (removelast chunks).
Proof.
  intros Hn H. apply iterate_over_chunks_inv in H; [|exact Hn].
  destruct H as (df & Hdf & ->). exists df. split; [exact Hdf|].
  now apply select_chunks_spec.
Qed.

Lemma chunk_rows_one (fuel : nat) (rs : list (Z * row)) :
  (List.length rs <= fuel)%nat -> chunk_rows fuel 1 rs = map (fun x => [x]) rs.
Proof.
  revert rs. induction fuel as [|fuel IH]; intros rs Hlen.
  - destruct rs; [reflexivity | cbn in Hlen; lia].
  - destruct rs as [|x rs]; [reflexivity|]. cbn [chunk_rows firstn skipn map].
    rewrite IH by (cbn in Hlen; lia). reflexivity.
Qed.

(** X12. [iterate_over_rows] gives each row of the table once, in the
    order of the table, as a frame of one row; there are [n_rows] of
    them. *)
Theorem rows_are_iterated_one_by_one (r : t) (chunks : list DataFrame) :
  iterate_over_rows r = Ok chunks ->
  exists df,
    getitem r = Ok df /\
    map rows chunks = map (fun x => [x]) (rows df) /\
    Forall (fun c => columns c = columns df) chunks /\
    n_rows r = Ok (Z.of_nat (List.length chunks)).
Proof.
  unfold iterate_over_rows. intros H. apply iterate_over_chunks_inv in H; [|lia].
  destruct H as (df & Hdf & ->). exists df. split; [exact Hdf|].
  unfold select_chunks. change (Z.to_nat 1) with 1%nat.
  rewrite chunk_rows_one by apply le_n.
  split; [rewrite !map_map; reflexivity|].
  split; [apply Forall_map, Forall_map, Forall_forall; intros; reflexivity|].
  unfold n_rows, storer. unfold getitem in Hdf.
  destruct (get_storer (key r) (store r)) as [st|]; [|discriminate].
  inversion Hdf; subst. cbn [bind]. rewrite !length_map. reflexivity.
Qed.

Lemma map_result_raise {A B : Type} (f : A -> result B) (l : list A) (a : A) (e : exn) :
  In a l -> f a = Raise e -> exists e', MonitorWriter.map_result f l = Raise e'.
Proof.
  induction l as [|b l IH]; intros Hin Hf; [destruct Hin|].
  cbn [MonitorWriter.map_result]. destruct Hin as [-> | Hin].
  - rewrite Hf. cbn [bind]. eauto.
  - destruct (f b); cbn [bind]; [|eauto].
    destruct (IH Hin Hf) as [e' ->]. cbn [bind]. eauto.
Qed.

(** X13. [select_columns] gives the columns asked for, in the order they
    are asked for, each with a value for every row of the table, and fails
    if one of them is not a column of the table. *)
Theorem select_columns_gives_each_column (r : t) (cols : list string) :
  (forall values, select_columns r cols = Ok values ->
     Forall2 (fun c v => select_column r c = Ok v /\
                         n_rows r = Ok (Z.of_nat (List.length v))) cols values) /\
  (forall c e, In c cols -> select_column r c = Raise e ->
     exists e', select_columns r cols = Raise e').
Proof.
  split.
  - intros values H. unfold select_columns in H. apply map_result_Forall2 in H.
    eapply Forall2_impl; [|exact H]. intros c v Hc. split; [exact Hc|].
    unfold select_column, n_rows in *. destruct (storer r) as [st|]; [|discriminate].
    cbn [bind] in *. unfold loc_all in Hc.
    destruct (mem_string c (columns (table st))); [|discriminate].
    inversion Hc; subst. unfold nrows. rewrite length_map. reflexivity.
  - intros c e Hin Hc. unfold select_columns. eapply map_result_raise; eauto.
Qed.

End Chunks.

Section EventIteration.
Context {P : Pandas}.
Import DL1Writer.

Lemma chunksize_from_metadata (r : HDFStoreReader.t) (name : string) (m : Metadata) :
  HDFStoreReader.metadata r = Ok m ->
  HDFStoreReader.chunksize_from r name
  = match meta_get name m with
    | None => Raise KeyError
    | Some (MInt n) => Ok n
    | Some _ => Raise NotModelled
    end.
Proof. intros H. unfold HDFStoreReader.chunksize_from. rewrite H. reflexivity. Qed.

(** X14. [iterate_over_events] on the table of data events reads by the
    number that the metadata give for [n_pixels], which the writer does
    not record by itself: for a file whose writer was given no [n_pixels]
    it raises [KeyError]; for one whose writer was given [n_pixels = n], a
    number over 0, it gives the rows that were appended, [n] at a time. *)
Theorem event_iteration_uses_n_pixels
    (fs fs' : FileSystem) (w : t) (r : HDFStoreReader.t) (m : option HDFStoreReader.t) :
  finish fs w = Ok fs' ->
  DL1Reader.init fs' (dl1_path w) = Ok (r, m) ->
  (meta_get "n_pixels" (metadata w) = None ->
   HDFStoreReader.iterate_over_events r = Raise KeyError) /\
  (forall n, meta_get "n_pixels" (metadata w) = Some (MInt n) -> 0 < n ->
     exists chunks df,
       HDFStoreReader.iterate_over_events r = Ok chunks /\
       HDFStoreReader.getitem r = Ok df /\
       nrows df = appended w /\
       all_rows chunks = rows df /\
       Forall (fun c => 0 < nrows c <= n) chunks /\
       Forall (fun c => nrows c = n) (removelast chunks)).
Proof.
  intros H Hinit.
  destruct (finish_rows _ _ _ H) as (final0 & st0 & m0 & b0 & Hread0 & Hst0 & Hrows & _).
  apply dl1_finish_store in H.
  destruct H as (w1 & s1 & final & _ & _ & Hread & _ & st & Hst & Hmd).
  rewrite Hread in Hread0. inversion Hread0; subst final0; clear Hread0.
  rewrite Hst in Hst0. inversion Hst0; subst st0; clear Hst0.
  unfold DL1Reader.init, HDFStore_open_read in Hinit. rewrite Hread in Hinit.
  cbn [bind] in Hinit. inversion Hinit; subst r; clear Hinit.
  assert (Hmeta : HDFStoreReader.metadata
                    {| HDFStoreReader.store := final; HDFStoreReader.key := "data" |}
                  = Ok (metadata w ++ [("n_bytes", MInt (n_bytes w1))])).
  { unfold HDFStoreReader.metadata, HDFStoreReader.storer.
    cbn [HDFStoreReader.key HDFStoreReader.store]. rewrite Hst. cbn [bind].
    rewrite Hmd. reflexivity. }
  unfold HDFStoreReader.iterate_over_events.
  rewrite (chunksize_from_metadata _ _ _ Hmeta), meta_get_app.
  split.
  - intros ->. reflexivity.
  - intros n -> Hn. cbn [bind].
    assert (Hget : HDFStoreReader.getitem
                     {| HDFStoreReader.store := final; HDFStoreReader.key := "data" |}
                   = Ok (table st)).
    { unfold HDFStoreReader.getitem. cbn [HDFStoreReader.key HDFStoreReader.store].
      rewrite Hst. reflexivity. }
    unfold HDFStoreReader.iterate_over_chunks.
    assert ((n =? 0) = false) as -> by (apply Z.eqb_neq; lia).
    assert ((n <? 0) = false) as -> by (apply Z.ltb_ge; lia).
    rewrite Hget. cbn [bind].
    destruct (select_chunks_spec (table st) n Hn) as (Hall & Hbound & Hlast).
    eexists _, _. split; [reflexivity|]. split; [reflexivity|].
    split; [exact Hrows|]. split; [exact Hall|]. split; [|exact Hlast].
    eapply Forall_impl; [|exact Hbound]. intros c [_ Hc]. exact Hc.
Qed.

(** X15. [iterate_over_events] on the monitor table of a run reads by 32
    rows, the number of modules that the monitor writer records: the
    chunks put end to end are the rows of the monitor table. *)
Theorem monitor_events_are_read_by_32
    (fs fs' : FileSystem) (path mp : string) (rows_expected : Z)
    (lines : list string) (events : list DataFrame) :
  read fs mp = Some (Text lines) -> mp <> "" -> mp <> path ->
  write_run fs path rows_expected (Some mp) events = Ok fs' ->
  exists r m chunks df,
    DL1Reader.init fs' path = Ok (r, Some m) /\
    MonitorReader.iterate_over_events m = Ok chunks /\
    HDFStoreReader.getitem m = Ok df /\
    all_rows chunks = rows df /\
    Forall (fun c => 0 < nrows c <= 32) chunks /\
    Forall (fun c => nrows c = 32) (removelast chunks).
Proof.
  intros Hr Hne Hp H.
  destruct (write_run_monitor_table _ _ _ _ _ _ _ Hr Hne Hp H)
    as (final & st & l & b & Hread & Hst & Hmd & _).
  unfold DL1Reader.init, HDFStore_open_read. rewrite Hread. cbn [bind]. rewrite Hst.
  set (m := {| HDFStoreReader.store := final; HDFStoreReader.key := "monitor" |}).
  assert (Hmeta : HDFStoreReader.metadata m
                  = Ok (MonitorWriter.final_metadata mp l ++ [("n_bytes", MInt b)])).
  { unfold HDFStoreReader.metadata, HDFStoreReader.storer, m.
    cbn [HDFStoreReader.key HDFStoreReader.store]. rewrite Hst. cbn [bind].
    rewrite Hmd. reflexivity. }
  assert (Hget : HDFStoreReader.getitem m = Ok (table st)).
  { unfold HDFStoreReader.getitem, m. cbn [HDFStoreReader.key HDFStoreReader.store].
    rewrite Hst. reflexivity. }
  destruct (select_chunks_spec (table st) 32 ltac:(lia)) as (Hall & Hbound & Hlast).
  eexists _, m, _, _. split; [reflexivity|].
  split.
  { unfold MonitorReader.iterate_over_events.
    rewrite (chunksize_from_metadata _ _ _ Hmeta).
    change (meta_get "n_modules"
              (MonitorWriter.final_metadata mp l ++ [("n_bytes", MInt b)]))
      with (Some (MInt 32)).
    cbn [bind]. unfold HDFStoreReader.iterate_over_chunks.
    change (32 =? 0) with false. change (32 <? 0) with false. cbv iota.
    rewrite Hget. cbn [bind]. reflexivity. }
  split; [exact Hget|]. split; [exact Hall|]. split; [|exact Hlast].
  eapply Forall_impl; [|exact Hbound]. intros c [_ Hc]. exact Hc.
Qed.

End EventIteration.

(** ** The buffer and the metadata of the DL1 writer *)

Section Buffer.
Context {P : Pandas}.
Import DL1Writer.

Lemma meta_get_In (k : string) (v : meta) (m : Metadata) :
  In (k, v) m -> meta_get k m <> None.
Proof.
  induction m as [|[k' v'] m IH]; intros Hin; [destruct Hin|].
  cbn [meta_get]. destruct (String.eqb k' k) eqn:E; [discriminate|].
  destruct Hin as [Heq | Hin]; [|now apply IH].
  inversion Heq; subst. rewrite String.eqb_refl in E. discriminate.
Qed.

(** X16. [add_metadata] sets a key once: it raises [TypeError] exactly
    when one of the keys given is in the metadata already, and nothing is
    changed then; otherwise the keys are added after those that were
    there, whose values are kept, and giving one of them again raises
    [TypeError]. *)
Theorem metadata_keys_are_set_once (kwargs : Metadata) (w : t) :
  (add_metadata kwargs w = Raise TypeError <->
   exists k v, In (k, v) kwargs /\ meta_get k (metadata w) <> None) /\
  (forall w', add_metadata kwargs w = Ok w' ->
     metadata w' = metadata w ++ kwargs /\
     df_list w' = df_list w /\ store w' = store w /\
     (forall k v, meta_get k (metadata w) = Some v -> meta_get k (metadata w') = Some v) /\
     (forall k v v', In (k, v) kwargs ->
        add_metadata [(k, v')] w' = Raise TypeError)).
Proof.
  unfold add_metadata, dict_merge.
  destruct (existsb _ kwargs) eqn:E.
  - split.
    + split; [|reflexivity]. intros _. apply existsb_exists in E.
      destruct E as ([k v] & Hin & Hk). exists k, v. split; [exact Hin|].
      cbn [fst] in Hk. destruct (meta_get k (metadata w)); [discriminate | discriminate].
    + intros w' H. discriminate.
  - split.
    + split; [discriminate|]. intros (k & v & Hin & Hk). exfalso.
      assert (existsb (fun kv => match meta_get (fst kv) (metadata w) with
                                 | Some _ => true
                                 | None => false
                                 end) kwargs = true) as E'.
      { apply existsb_exists. exists (k, v). split; [exact Hin|]. cbn [fst].
        destruct (meta_get k (metadata w)); [reflexivity | congruence]. }
      congruence.
    + intros w' H. cbn [bind] in H. inversion H; subst; clear H. cbn [metadata df_list store].
      split; [reflexivity|]. split; [reflexivity|]. split; [reflexivity|]. split.
      * intros k v Hk. rewrite meta_get_app, Hk. reflexivity.
      * intros k v v' Hin. cbn [existsb fst orb].
        assert (Hn : meta_get k (metadata w ++ kwargs) <> None).
        { apply (meta_get_In k v). apply in_or_app. right. exact Hin. }
        destruct (meta_get k (metadata w ++ kwargs)); [reflexivity | congruence].
Qed.

(** X17. [finish] adds the byte count under the key [n_bytes]: for a
    writer without a monitor writer whose metadata have that key already,
    it raises [TypeError] when the buffer is empty or its frames can be
    written; when they cannot, as with a NaN in a column that is cast, it
    raises what [_append_to_file] raises, before the metadata are looked
    at. *)
Theorem finish_rejects_n_bytes_metadata (fs : FileSystem) (w : t) (v : meta) :
  monitor w = None ->
  meta_get "n_bytes" (metadata w) = Some v ->
  (df_list w = [] \/ (exists d, prepare (df_list w) = Ok d) ->
   finish fs w = Raise TypeError) /\
  (forall e, df_list w <> [] -> prepare (df_list w) = Raise e -> finish fs w = Raise e).
Proof.
  intros Hmon Hmeta. split.
  - intros Hcan. unfold finish.
    assert (exists w1, _append_to_file w = Ok w1 /\ monitor w1 = None /\
                       metadata w1 = metadata w) as (w1 & -> & Hm1 & Hmeta1).
    { unfold _append_to_file. destruct (df_list w) as [|df l] eqn:E.
      - exists w. auto.
      - destruct Hcan as [Hnil | [d Hd]]; [discriminate|].
        rewrite Hd. cbn [bind]. eexists. split; [reflexivity|]. cbn [monitor metadata].
        split; [exact Hmon | reflexivity]. }
    cbn [bind]. rewrite Hm1. cbn [bind].
    unfold add_metadata, dict_merge. cbn [metadata existsb fst].
    rewrite Hmeta1, Hmeta. reflexivity.
  - intros e Hne Hraise. unfold finish, _append_to_file.
    destruct (df_list w) as [|df l]; [contradiction|].
    rewrite Hraise. reflexivity.
Qed.

(** X18. After [append_event] the buffer counts less than 0.5 GB.  Below
    that size the event is kept in the buffer and the table is as it was;
    from that size on every buffered row and those of the event are in the
    table, and the buffer is empty. *)
Theorem buffer_is_written_at_half_a_gigabyte
    (fs : FileSystem) (w w' : t) (ev : DataFrame) :
  append_event fs w ev = Ok w' ->
  df_list_n_bytes w' < 500000000 /\
  (df_list_n_bytes w + memory_usage ev < 500000000 ->
   df_list_n_bytes w' = df_list_n_bytes w + memory_usage ev /\
   n_bytes w' = n_bytes w /\
   table_rows "data" (store w') = table_rows "data" (store w) /\
   total_rows (df_list w') = total_rows (df_list w) + nrows ev) /\
  (500000000 <= df_list_n_bytes w + memory_usage ev ->
   df_list w' = [] /\ df_list_n_bytes w' = 0 /\
   table_rows "data" (store w')
   = table_rows "data" (store w) + total_rows (df_list w) + nrows ev).
Proof.
  unfold append_event. intros H. bind_inv H. destruct x as [[m s] ev'].
  assert (Hs : get_storer "data" s = get_storer "data" (store w) /\ nrows ev' = nrows ev).
  { destruct (monitor w).
    - bind_inv H0. destruct x as [[m1 s1] ev1]. inversion H0; subst.
      eapply match_data; eauto.
    - inversion H0; subst. auto. }
  destruct Hs as [Hs Hn].
  assert (Ht : table_rows "data" s = table_rows "data" (store w))
    by (unfold table_rows; rewrite Hs; reflexivity).
  destruct (500000000 <=? df_list_n_bytes w + memory_usage ev) eqn:E.
  - apply Z.leb_le in E.
    pose proof (append_to_file_rows _ _ H) as (Ha & _ & _ & _ & Hnil).
    unfold appended in Ha. cbn [store df_list] in Ha.
    rewrite Hnil, total_rows_app in Ha. unfold total_rows at 1 3 in Ha.
    cbn [map fold_right] in Ha.
    assert (Hb : df_list_n_bytes w' = 0).
    { unfold _append_to_file in H. cbn [df_list] in H.
      destruct (df_list w ++ [ev']) eqn:El; [destruct (df_list w); discriminate|].
      bind_inv H. inversion H; subst. reflexivity. }
    split; [lia|]. split; [lia|]. intros _.
    split; [exact Hnil|]. split; [exact Hb|]. lia.
  - apply Z.leb_gt in E. inversion H; subst; clear H.
    cbn [df_list_n_bytes n_bytes store df_list].
    split; [lia|]. split; [|lia]. intros _.
    split; [reflexivity|]. split; [reflexivity|]. split; [exact Ht|].
    rewrite total_rows_app. unfold total_rows at 2. cbn [map fold_right]. lia.
Qed.

End Buffer.

(** ** The frame that is written *)

Section Sorting.
Context {P : Pandas}.
Import DL1Writer.

Lemma row_le_total (a b : Z * row) : row_le a b = false -> row_le b a = true.
Proof.
  unfold row_le. cbv zeta.
  generalize (cell_key (get_cell "iev" (snd a))) as ia.
  generalize (cell_key (get_cell "iev" (snd b))) as ib.
  generalize (cell_key (get_cell "pixel" (snd a))) as pa.
  generalize (cell_key (get_cell "pixel" (snd b))) as pb.
  intros pb pa ib ia.
  destruct ia as [ia|], ib as [ib|], pa as [pa|], pb as [pb|]; cbn [key_eq key_le];
    repeat match goal with
           | |- context [?x =? ?y] => destruct (Z.eqb_spec x y)
           | |- context [?x <=? ?y] => destruct (Z.leb_spec x y)
           end;
    intros; try reflexivity; try discriminate; try lia.
Qed.

Lemma HdRel_insert_row (a x : Z * row) (l : list (Z * row)) :
  HdRel (fun a b => row_le a b = true) a l -> row_le a x = true ->
  HdRel (fun a b => row_le a b = true) a (insert_row x l).
Proof.
  intros Hl Hx. destruct l as [|y l]; cbn [insert_row]; [now constructor|].
  destruct (row_le x y); constructor; [exact Hx|]. now inversion Hl.
Qed.

Lemma insert_row_sorted (x : Z * row) (l : list (Z * row)) :
  Sorted (fun a b => row_le a b = true) l ->
  Sorted (fun a b => row_le a b = true) (insert_row x l).
Proof.
  induction l as [|y l IH]; intros Hs; cbn [insert_row].
  - constructor; constructor.
  - destruct (row_le x y) eqn:E.
    + constructor; [exact Hs | now constructor].
    + inversion Hs; subst. constructor; [now apply IH|].
      apply HdRel_insert_row; [assumption | now apply row_le_total].
Qed.

Lemma sort_rows_sorted (l : list (Z * row)) :
  Sorted (fun a b => row_le a b = true) (sort_rows l).
Proof.
  induction l as [|x l IH]; cbn [sort_rows]; [constructor | now apply insert_row_sorted].
Qed.

Lemma Forall_insert_row (Q : Z * row -> Prop) (x : Z * row) (l : list (Z * row)) :
  Q x -> Forall Q l -> Forall Q (insert_row x l).
Proof.
  intros Hx. induction l as [|y l IH]; intros Hl; cbn [insert_row].
  - now constructor.
  - inversion Hl; subst. destruct (row_le x y); constructor; auto.
Qed.

Lemma Forall_sort_rows (Q : Z * row -> Prop) (l : list (Z * row)) :
  Forall Q l -> Forall Q (sort_rows l).
Proof.
  induction l as [|x l IH]; intros Hl; cbn [sort_rows]; [constructor|].
  inversion Hl; subst. apply Forall_insert_row; auto.
Qed.

Lemma cast_cells_length (bits : Z) (vs us : list value) :
  cast_cells bits vs = Ok us -> List.length us = List.length vs.
Proof. intros H. apply cast_cells_spec in H. symmetry. exact (Forall2_length H). Qed.

Lemma is_int_to_uint (bits : Z) (v u : value) : to_uint bits v = Ok u -> is_int u = true.
Proof. destruct v; intros H; inversion H; reflexivity. Qed.

Lemma cast_cells_int (bits : Z) (vs us : list value) :
  cast_cells bits vs = Ok us -> Forall (fun u => is_int u = true) us.
Proof.
  intros H. apply cast_cells_spec in H.
  induction H as [|v u vs us Hvu _ IH]; constructor; [|exact IH].
  exact (is_int_to_uint _ _ _ Hvu).
Qed.

(** The column that is cast holds the cells cast; no other column is
    changed. *)
Lemma column_values_astype_same (bits : Z) (c : string) (df df' : DataFrame) :
  astype_uint bits c df = Ok df' ->
  cast_cells bits (column_values c df) = Ok (column_values c df').
Proof.
  intros H. apply astype_uint_inv in H. destruct H as (_ & us & Hus & ->).
  rewrite column_values_assign; [exact Hus|].
  rewrite (cast_cells_length _ _ _ Hus). unfold column_values. apply length_map.
Qed.

Lemma column_values_astype_other (bits : Z) (c c' : string) (df df' : DataFrame) :
  astype_uint bits c df = Ok df' -> c <> c' ->
  column_values c' df' = column_values c' df.
Proof.
  intros H Hne. apply astype_uint_inv in H. destruct H as (_ & us & _ & ->).
  now apply column_values_assign_other.
Qed.

Lemma astype_uint_int (bits : Z) (c c0 : string) (df df' : DataFrame) :
  astype_uint bits c df = Ok df' ->
  c0 = c \/ Forall (fun ir => is_int (get_cell c0 (snd ir)) = true) (rows df) ->
  Forall (fun ir => is_int (get_cell c0 (snd ir)) = true) (rows df').
Proof.
  intros H Hc.
  apply (Forall_map (fun ir => get_cell c0 (snd ir)) (fun v => is_int v = true)).
  fold (column_values c0 df').
  destruct (String.eqb c c0) eqn:E.
  - apply String.eqb_eq in E. subst c0.
    apply column_values_astype_same in H. exact (cast_cells_int _ _ _ H).
  - apply String.eqb_neq in E. destruct Hc as [Hc | Hc]; [congruence|].
    rewrite (column_values_astype_other _ _ _ _ _ H E).
    unfold column_values. apply Forall_map. exact Hc.
Qed.

Lemma row_le_ints (a b : Z * row) (ia pa ib pb : Z) :
  get_cell "iev" (snd a) = VInt ia -> get_cell "pixel" (snd a) = VInt pa ->
  get_cell "iev" (snd b) = VInt ib -> get_cell "pixel" (snd b) = VInt pb ->
  row_le a b = true -> ia < ib \/ (ia = ib /\ pa <= pb).
Proof.
  intros Hia Hpa Hib Hpb. unfold row_le. cbv zeta. rewrite Hia, Hpa, Hib, Hpb.
  cbn [cell_key key_eq key_le].
  destruct (Z.eqb_spec ia ib); destruct (Z.leb_spec pa pb); destruct (Z.leb_spec ia ib);
    intros; try discriminate; lia.
Qed.

Lemma is_int_VInt (v : value) : is_int v = true -> exists z, v = VInt z.
Proof. destruct v; try discriminate. eauto. Qed.

Lemma sorted_ints (l : list (Z * row)) :
  Forall (fun ir => is_int (get_cell "iev" (snd ir)) = true) l ->
  Forall (fun ir => is_int (get_cell "pixel" (snd ir)) = true) l ->
  Sorted (fun a b => row_le a b = true) l ->
  Sorted iev_pixel_le l.
Proof.
  intros Hi Hp Hs. induction Hs as [|a l Hs IH Hd]; [constructor|].
  inversion Hi; subst. inversion Hp; subst.
  constructor; [now apply IH|].
  destruct Hd as [|b l Hab]; constructor.
  match goal with
  | H1 : Forall _ (b :: l), H2 : Forall _ (b :: l) |- _ =>
      inversion H1; subst; inversion H2; subst
  end.
  repeat match goal with
         | H : is_int _ = true |- _ => apply is_int_VInt in H; destruct H
         end.
  unfold iev_pixel_le. do 4 eexists.
  repeat (split; [eassumption|]). eapply row_le_ints; eauto.
Qed.

Lemma sort_values_rows (df df' : DataFrame) :
  sort_values_iev_pixel df = Ok df' -> rows df' = sort_rows (rows df).
Proof.
  unfold sort_values_iev_pixel.
  destruct (mem_string "iev" (columns df) && mem_string "pixel" (columns df));
    [|discriminate].
  intros H. inversion H; subst. reflexivity.
Qed.

(** X19. The frame that [_append_to_file] hands to the store has as many
    rows as the frames buffered; its cells of [iev] and [pixel] hold
    integers, and its rows are in the order of [iev], and of [pixel] for
    one [iev]. *)
Theorem written_frame_is_sorted (frames : list DataFrame) (df : DataFrame) :
  prepare frames = Ok df ->
  nrows df = total_rows frames /\
  Forall (fun ir => exists iev pixel,
            get_cell "iev" (snd ir) = VInt iev /\ get_cell "pixel" (snd ir) = VInt pixel)
         (rows df) /\
  Sorted iev_pixel_le (rows df).
Proof.
  intros H. split; [exact (proj1 (prepare_shape _ _ H))|].
  revert H. unfold prepare. intros H.
  bind_inv H. bind_inv H. bind_inv H. bind_inv H. bind_inv H.
  assert (Hiev : Forall (fun ir => is_int (get_cell "iev" (snd ir)) = true) (rows x3)).
  { eapply astype_uint_int; [exact H4|]. right.
    eapply astype_uint_int; [exact H3|]. right.
    eapply astype_uint_int; [exact H2|]. right.
    eapply astype_uint_int; [exact H1|]. right.
    eapply astype_uint_int; [exact H0|]. left. reflexivity. }
  assert (Hpix : Forall (fun ir => is_int (get_cell "pixel" (snd ir)) = true) (rows x3)).
  { eapply astype_uint_int; [exact H4|]. right.
    eapply astype_uint_int; [exact H3|]. right.
    eapply astype_uint_int; [exact H2|]. right.
    eapply astype_uint_int; [exact H1|]. left. reflexivity. }
  apply sort_values_rows in H. rewrite H. clear H H0 H1 H2 H3 H4.
  apply (Forall_sort_rows _ _) in Hiev. apply (Forall_sort_rows _ _) in Hpix.
  split.
  - apply Forall_forall. intros ir Hin.
    rewrite Forall_forall in Hiev. rewrite Forall_forall in Hpix.
    destruct (is_int_VInt _ (Hiev ir Hin)) as [i Hi].
    destruct (is_int_VInt _ (Hpix ir Hin)) as [p Hp]. exists i, p. split; assumption.
  - apply sorted_ints; [exact Hiev | exact Hpix | apply sort_rows_sorted].
Qed.

End Sorting.

(** ** The readers of the waveform files *)

Section TargetIO.
Variables Samples Cells : Type.
Variable TIOReader_open : string -> Z -> Z -> Z -> Z -> Z -> Reader.TIOReader Samples Cells.
Variable zeros_cells : Z -> Cells.
Variable zeros_samples : bool -> Z -> Z -> Samples.
Variable N_BLOCKSAMPLES : Z.
Import Reader.

Local Abbreviation file path :=
  (TIOReader_open path (N_CELLS N_BLOCKSAMPLES) SKIP_SAMPLE SKIP_END_SAMPLE
                  SKIP_EVENT SKIP_END_EVENT).

(** X20. [Reader] raises [ZeroDivisionError] for a file of no module, and
    for no other.  Otherwise the number of events is that of the file when
    [max_events] is not given or is 0, and the smaller of the two when it
    is another number; each module has as many pixels as the whole part of
    the pixels over the modules. *)
Theorem reader_limits_events_by_max_events (path : string) (max_events : option Z) :
  match init TIOReader_open zeros_cells zeros_samples N_BLOCKSAMPLES path max_events with
  | inr e => e = ZeroDivisionError /\ fNModules (file path) = 0
  | inl r =>
      fNModules (file path) <> 0 /\
      reader r = file path /\
      n_events r = match max_events with
                   | None => fNEvents (file path)
                   | Some m => if m =? 0 then fNEvents (file path)
                               else Z.min m (fNEvents (file path))
                   end /\
      (0 < n_modules r ->
       n_modules r * n_tmpix r <= n_pixels r < n_modules r * (n_tmpix r + 1)) /\
      index r = None
  end.
Proof.
  unfold init. destruct (fNModules (file path) =? 0) eqn:E.
  - apply Z.eqb_eq in E. split; [reflexivity | exact E].
  - apply Z.eqb_neq in E. cbn [reader n_events n_modules n_tmpix n_pixels index].
    split; [exact E|]. split; [reflexivity|]. split.
    + destruct max_events as [m|]; [|reflexivity].
      destruct (Z.eqb_spec m 0); cbn [negb andb]; [reflexivity|].
      destruct (Z.ltb_spec m (fNEvents (file path))); lia.
    + split; [|reflexivity]. intros Hpos. split.
      * apply Z.mul_div_le. exact Hpos.
      * apply Z.mul_succ_div_gt. exact Hpos.
Qed.

Lemma get_tio_event_load (r : t Samples Cells) (iev : Z) :
  get_tio_event (load r iev) = get_tio_event r.
Proof. reflexivity. Qed.

Lemma iter_from_nth (count : nat) :
  forall (r : t Samples Cells) (iev : Z) (k : nat) (r' : t Samples Cells),
  nth_error (iter_from r iev count) k = Some r' ->
  (k < count)%nat /\
  index r' = Some (iev + Z.of_nat k) /\
  samples r' = fst (get_tio_event r (iev + Z.of_nat k)) /\
  first_cell_ids r' = snd (get_tio_event r (iev + Z.of_nat k)) /\
  n_events r' = n_events r.
Proof.
  induction count as [|count IH]; intros r iev k r' H; cbn [iter_from] in H.
  - destruct k; discriminate.
  - cbv zeta in H. destruct k as [|k]; cbn [nth_error] in H.
    + inversion H; subst. cbn [load index samples first_cell_ids n_events].
      rewrite Z.add_0_r. repeat split. lia.
    + apply IH in H. rewrite get_tio_event_load in H. cbn [load n_events] in H.
      replace (iev + 1 + Z.of_nat k) with (iev + Z.of_nat (S k)) in H by lia.
      destruct H as (Hk & Hi & Hs & Hc & Hn). repeat split; try assumption. lia.
Qed.

Lemma length_iter_from (count : nat) :
  forall (r : t Samples Cells) (iev : Z), List.length (iter_from r iev count) = count.
Proof.
  induction count as [|count IH]; intros r iev; cbn [iter_from]; [reflexivity|].
  cbv zeta. cbn [List.length]. now rewrite IH.
Qed.

(** X21. Iterating over a reader gives the events 0, 1, ... of the file,
    as many as [n_events] and none for a negative number, in this order;
    the event at a position is the one that indexing the reader at that
    position gives. *)
Theorem iteration_agrees_with_indexing (r : t Samples Cells) :
  List.length (iter r) = Z.to_nat (n_events r) /\
  forall (k : nat) (r' : t Samples Cells),
    nth_error (iter r) k = Some r' ->
    Z.of_nat k < n_events r /\
    index r' = Some (Z.of_nat k) /\
    samples r' = snd (getitem r (Z.of_nat k)) /\
    first_cell_ids r' = first_cell_ids (fst (getitem r (Z.of_nat k))) /\
    n_events r' = n_events r.
Proof.
  unfold iter. split; [apply length_iter_from|].
  intros k r' H. apply iter_from_nth in H. cbn [Z.add] in H.
  destruct H as (Hk & Hi & Hs & Hc & Hn).
  split; [lia|]. split; [exact Hi|].
  unfold getitem. cbv zeta. cbn [fst snd load samples first_cell_ids].
  split; [exact Hs|]. split; [exact Hc | exact Hn].
Qed.

(** X22. Of [ReaderR1] and [ReaderR0], one opens a file that [Reader]
    opens and gives the reader that [Reader] gives, by the flag of the
    file, and the other raises [IOError]; both fail as [Reader] does when
    it fails. *)
Theorem one_of_ReaderR1_and_ReaderR0_opens_a_file (path : string) (max_events : option Z) :
  let opened := init TIOReader_open zeros_cells zeros_samples N_BLOCKSAMPLES path max_events in
  let as_R1 := init_R1 TIOReader_open zeros_cells zeros_samples N_BLOCKSAMPLES path max_events in
  let as_R0 := init_R0 TIOReader_open zeros_cells zeros_samples N_BLOCKSAMPLES path max_events in
  match opened with
  | inl r =>
      is_r1 r = fR1 (file path) /\
      if fR1 (file path)
      then as_R1 = inl r /\ as_R0 = inr IOError
      else as_R0 = inl r /\ as_R1 = inr IOError
  | inr e => as_R1 = inr e /\ as_R0 = inr e
  end.
Proof.
  cbv zeta. unfold init_R1, init_R0.
  assert (Hflag : forall r,
            init TIOReader_open zeros_cells zeros_samples N_BLOCKSAMPLES path max_events
            = inl r ->
            is_r1 r = fR1 (file path)).
  { unfold init. destruct (fNModules (file path) =? 0); [discriminate|].
    intros r H. inversion H; subst. reflexivity. }
  destruct (init TIOReader_open zeros_cells zeros_samples N_BLOCKSAMPLES path max_events)
    as [r|e]; [|auto].
  specialize (Hflag r eq_refl). split; [exact Hflag|]. rewrite <- Hflag.
  destruct (is_r1 r); auto.
Qed.

End TargetIO.

(** ** The column [monitor_index] of the table of data events *)

Section IndexColumn.
Context {P : Pandas}.
Import DL1Writer.

Lemma existsb_all {A : Type} (f : A -> bool) (b : bool) (l : list A) :
  l <> [] -> Forall (fun a => f a = b) l -> existsb f l = b.
Proof.
  induction l as [|a l IH]; intros Hne Hall; [congruence|].
  apply Forall_cons_iff in Hall. destruct Hall as [Ha Hl]. cbn [existsb]. rewrite Ha.
  destruct l as [|a' l]; [apply orb_false_r|].
  rewrite IH by (discriminate || exact Hl). now destruct b.
Qed.

Lemma dl1_append_to_file_column (b : bool) (w w' : t) :
  _append_to_file w = Ok w' ->
  Forall (fun df => mem_string "monitor_index" (columns df) = b) (df_list w) ->
  (forall st, get_storer "data" (store w) = Some st ->
              mem_string "monitor_index" (columns (table st)) = b) ->
  (forall st, get_storer "data" (store w') = Some st ->
              mem_string "monitor_index" (columns (table st)) = b) /\
  (df_list w <> [] -> exists st, get_storer "data" (store w') = Some st).
Proof.
  unfold _append_to_file. destruct (df_list w) as [|df l] eqn:E.
  - intros H _ Hst. inversion H; subst. split; [exact Hst | congruence].
  - intros H Hall Hst. bind_inv H. inversion H; subst; clear H. cbn [store].
    rewrite get_storer_append_same.
    pose proof (prepare_shape _ _ H0) as [_ Hcols].
    assert (Hx : mem_string "monitor_index" (columns x) = b).
    { rewrite Hcols, mem_pd_concat.
      rewrite (existsb_all _ b) by (congruence || exact Hall).
      change (mem_string "monitor_index" default_c) with false. apply orb_false_r. }
    split; [|intros _; eauto].
    intros st Hs. destruct (get_storer "data" (store w)) as [st0|].
    + injection Hs as <-. unfold extend_table. cbn [table columns].
      rewrite mem_fold_add_column, (Hst st0 eq_refl), Hx. now destruct b.
    + injection Hs as <-. exact Hx.
Qed.

Lemma append_event_column (fs : FileSystem) (b : bool) (w w' : t) (ev : DataFrame) :
  append_event fs w ev = Ok w' ->
  match monitor w with
  | Some _ => b = true
  | None => mem_string "monitor_index" (columns ev) = b
  end ->
  Forall (fun df => mem_string "monitor_index" (columns df) = b) (df_list w) ->
  (forall st, get_storer "data" (store w) = Some st ->
              mem_string "monitor_index" (columns (table st)) = b) ->
  Forall (fun df => mem_string "monitor_index" (columns df) = b) (df_list w') /\
  (forall st, get_storer "data" (store w') = Some st ->
              mem_string "monitor_index" (columns (table st)) = b).
Proof.
  unfold append_event. intros H Hb Hall Hst. bind_inv H. destruct x as [[m s] ev'].
  assert (Hs : get_storer "data" s = get_storer "data" (store w) /\
               mem_string "monitor_index" (columns ev') = b).
  { destruct (monitor w).
    - bind_inv H0. destruct x as [[m1 s1] ev1]. inversion H0; subst.
      pose proof (match_data _ _ _ _ _ _ _ H1) as [Hd _]. split; [exact Hd|].
      apply match_inv in H1.
      destruct H1 as (td & tn & tn1 & w1 & s1 & fuel & _ & _ & _ & _ & Hstamp).
      unfold MonitorWriter.stamp in Hstamp.
      bind_inv Hstamp. bind_inv Hstamp. bind_inv Hstamp. inversion Hstamp; subst.
      cbn [assign columns]. apply mem_add_column_same.
    - inversion H0; subst. auto. }
  destruct Hs as [Hs Hev].
  assert (Hall' : Forall (fun df => mem_string "monitor_index" (columns df) = b)
                         (df_list w ++ [ev']))
    by (apply Forall_app; split; [exact Hall | constructor; [exact Hev | constructor]]).
  match type of H with
  | (if ?c then _ else _) = _ => destruct c
  end.
  - pose proof (append_to_file_rows _ _ H) as (_ & _ & _ & _ & Hnil).
    apply (dl1_append_to_file_column b) in H.
    + rewrite Hnil. split; [constructor | exact (proj1 H)].
    + exact Hall'.
    + cbn [store]. rewrite Hs. exact Hst.
  - inversion H; subst; clear H. cbn [df_list store]. split; [exact Hall'|].
    rewrite Hs. exact Hst.
Qed.

Lemma append_events_column (fs : FileSystem) (b : bool) (events : list DataFrame) :
  forall (w w' : t),
  append_events fs w events = Ok w' ->
  match monitor w with
  | Some _ => b = true
  | None => Forall (fun ev => mem_string "monitor_index" (columns ev) = b) events
  end ->
  Forall (fun df => mem_string "monitor_index" (columns df) = b) (df_list w) ->
  (forall st, get_storer "data" (store w) = Some st ->
              mem_string "monitor_index" (columns (table st)) = b) ->
  Forall (fun df => mem_string "monitor_index" (columns df) = b) (df_list w') /\
  (forall st, get_storer "data" (store w') = Some st ->
              mem_string "monitor_index" (columns (table st)) = b).
Proof.
  induction events as [|ev events IH]; intros w w' H Hb Hall Hst; simpl in H.
  - inversion H; subst. auto.
  - bind_inv H. pose proof (append_event_monitor _ _ _ _ H0) as Hmon.
    apply (append_event_column fs b) in H0; [| |exact Hall|exact Hst].
    + destruct H0 as [Hall' Hst']. apply IH in H; [exact H| |exact Hall'|exact Hst'].
      destruct (monitor w).
      * destruct Hmon as (m' & _ & _ & _ & ->). exact Hb.
      * destruct Hmon as [-> _]. now inversion Hb.
    + destruct (monitor w); [exact Hb | now inversion Hb].
Qed.

Lemma dl1_finish_table (fs fs' : FileSystem) (w : t) :
  finish fs w = Ok fs' ->
  exists w1 final st st1,
    _append_to_file w = Ok w1 /\
    read fs' (dl1_path w) = Some (H5 final) /\
    get_storer "data" final = Some st /\
    get_storer "data" (store w1) = Some st1 /\
    table st = table st1.
Proof.
  unfold finish. intros H. bind_inv H. bind_inv H. destruct x0 as [m s].
  bind_inv H. bind_inv H. inversion H; subst; clear H.
  pose proof (append_to_file_rows _ _ H0) as (_ & Hp & _ & _ & _).
  assert (Hs : get_storer "data" s = get_storer "data" (store x)).
  { destruct (monitor x).
    - apply bind_Ok in H1. destruct H1 as ([m1 s2] & Hf & H1). inversion H1; subst.
      eapply finish_data; eauto.
    - inversion H1; subst. reflexivity. }
  unfold add_metadata in H2. bind_inv H2. inversion H2; subst; clear H2.
  unfold _save_metadata in H3. cbn [metadata store] in H3.
  apply save_metadata_inv in H3. destruct H3 as [(st & Hst & Hst') _].
  cbn [dl1_path]. rewrite Hp, read_write_file.
  exists x, x1. eexists. exists st.
  split; [exact H0|]. split; [reflexivity|]. split; [exact Hst'|].
  split; [rewrite <- Hs; exact Hst | reflexivity].
Qed.

(** X24. The table of data events that a run leaves has the column
    [monitor_index] when the run was given a monitor path, and not the
    empty one; when it was given none, the table has the column only if
    an event came with it. *)
Theorem monitor_index_is_written_iff_monitored
    (fs fs' : FileSystem) (path : string) (rows_expected : Z)
    (monitor_path : option string) (events : list DataFrame) :
  write_run fs path rows_expected monitor_path events = Ok fs' ->
  exists df,
    data_table fs' path = Some df /\
    (forall mp, monitor_path = Some mp -> mp <> "" ->
       mem_string "monitor_index" (columns df) = true) /\
    (monitor_path = None \/ monitor_path = Some "" ->
     Forall (fun ev => mem_string "monitor_index" (columns ev) = false) events ->
     mem_string "monitor_index" (columns df) = false).
Proof.
  unfold write_run. intros H. bind_inv H. destruct x as [w fs1]. bind_inv H.
  pose proof (dl1_init_inv _ _ _ _ _ _ H0) as (Hd & Hl & _ & Hpath & _).
  apply dl1_init_monitor in H0. destruct H0 as [_ Hinit].
  pose proof (append_events_rows _ _ _ _ H1) as (_ & Hpath' & _).
  apply dl1_finish_table in H.
  destruct H as (w1 & final & st & st1 & Hflush & Hread & Hst & Hst1 & Htable).
  rewrite Hpath', Hpath in Hread.
  exists (table st). split.
  { unfold data_table. rewrite Hread, Hst. reflexivity. }
  assert (Hcol : forall b,
            match monitor w with
            | Some _ => b = true
            | None => Forall (fun ev => mem_string "monitor_index" (columns ev) = b) events
            end ->
            mem_string "monitor_index" (columns (table st)) = b).
  { intros b Hb. apply (append_events_column fs1 b) in H1.
    - destruct H1 as [Hall' Hst'].
      apply (dl1_append_to_file_column b) in Hflush; [|exact Hall'|exact Hst'].
      rewrite Htable. exact (proj1 Hflush st1 Hst1).
    - exact Hb.
    - rewrite Hl. constructor.
    - intros st0 Hs0. congruence. }
  split.
  - intros mp -> Hne. apply Hcol.
    assert (String.eqb mp "" = false) as E by (now apply String.eqb_neq).
    rewrite E in Hinit. destruct Hinit as (m & _ & ->). reflexivity.
  - intros Hmp Hev. apply Hcol.
    assert (Hm : monitor w = None).
    { destruct Hmp as [-> | ->]; [exact (proj1 Hinit)|].
      cbn in Hinit. exact (proj1 Hinit). }
    rewrite Hm. exact Hev.
Qed.

End IndexColumn.

(** ** The buffer of the monitor writer *)

Section MonitorBuffer.
Context {P : Pandas}.
Import MonitorWriter.

(** X25. After [append_monitor_event] the buffer of monitor events counts
    less than 0.5 GB.  Below that size the event is added to the buffer,
    after the events that were there, and the store is as it was; from
    that size on every buffered row and those of the event are in the
    monitor table and the buffer is empty, the table of data events being
    as it was. *)
Theorem monitor_buffer_is_written_at_half_a_gigabyte
    (df : DataFrame) (o o' : Output) (s s' : HDFStore) :
  append_monitor_event df o s = Ok (o', s') ->
  df_list_n_bytes o' < 500000000 /\
  metadata o' = metadata o /\
  (df_list_n_bytes o + memory_usage df < 500000000 ->
   s' = s /\ df_list o' = df_list o ++ [df] /\ n_bytes o' = n_bytes o /\
   df_list_n_bytes o' = df_list_n_bytes o + memory_usage df) /\
  (500000000 <= df_list_n_bytes o + memory_usage df ->
   df_list o' = [] /\ df_list_n_bytes o' = 0 /\
   table_rows "monitor" s' = table_rows "monitor" s + total_rows (df_list o) + nrows df /\
   get_storer "data" s' = get_storer "data" s).
Proof.
  intros H. pose proof (append_monitor_event_metadata _ _ _ _ _ H) as Hm.
  pose proof (append_monitor_event_data _ _ _ _ _ H) as Hd.
  unfold append_monitor_event in H. cbn [df_list_n_bytes] in H.
  destruct (500000000 <=? df_list_n_bytes o + memory_usage df) eqn:E.
  - apply Z.leb_le in E. unfold _append_to_file in H. cbn [df_list] in H.
    destruct (df_list o ++ [df]) as [|d l] eqn:El; [destruct (df_list o); discriminate|].
    rewrite <- El in H. bind_inv H. bind_inv H. inversion H; subst; clear H.
    cbn [df_list df_list_n_bytes metadata].
    split; [lia|]. split; [reflexivity|]. split; [lia|]. intros _.
    split; [reflexivity|]. split; [reflexivity|]. split; [|exact Hd].
    rewrite table_rows_append.
    apply astype_uint_shape in H1. apply astype_uint_shape in H0.
    destruct H1 as [_ ->]. destruct H0 as [_ ->].
    destruct (downcast_floats_shape (pd_concat (df_list o ++ [df]))) as [_ ->].
    rewrite nrows_pd_concat, total_rows_app. unfold total_rows at 2.
    cbn [map fold_right]. lia.
  - apply Z.leb_gt in E. inversion H; subst; clear H.
    cbn [df_list df_list_n_bytes metadata n_bytes].
    split; [lia|]. split; [reflexivity|]. split; [|lia]. intros _.
    repeat split.
Qed.

End MonitorBuffer.

(** ** A run whose buffer is written once *)

Section RoundTrip.
Context {P : Pandas}.
Import DL1Writer.

(** X26. For a run without a monitor file, whose events never fill the
    buffer to the size at which it is written before the run ends, the
    table read back is the frame that [_append_to_file] makes of all the
    events, and the [n_bytes] of the metadata, which [load_entire_table]
    compares with 8 GB, is the memory usage of that frame. *)
Theorem read_back_what_was_written_once
    (fs fs' : FileSystem) (path : string) (rows_expected : Z)
    (events : list DataFrame) (df : DataFrame) :
  events <> [] ->
  stays_below 0 events = true ->
  prepare events = Ok df ->
  write_run fs path rows_expected None events = Ok fs' ->
  exists r,
    DL1Reader.init fs' path = Ok (r, None) /\
    HDFStoreReader.getitem r = Ok df /\
    HDFStoreReader.n_bytes r = Ok (MInt (memory_usage df)) /\
    HDFStoreReader.metadata r = Ok [("n_bytes", MInt (memory_usage df))].
Proof.
  intros Hne Hbelow Hprep H. unfold write_run in H.
  destruct (init fs path rows_expected None) as [[w fs1]|e] eqn:E; [|discriminate].
  cbn [bind] in H. unfold init in E. rewrite removed_if_exists in E.
  unfold HDFStore_open in E. rewrite read_remove_same in E. cbn [bind] in E.
  inversion E; subst; clear E.
  match type of H with
  | context [append_events ?f ?w0 events] =>
      destruct (append_events_buffered f events w0 eq_refl Hbelow) as [n Hn];
      rewrite Hn in H
  end.
  cbn [bind df_list dl1_path totalrows metadata n_bytes monitor store app] in H.
  unfold finish, _append_to_file in H. cbn [df_list] in H.
  destruct events as [|ev events]; [contradiction|].
  rewrite Hprep in H.
  cbn [bind dl1_path totalrows metadata n_bytes monitor store df_list df_list_n_bytes] in H.
  unfold add_metadata, dict_merge in H.
  cbn [bind metadata existsb app dl1_path totalrows n_bytes df_list df_list_n_bytes
       monitor store] in H.
  unfold _save_metadata, save_metadata in H. cbn [metadata store] in H.
  cbn [store_append get_storer replace_metadata String.eqb Ascii.eqb Bool.eqb bind
       dl1_path table] in H.
  inversion H; subst; clear H.
  unfold DL1Reader.init, HDFStore_open_read. rewrite read_write_file. cbn [bind].
  eexists. split; [reflexivity|].
  split; [reflexivity|]. split; reflexivity.
Qed.

End RoundTrip.

(** ** The rows of the monitor table *)

Section Columns.
Context {P : Pandas}.
Import MonitorWriter.

Lemma seq_add (a n : nat) : seq a n = map (fun j => (a + j)%nat) (seq 0 n).
Proof.
  induction a as [|a IH]; [exact (eq_sym (map_id _))|].
  rewrite <- seq_shift, IH, map_map. reflexivity.
Qed.

Lemma cycle_column_app (cast : Z -> Z) (a m k : nat) :
  cycle_column cast a m ++ cycle_column cast (a + m) k = cycle_column cast a (m + k).
Proof.
  unfold cycle_column. rewrite <- map_app. f_equal.
  replace (32 * (a + m))%nat with (32 * a + 32 * m)%nat by lia.
  replace (32 * (m + k))%nat with (32 * m + 32 * k)%nat by lia.
  symmetry. apply seq_app.
Qed.

Lemma module_column_app (a m k : nat) :
  module_column a m ++ module_column (a + m) k = module_column a (m + k).
Proof.
  unfold module_column. rewrite <- map_app. f_equal.
  replace (32 * (a + m))%nat with (32 * a + 32 * m)%nat by lia.
  replace (32 * (m + k))%nat with (32 * m + 32 * k)%nat by lia.
  symmetry. apply seq_app.
Qed.

Lemma cycle_column_one (cast : Z -> Z) (i : nat) :
  cycle_column cast i 1 = repeat (VInt (cast (Z.of_nat i))) 32.
Proof.
  unfold cycle_column. rewrite seq_add, map_map.
  change (32 * 1)%nat with 32%nat.
  transitivity (map (fun _ : nat => VInt (cast (Z.of_nat i))) (seq 0 32)); [|reflexivity].
  apply map_ext_in. intros j Hj. apply in_seq in Hj. do 2 f_equal.
  rewrite Nat2Z.inj_add, Nat2Z.inj_mul. change (Z.of_nat 32) with 32.
  rewrite Z.mul_comm, Z.div_add_l by lia. rewrite Z.div_small by lia. lia.
Qed.

Lemma module_column_one (i : nat) :
  module_column i 1 = map (fun m => VInt (Z.of_nat m)) (seq 0 32).
Proof.
  unfold module_column. rewrite seq_add, map_map.
  change (32 * 1)%nat with 32%nat.
  apply map_ext_in. intros j Hj. apply in_seq in Hj. f_equal.
  rewrite Nat2Z.inj_add, Nat2Z.inj_mul. change (Z.of_nat 32) with 32.
  rewrite Z.add_comm, Z.mul_comm, Z.mod_add by lia. apply Z.mod_small. lia.
Qed.

Lemma cycle_column_nil (cast : Z -> Z) (a : nat) : cycle_column cast a 0 = [].
Proof. unfold cycle_column. rewrite Nat.mul_0_r. reflexivity. Qed.

Lemma module_column_nil (a : nat) : module_column a 0 = [].
Proof. unfold module_column. rewrite Nat.mul_0_r. reflexivity. Qed.

Lemma cast_cells_ints (bits : Z) (f : nat -> Z) (l : list nat) :
  cast_cells bits (map (fun k => VInt (f k)) l)
  = Ok (map (fun k => VInt (f k mod 2 ^ bits)) l).
Proof.
  induction l as [|k l IH]; [reflexivity|].
  cbn [map cast_cells to_uint bind]. rewrite IH. reflexivity.
Qed.

Lemma cast_cycle_column (a m : nat) :
  cast_cells 32 (cycle_column (fun z => z) a m) = Ok (cycle_column uint32 a m).
Proof. unfold cycle_column. rewrite cast_cells_ints. reflexivity. Qed.

Lemma cast_module_column (a m : nat) :
  cast_cells 8 (module_column a m) = Ok (module_column a m).
Proof.
  unfold module_column. rewrite cast_cells_ints. f_equal. apply map_ext. intros k.
  f_equal. apply Z.mod_small.
  pose proof (Z.mod_pos_bound (Z.of_nat k) 32 ltac:(lia)). change (2 ^ 8) with 256. lia.
Qed.

Lemma column_values_set_column_same (c : string) (v : value) (df : DataFrame) :
  column_values c (set_column c v df) = repeat v (List.length (rows df)).
Proof.
  unfold column_values, set_column. cbn [rows].
  induction (rows df) as [|[i r] rs IH]; [reflexivity|].
  cbn [map List.length repeat snd]. now rewrite get_set_same, IH.
Qed.

Lemma column_values_set_column_other (c c' : string) (v : value) (df : DataFrame) :
  c <> c' -> column_values c' (set_column c v df) = column_values c' df.
Proof.
  intros Hne. unfold column_values, set_column. cbn [rows]. rewrite map_map.
  apply map_ext. intros [i r]. cbn [snd]. now apply get_set_other.
Qed.

Lemma labels_set_column (c : string) (v : value) (df : DataFrame) :
  map fst (rows (set_column c v df)) = map fst (rows df).
Proof. unfold set_column. cbn [rows]. rewrite map_map. reflexivity. Qed.

Lemma find_label_In (id : Z) (rs : list (Z * row)) :
  In id (map fst rs) -> exists r, find_label id rs = Some r.
Proof.
  induction rs as [|[i r] rs IH]; intros Hin; [destruct Hin|].
  cbn [find_label]. destruct (Z.eqb i id) eqn:E; [eauto|].
  destruct Hin as [Heq | Hin]; [|now apply IH].
  cbn [fst] in Heq. apply Z.eqb_neq in E. congruence.
Qed.

Lemma column_values_set_label_other (id : Z) (c c' : string) (v : value)
                                    (rs : list (Z * row)) :
  c <> c' -> In id (map fst rs) ->
  map (fun ir => get_cell c' (snd ir)) (set_label id c v rs)
  = map (fun ir => get_cell c' (snd ir)) rs.
Proof.
  intros Hne. induction rs as [|[i r] rs IH]; intros Hin; [destruct Hin|].
  cbn [set_label]. destruct (Z.eqb i id) eqn:E.
  - cbn [map snd]. now rewrite get_set_other.
  - cbn [map snd]. rewrite IH; [reflexivity|].
    destruct Hin as [Heq | Hin]; [|exact Hin].
    cbn [fst] in Heq. apply Z.eqb_neq in E. congruence.
Qed.

Lemma range_index_values (c : string) (rs : list (Z * row)) :
  forall start,
  map (fun ir => get_cell c (snd ir)) (range_index start rs)
  = map (fun ir => get_cell c (snd ir)) rs.
Proof.
  induction rs as [|[i r] rs IH]; intros start; [reflexivity|].
  cbn [range_index map snd]. now rewrite IH.
Qed.

Lemma column_values_pd_concat (c : string) (frames : list DataFrame) :
  column_values c (pd_concat frames) = flat_map (column_values c) frames.
Proof.
  unfold column_values at 1, pd_concat. cbn [rows]. rewrite range_index_values.
  induction frames as [|df frames IH]; [reflexivity|].
  cbn [flat_map]. rewrite map_app, IH. reflexivity.
Qed.

Lemma downcast_floats_int_column (c : string) (df : DataFrame) :
  Forall (fun v => is_int v = true) (column_values c df) ->
  column_values c (downcast_floats df) = column_values c df.
Proof.
  intros Hint. unfold downcast_floats.
  assert (Hfloat : is_float_column (column_values c df) = false).
  { unfold is_float_column.
    assert (existsb (fun v => match v with VFloat _ _ | VNaN => true | _ => false end)
                    (column_values c df) = false) as ->; [|reflexivity].
    induction Hint as [|v vs Hv _ IH]; [reflexivity|].
    cbn [existsb]. rewrite IH. destruct v; try discriminate. reflexivity. }
  assert (Hfold : forall cols d,
            column_values c d = column_values c df ->
            column_values c
              (fold_left (fun d c' =>
                            if is_float_column (column_values c' df)
                            then assign c' (to_numeric_downcast (column_values c' df)) d
                            else d) cols d)
            = column_values c df).
  { induction cols as [|c' cols IH]; intros d Hd; [exact Hd|].
    cbn [fold_left]. apply IH.
    destruct (is_float_column (column_values c' df)) eqn:E; [|exact Hd].
    rewrite column_values_assign_other; [exact Hd|].
    intros ->. congruence. }
  apply Hfold. reflexivity.
Qed.

Lemma stored_columns_append (df : DataFrame) (s : HDFStore) :
  stored_columns (store_append "monitor" df s)
  = (fst (stored_columns s) ++ column_values "imon" df,
     snd (stored_columns s) ++ column_values "module" df).
Proof.
  unfold stored_columns. rewrite get_storer_append_same.
  destruct (get_storer "monitor" s) as [st|]; [|reflexivity].
  unfold extend_table, column_values. cbn [table rows fst snd]. now rewrite !map_app.
Qed.

Lemma is_int_cycle_column (cast : Z -> Z) (a m : nat) :
  Forall (fun v => is_int v = true) (cycle_column cast a m).
Proof. unfold cycle_column. apply Forall_map, Forall_forall. intros; reflexivity. Qed.

Lemma is_int_module_column (a m : nat) :
  Forall (fun v => is_int v = true) (module_column a m).
Proof. unfold module_column. apply Forall_map, Forall_forall. intros; reflexivity. Qed.

Lemma appended_cycles_ext (n : nat) (o o' : Output) (s s' : HDFStore) :
  df_list o' = df_list o ->
  get_storer "monitor" s' = get_storer "monitor" s ->
  appended_cycles n o s -> appended_cycles n o' s'.
Proof.
  intros Hl Hs (m & Hm & Hst & Hbuf). exists m. split; [exact Hm|].
  unfold stored_columns in *. rewrite Hs, Hl. split; assumption.
Qed.

(** Writing the buffer leaves the same cycles appended. *)
Lemma monitor_append_to_file_cycles (n : nat) (o o' : Output) (s s' : HDFStore) :
  appended_cycles n o s ->
  _append_to_file o s = Ok (o', s') ->
  appended_cycles n o' s'.
Proof.
  intros (m & Hm & Hst & Hbuf). unfold _append_to_file.
  remember (df_list o) as frames eqn:E. destruct frames as [|d l].
  - intros H. inversion H; subst. exists m. rewrite <- E. auto.
  - intros H. bind_inv H. bind_inv H. inversion H; subst; clear H.
    unfold buffer_columns in Hbuf. injection Hbuf as Hi Hmod.
    exists n. split; [lia|]. cbn [df_list].
    rewrite stored_columns_append, Hst. cbn [fst snd].
    rewrite Nat.sub_diag, cycle_column_nil, module_column_nil.
    split; [|reflexivity].
    assert (Hci : column_values "imon" (pd_concat (d :: l))
                  = cycle_column (fun z => z) m (n - m))
      by (rewrite column_values_pd_concat; exact Hi).
    assert (Hcm : column_values "module" (pd_concat (d :: l)) = module_column m (n - m))
      by (rewrite column_values_pd_concat; exact Hmod).
    pose proof (column_values_astype_same _ _ _ _ H0) as Hcast_i.
    pose proof (column_values_astype_same _ _ _ _ H1) as Hcast_m.
    rewrite (column_values_astype_other _ _ _ _ _ H0) in Hcast_m by discriminate.
    rewrite downcast_floats_int_column, Hci, cast_cycle_column in Hcast_i
      by (rewrite Hci; apply is_int_cycle_column).
    rewrite downcast_floats_int_column, Hcm, cast_module_column in Hcast_m
      by (rewrite Hcm; apply is_int_module_column).
    injection Hcast_i as Hcast_i. injection Hcast_m as Hcast_m.
    rewrite (column_values_astype_other _ _ _ _ _ H1) by discriminate.
    rewrite <- Hcast_i, <- Hcast_m.
    replace n with (m + (n - m))%nat at 3 4 by lia.
    rewrite <- cycle_column_app, <- module_column_app. reflexivity.
Qed.

(** Appending the event of the next cycle. *)
Lemma append_monitor_event_cycles (n : nat) (df : DataFrame) (o o' : Output)
                                  (s s' : HDFStore) :
  appended_cycles n o s -> is_block n df ->
  append_monitor_event df o s = Ok (o', s') ->
  appended_cycles (S n) o' s'.
Proof.
  intros (m & Hm & Hst & Hbuf) [Hi Hmod] H. unfold append_monitor_event in H.
  assert (Hnew : appended_cycles (S n)
                   {| metadata := metadata o; n_bytes := n_bytes o;
                      df_list := df_list o ++ [df];
                      df_list_n_bytes := df_list_n_bytes o + memory_usage df;
                      reported := reported o |} s).
  { exists m. split; [lia|]. split; [exact Hst|]. cbn [df_list].
    unfold buffer_columns in *. inversion Hbuf as [[Hbi Hbm]].
    rewrite !flat_map_app. cbn [flat_map]. rewrite !app_nil_r, Hbi, Hbm, Hi, Hmod.
    replace (S n - m)%nat with ((n - m) + 1)%nat by lia.
    rewrite <- cycle_column_app, <- module_column_app.
    replace (m + (n - m))%nat with n by lia. reflexivity. }
  match type of H with
  | (if ?c then _ else _) = _ => destruct c
  end.
  - eapply monitor_append_to_file_cycles; eauto.
  - inversion H; subst. exact Hnew.
Qed.

End Columns.

Section Alignment.
Context {P : Pandas}.
Import MonitorWriter.

Lemma collecting_empty_df : collecting empty_df.
Proof. split; reflexivity. Qed.

Lemma supported_is_not_module (key : string) :
  mem_string key supported = true -> key <> "module".
Proof. intros H ->. discriminate H. Qed.

Lemma in_module_labels (id : Z) :
  (0 <=? id) && (id <? 32) = true -> In id (map Z.of_nat (seq 0 32)).
Proof.
  intros H. apply andb_true_iff in H. destruct H as [H0 H1].
  apply Z.leb_le in H0. apply Z.ltb_lt in H1.
  apply in_map_iff. exists (Z.to_nat id). split; [lia|]. apply in_seq. lia.
Qed.

Lemma collecting_set_loc (id : Z) (key : string) (v : value) (df : DataFrame) :
  collecting df -> (0 <=? id) && (id <? 32) = true -> mem_string key supported = true ->
  collecting (set_loc id key v df).
Proof.
  intros [Hl Hm] Hid Hkey. apply in_module_labels in Hid. rewrite <- Hl in Hid.
  destruct (find_label_In _ _ Hid) as [r Hr].
  split.
  - unfold set_loc. cbn [rows]. rewrite <- Hl. fold (labels df).
    pose proof (labels_set_label id key v (rows df)) as H. rewrite Hr in H. exact H.
  - rewrite <- Hm. unfold column_values, set_loc. cbn [rows].
    apply column_values_set_label_other; [|exact Hid].
    now apply supported_is_not_module.
Qed.

Lemma collecting_is_block (df : DataFrame) (n : nat) (t : Z) :
  collecting df ->
  is_block n (set_column "t_cpu" (VTime t) (set_column "imon" (VInt (Z.of_nat n)) df)).
Proof.
  intros [Hl Hm]. split.
  - rewrite column_values_set_column_other by discriminate.
    rewrite column_values_set_column_same, cycle_column_one.
    rewrite <- (length_map fst), Hl, length_map, length_seq. reflexivity.
  - rewrite !column_values_set_column_other by discriminate.
    rewrite Hm, !module_column_one. reflexivity.
Qed.

(** What the body of the loop does to the frame of the cycle. *)
Lemma handle_line_collecting (l : Locals) (line : string) :
  device_in_range line = true -> collecting (l_df l) ->
  match handle_line l line with
  | LNext l' | LReport l' => collecting (l_df l')
  | LYield df _ => forall n : nat, l_imon l = Z.of_nat n -> is_block n df
  | LRaise _ => True
  end.
Proof.
  unfold handle_line, device_in_range. intros Hr Hc.
  destruct (String.eqb line ""); [exact Hc|].
  destruct (split_space (remove_newlines line)) as [|d0 [|d1 rest]]; [exact I | exact I |].
  destruct (to_datetime (d0 ++ " " ++ d1)%string) as [t|]; [|exact Hc].
  destruct (contains marker line).
  - intros n ->. now apply collecting_is_block.
  - destruct rest as [|dev [|meas [|d4 [|d5 more]]]]; cbn [l_df]; try exact Hc.
    destruct (mem_string (dev ++ "_" ++ meas)%string supported) eqn:Hkey;
      cbn [l_df]; [|exact Hc].
    destruct (py_int d4) as [id|]; cbn [l_df]; [|exact Hc].
    destruct (py_float d5) as [v|]; cbn [l_df]; [|exact Hc].
    now apply collecting_set_loc.
Qed.

Lemma find_label_Some_In (i : Z) (rs : list (Z * row)) (r : row) :
  find_label i rs = Some r -> In r (map snd rs).
Proof.
  induction rs as [|[j r'] rs IH]; [discriminate|].
  cbn [find_label]. destruct (Z.eqb j i).
  - intros H. inversion H; subst. left. reflexivity.
  - intros H. right. now apply IH.
Qed.

Lemma imon_of_block (k : nat) (df : DataFrame) (imon : Z) :
  is_block k df -> imon_of df = Ok imon -> imon = Z.of_nat k.
Proof.
  intros [Hi _] H. unfold imon_of in H. bind_inv H. unfold loc in H0.
  destruct (mem_string "imon" (columns df)); [|discriminate].
  destruct (find_label 0 (rows df)) as [r|] eqn:E; [|discriminate].
  inversion H0; subst; clear H0. apply find_label_Some_In in E.
  assert (Hin : In (get_cell "imon" r) (column_values "imon" df)).
  { unfold column_values. rewrite <- (map_map snd (get_cell "imon")).
    now apply in_map. }
  rewrite Hi, cycle_column_one in Hin. apply repeat_spec in Hin.
  rewrite Hin in H. inversion H. reflexivity.
Qed.

Lemma is_block_synthetic (k : nat) (t_cpu delta : Z) :
  is_block (S k) (synthetic (Z.of_nat k) t_cpu delta).
Proof.
  unfold synthetic. replace (Z.of_nat k + 1) with (Z.of_nat (S k)) by lia.
  apply collecting_is_block, collecting_empty_df.
Qed.

(** A run of the generator, from locals that hold the cycle [n] with the
    cycles before it appended. *)
Lemma run_lines_in_step (lines : list string) (path : string) (rest : list string) :
  forall (l : Locals) (o o' : Output) (s s' : HDFStore) (n : nat)
         (r : option DataFrame) (it : generator),
  collecting (l_df l) ->
  Forall (fun line => device_in_range line = true) rest ->
  l_imon l = Z.of_nat n ->
  Z.of_nat n + cycle_ends rest = cycle_ends lines ->
  appended_cycles n o s ->
  run_lines path rest l o s = Ok (r, it, o', s') ->
  match r with
  | Some df =>
      is_block n df /\ next_imon it = Z.of_nat n + 1 /\ in_step lines O it o' s'
  | None =>
      it = Finished /\ Z.of_nat n = cycle_ends lines /\ appended_cycles n o' s'
  end.
Proof.
  induction rest as [|line rest IH]; intros l o o' s s' n r it Hc Hr Hn Hcount Ha H;
    cbn [run_lines] in H.
  - bind_inv H. inversion H; subst; clear H.
    split; [reflexivity|]. split; [change (cycle_ends []) with 0 in Hcount; lia|].
    unfold add_metadata in H0. bind_inv H0. inversion H0; subst.
    eapply appended_cycles_ext; [| reflexivity | exact Ha]. reflexivity.
  - apply Forall_cons_iff in Hr. destruct Hr as [Hline Hr].
    pose proof (handle_line_cycle l line) as Hl.
    pose proof (handle_line_collecting l line Hline Hc) as Hd.
    rewrite cycle_ends_cons in Hcount.
    destruct (handle_line l line) as [l1|l1|df l1|e]; [| | |discriminate].
    + destruct Hl as (Hce & Hi & _). rewrite Hce in Hcount.
      eapply IH; [exact Hd | exact Hr | congruence | lia | exact Ha | exact H].
    + destruct Hl as (Hce & Hi & _). rewrite Hce in Hcount.
      eapply IH; [exact Hd | exact Hr | congruence | lia | | exact H].
      eapply appended_cycles_ext; [| reflexivity | exact Ha]. reflexivity.
    + destruct Hl as (Hce & Hi & _). rewrite Hce in Hcount.
      bind_inv H. destruct x as [o1 s1]. inversion H; subst; clear H.
      specialize (Hd n Hn). split; [exact Hd|].
      cbn [next_imon in_step]. split; [lia|].
      exists (S n). split; [lia|]. split; [lia|]. split; [reflexivity|].
      split; [|exact Hr].
      eapply append_monitor_event_cycles; eauto.
Qed.

Lemma tracked_ext (lines : list string) (w : t) (s s' : HDFStore) :
  get_storer "monitor" s' = get_storer "monitor" s ->
  tracked lines w s -> tracked lines w s'.
Proof.
  intros Hs [Hstep Hrest]. split; [|exact Hrest].
  unfold in_step in *. destruct (monitor_it w); [exact Hstep | |].
  - destruct Hstep as (n & H1 & H2 & H3 & H4 & H5). exists n.
    repeat (split; [assumption|]). split; [|exact H5].
    eapply appended_cycles_ext; [reflexivity | exact Hs | exact H4].
  - destruct Hstep as (n & H1 & H2). exists n. split; [exact H1|].
    eapply appended_cycles_ext; [reflexivity | exact Hs | exact H2].
Qed.

(** The loop of [match_to_data_events] keeps the writer in step. *)
Lemma advance_tracked (lines : list string) (fs : FileSystem) (t_cpu_data : Z) :
  forall (fuel : nat) (t_next t_next' : Z) (w w' : t) (s s' : HDFStore),
  tracked lines w s ->
  advance fuel fs t_cpu_data t_next w s = Ok (t_next', w', s') ->
  tracked lines w' s'.
Proof.
  induction fuel as [|fuel IH]; intros t_next t_next' w w' s s' Ht H; cbn [advance] in H.
  - destruct ((t_next <? t_cpu_data) && negb (eof w)); [discriminate|].
    inversion H; subst. exact Ht.
  - destruct ((t_next <? t_cpu_data) && negb (eof w)) eqn:Hcond;
      [|inversion H; subst; exact Ht].
    apply andb_true_iff in Hcond. destruct Hcond as [_ Heof].
    apply negb_true_iff in Heof.
    destruct Ht as [Hstep Hrest]. rewrite Heof in Hrest.
    destruct Hrest as (Haeof & k & Hk & Hblock). rewrite Haeof in Hstep.
    bind_inv H. destruct x as [[[nxt it] o] s1].
    destruct (monitor_it w) as [p|p rest l|] eqn:Eit; cbn [in_step] in Hstep;
      [destruct Hstep | | cbn [next_imon] in Hk; lia].
    destruct Hstep as (n & Hn & Hcount & _ & Ha & Hr).
    cbn [next next_imon] in H0, Hk.
    apply (run_lines_in_step lines) with (n := n) in H0;
      [| exact collecting_empty_df | exact Hr | cbn [resume l_imon]; exact Hn
       | exact Hcount | exact Ha].
    destruct nxt as [nxt|].
    + destruct H0 as (Hb & Hnext & Hstep'). bind_inv H.
      eapply IH; [|exact H]. split; cbn [monitor_it out aeof eof next_monitor_ev].
      * rewrite Haeof. exact Hstep'.
      * rewrite Heof. split; [exact Haeof|]. exists n. split; [lia | exact Hb].
    + destruct H0 as (-> & Hfin & Ha'). bind_inv H. bind_inv H. bind_inv H.
      eapply IH; [|exact H]. split; cbn [monitor_it out aeof eof next_monitor_ev].
      * rewrite Haeof. cbn [in_step]. exists n. split; [exact Hfin|].
        rewrite Nat.add_0_r. exact Ha'.
      * split; [reflexivity|]. intros _. exists n. split; [exact Hfin|].
        apply (imon_of_block k) in H0; [|exact Hblock]. subst x.
        replace n with (S k) by lia. apply is_block_synthetic.
Qed.

Lemma update_delta_tracked (lines : list string) (w : t) (d : Z) (s : HDFStore) :
  tracked lines w s -> tracked lines (update_delta w d) s.
Proof. unfold update_delta. destruct (t_delta_max w <? d); auto. Qed.

Lemma emit_tail_tracked (lines : list string) (t_cpu_data t_next : Z)
                        (w w' : t) (s s' : HDFStore) :
  tracked lines w s ->
  emit_tail t_cpu_data t_next w s = Ok (w', s') ->
  tracked lines w' s'.
Proof.
  intros Ht H. unfold emit_tail in H.
  destruct (eof w && (t_next <? t_cpu_data) && negb (aeof w)) eqn:Hcond;
    [|inversion H; subst; exact Ht].
  apply andb_true_iff in Hcond. destruct Hcond as [Hcond Haeof].
  apply andb_true_iff in Hcond. destruct Hcond as [Heof _].
  apply negb_true_iff in Haeof.
  destruct Ht as [Hstep Hrest]. rewrite Heof in Hrest. rewrite Haeof in Hstep.
  destruct Hrest as (Hfin & Hblock). destruct (Hblock Haeof) as (n & Hn & Hb).
  rewrite Hfin in Hstep. cbn [in_step] in Hstep. destruct Hstep as (n' & Hn' & Ha).
  assert (n' = n) by lia. subst n'. rewrite Nat.add_0_r in Ha.
  bind_inv H. destruct x as [o1 s1]. inversion H; subst; clear H.
  split; cbn [monitor_it out aeof eof next_monitor_ev].
  - rewrite Hfin. cbn [in_step]. exists n. split; [exact Hn|].
    replace (n + 1)%nat with (S n) by lia.
    eapply append_monitor_event_cycles; eauto.
  - rewrite Heof. split; [exact Hfin|]. discriminate.
Qed.

Lemma match_tracked (lines : list string) (fs : FileSystem) (w w' : t)
                    (s s' : HDFStore) (ev ev' : DataFrame) :
  tracked lines w s ->
  match_to_data_events fs w s ev = Ok (w', s', ev') ->
  tracked lines w' s'.
Proof.
  intros Ht H. unfold match_to_data_events in H. bind_inv H. bind_inv H. bind_inv H.
  destruct x1 as [[t1 w1] s1]. bind_inv H. destruct x1 as [w2 s2]. bind_inv H.
  inversion H; subst; clear H.
  eapply emit_tail_tracked; [|exact H3].
  eapply advance_tracked; [|exact H2].
  now apply update_delta_tracked.
Qed.

(** The writer is in step from [__init__] on, the store having no monitor
    table yet. *)
Lemma init_tracked (fs : FileSystem) (path : string) (lines : list string)
                   (s s' : HDFStore) (w : t) :
  read fs path = Some (Text lines) ->
  Forall (fun line => device_in_range line = true) lines ->
  get_storer "monitor" s = None ->
  init fs path s = Ok (w, s') ->
  tracked lines w s'.
Proof.
  unfold init, discard. intros Hread Hr Hs H. bind_inv H.
  destruct x as [[[[df|] it] o] s1]; [|discriminate].
  inversion H; subst; clear H.
  cbn [next] in H0. unfold open_lines in H0. rewrite Hread in H0. cbn [bind] in H0.
  apply (run_lines_in_step lines) with (n := O) in H0;
    [| exact collecting_empty_df | exact Hr | reflexivity | reflexivity |].
  - destruct H0 as (Hb & Hnext & Hstep).
    split; cbn [monitor_it out aeof eof next_monitor_ev]; [exact Hstep|].
    split; [reflexivity|]. exists O. split; [lia | exact Hb].
  - exists O. split; [lia|]. unfold stored_columns. rewrite Hs. split; reflexivity.
Qed.

Lemma drain_in_step (lines : list string) (fs : FileSystem) (extra : nat) :
  forall (fuel : nat) (it it' : generator) (o o' : Output) (s s' : HDFStore),
  in_step lines extra it o s ->
  drain fuel fs it o s = Ok (it', o', s') ->
  exists n : nat, Z.of_nat n = cycle_ends lines /\ appended_cycles (n + extra) o' s'.
Proof.
  induction fuel as [|fuel IH]; intros it it' o o' s s' Hstep H; cbn [drain] in H;
    [discriminate|].
  bind_inv H. destruct x as [[[ev it1] o1] s1].
  destruct it as [p|p rest l|]; cbn [in_step] in Hstep; [destruct Hstep | |].
  - destruct Hstep as (n & Hn & Hcount & -> & Ha & Hr). cbn [next] in H0.
    apply (run_lines_in_step lines) with (n := n) in H0;
      [| exact collecting_empty_df | exact Hr | cbn [resume l_imon]; exact Hn
       | exact Hcount | exact Ha].
    destruct ev as [ev|].
    + destruct H0 as (_ & _ & Hstep'). eapply IH; eauto.
    + destruct H0 as (_ & Hfin & Ha'). inversion H; subst.
      exists n. rewrite Nat.add_0_r. split; assumption.
  - cbn [next] in H0. inversion H0; subst. inversion H; subst. exact Hstep.
Qed.

Lemma monitor_append_to_file_empties (o o' : Output) (s s' : HDFStore) :
  _append_to_file o s = Ok (o', s') -> df_list o' = [].
Proof.
  unfold _append_to_file. destruct (df_list o) eqn:E.
  - intros H. inversion H; subst. exact E.
  - intros H. bind_inv H. bind_inv H. inversion H; subst. reflexivity.
Qed.

Lemma length_cycle_column (cast : Z -> Z) (a m : nat) :
  List.length (cycle_column cast a m) = (32 * m)%nat.
Proof. unfold cycle_column. now rewrite length_map, length_seq. Qed.

(** The monitor table that [finish] leaves. *)
Lemma monitor_finish_columns (lines : list string) (fs : FileSystem) (w w' : t)
                             (s s' : HDFStore) :
  tracked lines w s ->
  finish fs w s = Ok (w', s') ->
  exists n : nat,
    Z.of_nat n = cycle_ends lines /\
    stored_columns s'
    = (cycle_column uint32 0 (n + if aeof w then 1 else 0),
       module_column 0 (n + if aeof w then 1 else 0)).
Proof.
  intros [Hstep _] H. unfold finish in H. bind_inv H. destruct x as [[it o] s1].
  bind_inv H. destruct x as [o2 s2]. bind_inv H. bind_inv H. inversion H; subst; clear H.
  apply (drain_in_step lines) with (extra := if aeof w then 1%nat else O) in H0;
    [|exact Hstep].
  destruct H0 as (n & Hn & Ha). exists n. split; [exact Hn|].
  pose proof (monitor_append_to_file_empties _ _ _ _ H1) as Hempty.
  apply (monitor_append_to_file_cycles _ _ _ _ _ Ha) in H1.
  destruct H1 as (m & Hm & Hst & Hbuf). rewrite Hempty in Hbuf.
  unfold buffer_columns in Hbuf. cbn [flat_map] in Hbuf. injection Hbuf as Hb _.
  apply (f_equal (@List.length value)) in Hb. rewrite length_cycle_column in Hb.
  cbn [List.length] in Hb.
  assert (m = (n + if aeof w then 1 else 0)%nat) by lia. subst m.
  unfold _save_metadata in H3. apply save_metadata_inv in H3.
  destruct H3 as [(st & Hget & Hget') _].
  unfold stored_columns in *. rewrite Hget'. rewrite Hget in Hst. exact Hst.
Qed.

End Alignment.

Section AlignmentRun.
Context {P : Pandas}.
Import DL1Writer.

Lemma append_event_tracked (lines : list string) (fs : FileSystem) (w w' : t)
                           (ev : DataFrame) :
  (exists m, monitor w = Some m /\ tracked lines m (store w)) ->
  append_event fs w ev = Ok w' ->
  exists m', monitor w' = Some m' /\ tracked lines m' (store w').
Proof.
  intros (m & Hm & Ht) H. unfold append_event in H. rewrite Hm in H.
  bind_inv H. destruct x as [[m1 s1] ev1].
  bind_inv H0. destruct x as [[m2 s2] ev2]. inversion H0; subst; clear H0.
  apply (match_tracked lines) in H1; [|exact Ht].
  match type of H with
  | (if ?c then _ else _) = _ => destruct c
  end.
  - pose proof (append_to_file_rows _ _ H) as (_ & _ & _ & Hmon & _).
    pose proof (dl1_append_to_file_other _ _ "monitor" H ltac:(discriminate)) as Hs.
    cbn [monitor store] in Hmon, Hs. exists m2. split; [exact Hmon|].
    eapply tracked_ext; [exact Hs | exact H1].
  - inversion H; subst. cbn [monitor store]. exists m2. split; [reflexivity | exact H1].
Qed.

Lemma append_events_tracked (lines : list string) (fs : FileSystem)
                            (events : list DataFrame) :
  forall (w w' : t),
  (exists m, monitor w = Some m /\ tracked lines m (store w)) ->
  append_events fs w events = Ok w' ->
  exists m', monitor w' = Some m' /\ tracked lines m' (store w').
Proof.
  induction events as [|ev events IH]; intros w w' Ht H; simpl in H.
  - inversion H; subst. exact Ht.
  - bind_inv H. eapply IH; [|exact H]. eapply append_event_tracked; eauto.
Qed.

Lemma dl1_init_tracked (fs fs' : FileSystem) (path mp : string) (rows_expected : Z)
                       (lines : list string) (w : t) :
  read fs mp = Some (Text lines) -> mp <> "" -> mp <> path ->
  Forall (fun line => device_in_range line = true) lines ->
  init fs path rows_expected (Some mp) = Ok (w, fs') ->
  exists m, monitor w = Some m /\ tracked lines m (store w).
Proof.
  intros Hr Hne Hp Hlines H. apply dl1_init_monitor in H. destruct H as [Hfs H].
  assert (String.eqb mp "" = false) as E by (now apply String.eqb_neq).
  rewrite E in H. destruct H as (m & Hi & Hm).
  assert (Hr' : read fs' mp = Some (Text lines)).
  { subst fs'. rewrite read_write_file_other by congruence.
    rewrite read_remove_other by exact Hp. exact Hr. }
  exists m. split; [exact Hm|].
  eapply init_tracked; [exact Hr' | exact Hlines | | exact Hi]. reflexivity.
Qed.

(** X27. A run with a monitor file in which no supported measurement is
    given for a device id outside 0 to 31 leaves a monitor table of whole
    cycles: the row at the position k holds the cycle k // 32, as a uint32,
    and the module k % 32.  The table holds the cycles of the file, or one
    more: the empty event added after the last cycle, when a data event
    came later. *)
Theorem monitor_table_is_aligned
    (fs fs' : FileSystem) (path mp : string) (rows_expected : Z)
    (lines : list string) (events : list DataFrame) :
  read fs mp = Some (Text lines) -> mp <> "" -> mp <> path ->
  Forall (fun line => device_in_range line = true) lines ->
  write_run fs path rows_expected (Some mp) events = Ok fs' ->
  exists (count : nat) (df : DataFrame),
    monitor_table fs' path = Some df /\
    column_values "imon" df = cycle_column uint32 0 count /\
    column_values "module" df = module_column 0 count /\
    cycle_ends lines <= Z.of_nat count <= cycle_ends lines + 1.
Proof.
  intros Hr Hne Hp Hlines H. unfold write_run in H. bind_inv H.
  destruct x as [w fs1]. bind_inv H.
  pose proof (dl1_init_inv _ _ _ _ _ _ H0) as (_ & _ & _ & Hpath & _).
  apply (dl1_init_tracked _ _ _ _ _ _ _ Hr Hne Hp Hlines) in H0.
  pose proof (append_events_rows _ _ _ _ H1) as (_ & Hpath' & _).
  apply (append_events_tracked lines _ _ _ _ H0) in H1.
  apply dl1_finish_store in H.
  destruct H as (w1 & s1 & final & Hflush & Hfin & Hread & Hother & _).
  destruct H1 as (m & Hm & Ht).
  pose proof (append_to_file_rows _ _ Hflush) as (_ & _ & _ & Hm1 & _).
  pose proof (dl1_append_to_file_other _ _ "monitor" Hflush ltac:(discriminate)) as Hs.
  rewrite Hm1, Hm in Hfin. destruct Hfin as (m' & Hfin).
  apply (tracked_ext lines m _ _ Hs) in Ht.
  destruct (monitor_finish_storer _ _ _ _ _ Hfin) as (st & md & Hst & _).
  destruct (monitor_finish_columns lines _ _ _ _ _ Ht Hfin) as (n & Hn & Hcols).
  unfold stored_columns in Hcols. rewrite Hst in Hcols. injection Hcols as Hi Hmod.
  exists (n + if MonitorWriter.aeof m then 1 else 0)%nat, (table st).
  unfold monitor_table. rewrite <- Hpath, <- Hpath', Hread.
  rewrite (Hother "monitor") by discriminate. rewrite Hst.
  split; [reflexivity|]. split; [exact Hi|]. split; [exact Hmod|].
  destruct (MonitorWriter.aeof m); lia.
Qed.

End AlignmentRun.

(** ** The aligner returns *)

Section Total.
Context {P : Pandas}.
Import MonitorWriter.

Lemma is_int_not_nan (v : value) : is_int v = true -> v <> VNaN.
Proof. destruct v; intros H; [discriminate | discriminate | discriminate | discriminate H]. Qed.

(** The cast of a column of integers returns. *)
Lemma astype_uint_returns (bits : Z) (c : string) (df : DataFrame) :
  mem_string c (columns df) = true ->
  Forall (fun v => is_int v = true) (column_values c df) ->
  exists df', astype_uint bits c df = Ok df'.
Proof.
  intros Hc Hint. unfold astype_uint, loc_all. rewrite Hc. cbn [bind].
  fold (column_values c df).
  destruct (cast_cells_returns bits (column_values c df)) as [us ->].
  - eapply Forall_impl; [|exact Hint]. intros v. apply is_int_not_nan.
  - cbn [bind]. eauto.
Qed.



Lemma Forall_flat_map {A B : Type} (Q : B -> Prop) (f : A -> list B) (l : list A) :
  Forall (fun a => Forall Q (f a)) l -> Forall Q (flat_map f l).
Proof.
  induction 1 as [|a l Ha _ IH]; cbn [flat_map]; [constructor|].
  apply Forall_app. split; assumption.
Qed.

Lemma monitor_append_to_file_returns (o : Output) (s : HDFStore) :
  Forall monitor_frame (df_list o) ->
  exists o' s',
    _append_to_file o s = Ok (o', s') /\ df_list o' = [] /\ metadata o' = metadata o.
Proof.
  intros Hall. unfold _append_to_file.
  destruct (df_list o) as [|df l] eqn:E.
  - exists o, s. rewrite E. auto.
  - cbv zeta. set (d := downcast_floats (pd_concat (df :: l))).
    assert (Hc : forall c, mem_string c (columns df) = true -> mem_string c (columns d) = true).
    { intros c Hc. unfold d. destruct (downcast_floats_shape (pd_concat (df :: l))) as [-> _].
      rewrite mem_pd_concat. cbn [existsb]. now rewrite Hc. }
    assert (Hint : forall c,
               Forall (fun f => Forall (fun v => is_int v = true) (column_values c f))
                      (df :: l) ->
               Forall (fun v => is_int v = true) (column_values c d)).
    { intros c Hf. unfold d.
      assert (Hcat : Forall (fun v => is_int v = true) (column_values c (pd_concat (df :: l))))
        by (rewrite column_values_pd_concat; now apply Forall_flat_map).
      rewrite downcast_floats_int_column; assumption. }
    assert (Hi : Forall (fun v => is_int v = true) (column_values "imon" d)).
    { apply Hint. eapply Forall_impl; [|exact Hall]. intros f Hf. apply Hf. }
    assert (Hm : Forall (fun v => is_int v = true) (column_values "module" d)).
    { apply Hint. eapply Forall_impl; [|exact Hall]. intros f Hf. apply Hf. }
    apply Forall_inv in Hall. destruct Hall as (Hci & Hcm & _).
    destruct (astype_uint_returns 32 "imon" d (Hc _ Hci) Hi) as [d1 E1].
    rewrite E1. cbn [bind].
    destruct (astype_uint_returns 8 "module" d1) as [d2 E2].
    + rewrite (proj1 (astype_uint_shape _ _ _ _ E1)). now apply Hc.
    + rewrite (column_values_astype_other _ _ _ _ _ E1) by discriminate. exact Hm.
    + rewrite E2. cbn [bind]. eexists _, _. split; [reflexivity|]. split; reflexivity.
Qed.


Lemma append_monitor_event_returns (df : DataFrame) (o : Output) (s : HDFStore) :
  monitor_frame df -> Forall monitor_frame (df_list o) ->
  exists o' s',
    append_monitor_event df o s = Ok (o', s') /\
    Forall monitor_frame (df_list o') /\ metadata o' = metadata o.
Proof.
  intros Hdf Hall. unfold append_monitor_event.
  match goal with |- context [if ?c then _ else _] => destruct c end.
  - match goal with
    | |- context [_append_to_file ?o1 s] =>
        destruct (monitor_append_to_file_returns o1 s) as (o' & s' & H & Hl & Hm)
    end.
    + cbn [df_list]. apply Forall_app. split; [assumption|]. now constructor.
    + exists o', s'. rewrite H, Hl. cbn [metadata] in Hm. repeat split; auto.
  - eexists _, _. split; [reflexivity|]. cbn [df_list metadata]. split; [|reflexivity].
    apply Forall_app. split; [assumption|]. now constructor.
Qed.

Lemma monitor_frame_empty_df : monitor_frame empty_df.
Proof.
  split; [reflexivity|]. split; [reflexivity|]. split; [apply has_label_empty_df|].
  split; repeat constructor.
Qed.

Lemma monitor_frame_set_column (c : string) (v : value) (df : DataFrame) :
  monitor_frame df ->
  is_int v = true \/ (c <> "imon" /\ c <> "module") ->
  monitor_frame (set_column c v df).
Proof.
  intros (Hi & Hm & H0 & Hii & Him) Hv.
  assert (Hcol : forall c', Forall (fun u => is_int u = true) (column_values c' df) ->
                            c' = "imon" \/ c' = "module" ->
                            Forall (fun u => is_int u = true)
                                   (column_values c' (set_column c v df))).
  { intros c' Hc' Hor. destruct (String.eqb c c') eqn:E.
    - apply String.eqb_eq in E. subst c'. rewrite column_values_set_column_same.
      apply Forall_forall. intros u Hu. apply repeat_spec in Hu. subst u.
      destruct Hv as [Hv | [H1 H2]]; [exact Hv|]. destruct Hor; congruence.
    - apply String.eqb_neq in E. rewrite column_values_set_column_other by exact E.
      exact Hc'. }
  split; [now apply mem_add_column_mono|]. split; [now apply mem_add_column_mono|].
  split; [now apply has_label_set_column|]. split; apply Hcol; auto.
Qed.

Lemma monitor_frame_set_loc (i : Z) (c : string) (v : value) (df : DataFrame) :
  monitor_frame df -> In i (map fst (rows df)) -> c <> "imon" -> c <> "module" ->
  monitor_frame (set_loc i c v df).
Proof.
  intros (Hi & Hm & H0 & Hii & Him) Hin H1 H2.
  split; [now apply mem_add_column_mono|]. split; [now apply mem_add_column_mono|].
  split; [now apply has_label_set_loc|].
  unfold column_values, set_loc. cbn [rows].
  rewrite !column_values_set_label_other by assumption. split; assumption.
Qed.

Lemma monitor_frame_synthetic (i t0 d : Z) : monitor_frame (synthetic i t0 d).
Proof.
  unfold synthetic. apply monitor_frame_set_column; [|right; split; discriminate].
  apply monitor_frame_set_column; [|left; reflexivity].
  apply monitor_frame_empty_df.
Qed.

Lemma supported_is_not_imon (key : string) :
  mem_string key supported = true -> key <> "imon".
Proof. intros H ->. discriminate H. Qed.

(** A line with two fields or more, which gives no sample for a device id
    that is no module, raises nothing and keeps the frame in hand a frame
    of monitor events. *)
Lemma handle_line_returns (l : Locals) (line : string) :
  two_fields line -> device_in_range line = true ->
  monitor_frame (l_df l) -> collecting (l_df l) ->
  (exists l', (handle_line l line = LNext l' \/ handle_line l line = LReport l') /\
              monitor_frame (l_df l') /\ collecting (l_df l')) \/
  (exists df l', handle_line l line = LYield df l' /\ monitor_frame df).
Proof.
  intros Hlen Hr Hf Hc. unfold two_fields in Hlen. unfold handle_line.
  unfold device_in_range in Hr.
  destruct (String.eqb line ""); [left; eauto|].
  destruct (split_space (remove_newlines line)) as [|d0 [|d1 rest]];
    [cbn in Hlen; lia | cbn in Hlen; lia |].
  destruct (to_datetime _); [|left; eauto].
  destruct (contains marker line).
  { right. eexists _, _. split; [reflexivity|].
    apply monitor_frame_set_column; [|right; split; discriminate].
    apply monitor_frame_set_column; [exact Hf | left; reflexivity]. }
  left.
  destruct rest as [|device [|measurement [|d4 [|d5 rest]]]];
    try (cbn [l_df]; eauto; fail).
  destruct (mem_string _ supported) eqn:Hkey; [|cbn [l_df]; eauto].
  destruct (py_int d4) as [id|]; [|cbn [l_df]; eauto].
  destruct (py_float d5) as [v|]; [|cbn [l_df]; eauto].
  eexists. split; [left; reflexivity|]. cbn [l_df]. split.
  - apply monitor_frame_set_loc; [exact Hf | |
      now apply supported_is_not_imon | now apply supported_is_not_module].
    rewrite (proj1 Hc). now apply in_module_labels.
  - now apply collecting_set_loc.
Qed.

Lemma run_lines_returns (path : string) (lines : list string) :
  forall (l : Locals) (o : Output) (s : HDFStore),
  Forall two_fields lines ->
  Forall (fun line => device_in_range line = true) lines ->
  monitor_frame (l_df l) -> collecting (l_df l) ->
  Forall monitor_frame (df_list o) -> metadata o = [] ->
  exists r it o' s',
    run_lines path lines l o s = Ok (r, it, o', s') /\
    Forall monitor_frame (df_list o') /\
    Forall two_fields (pending [] it) /\
    Forall (fun line => device_in_range line = true) (pending [] it) /\
    match r with
    | Some df =>
        monitor_frame df /\ metadata o' = [] /\
        exists rest l', it = Suspended path rest l'
    | None => it = Finished
    end.
Proof.
  induction lines as [|line lines IH]; intros l o s Hl Hr Hf Hc Ho Hm; cbn [run_lines].
  - unfold add_metadata, dict_merge. rewrite Hm. cbn [existsb bind app].
    eexists None, _, _, _. split; [reflexivity|]. cbn [df_list pending]. auto.
  - apply Forall_cons_iff in Hl. destruct Hl as [Hline Hl].
    apply Forall_cons_iff in Hr. destruct Hr as [Hrange Hr].
    destruct (handle_line_returns l line Hline Hrange Hf Hc)
      as [(l' & [E|E] & Hf' & Hc') | (df & l' & E & Hdf)]; rewrite E.
    + now apply IH.
    + apply IH; auto.
    + destruct (append_monitor_event_returns df o s Hdf Ho) as (o' & s' & Ha & Hall & Hmeta).
      rewrite Ha. cbn [bind].
      eexists (Some df), _, _, _. split; [reflexivity|].
      split; [assumption|]. split; [exact Hl|]. split; [exact Hr|]. split; [assumption|].
      split; [congruence|eauto].
Qed.

Lemma next_returns (fs : FileSystem) (it : generator) (o : Output) (s : HDFStore) :
  Forall two_fields (pending fs it) ->
  Forall (fun line => device_in_range line = true) (pending fs it) ->
  Forall monitor_frame (df_list o) ->
  (it = Finished \/ exists path rest l, it = Suspended path rest l /\ metadata o = []) ->
  exists r it' o' s',
    next fs it o s = Ok (r, it', o', s') /\
    Forall monitor_frame (df_list o') /\
    Forall two_fields (pending fs it') /\
    Forall (fun line => device_in_range line = true) (pending fs it') /\
    match r with
    | Some df =>
        monitor_frame df /\ metadata o' = [] /\
        exists path rest l', it' = Suspended path rest l'
    | None => it' = Finished
    end.
Proof.
  intros Hl Hr Ho [-> | (path & rest & l & -> & Hm)].
  - eexists None, _, _, _. cbn [next pending]. split; [reflexivity|]. auto.
  - cbn [pending next] in *.
    destruct (run_lines_returns path rest (resume l) o s Hl Hr monitor_frame_empty_df
                collecting_empty_df Ho Hm)
      as (r & it' & o' & s' & H & Hall & Hp & Hp' & Hres).
    exists r, it', o', s'. split; [assumption|]. split; [assumption|].
    destruct r as [df|].
    + destruct Hres as (Hdf & Hmeta & rest' & l' & ->). cbn [pending] in *.
      split; [assumption|]. split; [assumption|]. split; [assumption|].
      split; [assumption|eauto].
    + subst it'. cbn [pending]. auto.
Qed.

Lemma advance_returns (fuel : nat) (fs : FileSystem) (td : Z) :
  forall (tn : Z) (w : t) (s : HDFStore),
  ready fs w -> (lines_left fs (monitor_it w) < fuel)%nat ->
  exists tn' w' s', advance fuel fs td tn w s = Ok (tn', w', s') /\ ready fs w'.
Proof.
  induction fuel as [|fuel IH]; intros tn w s Hr Hlt; [lia|].
  rewrite advance_unfold.
  destruct ((tn <? td) && negb (eof w)); [|eauto].
  cbv zeta.
  destruct Hr as (Hcur & (b & tb & Hb & Htb) & Hnf & Hall & Hpend & Hrange & Hgen).
  destruct (next_returns fs (monitor_it w) (out w) s Hpend Hrange Hall Hgen)
    as (r & it' & o' & s' & Hn & Hall' & Hpend' & Hrange' & Hres).
  rewrite Hn. cbn [bind]. destruct r as [df|].
  - destruct Hres as (Hdf & Hmeta & path & rest & l' & Hit).
    destruct (next_yield _ _ _ _ _ _ _ _ Hn) as (Hi & (t1 & Ht1) & _ & Hless).
    rewrite Ht1. cbn [bind]. apply IH; [|cbn [monitor_it]; lia].
    unfold ready. cbn [monitor_ev next_monitor_ev out monitor_it].
    split; [eauto|]. split; [eauto|]. split; [assumption|]. split; [assumption|].
    split; [assumption|]. split; [assumption|]. right. exists path, rest, l'. auto.
  - rewrite Hb, Htb. cbn [bind]. rewrite t_cpu_of_synthetic. cbn [bind].
    rewrite advance_eof by reflexivity.
    eexists _, _, _. split; [reflexivity|].
    unfold ready. cbn [monitor_ev next_monitor_ev out monitor_it]. subst it'.
    cbn [pending].
    split; [eauto|]. split; [rewrite imon_of_synthetic, t_cpu_of_synthetic; eauto|].
    split; [apply monitor_frame_synthetic|]. auto.
Qed.

Lemma ready_update_delta (fs : FileSystem) (w : t) (d : Z) :
  ready fs w -> ready fs (update_delta w d).
Proof. unfold update_delta. destruct (t_delta_max w <? d); auto. Qed.

Lemma emit_tail_returns (fs : FileSystem) (td tn : Z) (w : t) (s : HDFStore) :
  ready fs w ->
  exists w' s', emit_tail td tn w s = Ok (w', s') /\ ready fs w'.
Proof.
  intros Hr. unfold emit_tail.
  destruct (eof w && (tn <? td) && negb (aeof w)); [|eauto].
  destruct Hr as (Hcur & Hnext & Hnf & Hall & Hpend & Hrange & Hgen).
  destruct (append_monitor_event_returns (next_monitor_ev w) (out w) s Hnf Hall)
    as (o' & s' & Ha & Hall' & Hmeta).
  cbv zeta. rewrite Ha. cbn [bind].
  eexists _, _. split; [reflexivity|].
  unfold ready. cbn [monitor_ev next_monitor_ev out monitor_it].
  split; [assumption|]. split; [assumption|]. split; [assumption|].
  split; [assumption|]. split; [assumption|]. split; [assumption|].
  destruct Hgen as [Hf | (path & rest & l & Hit & Hm)]; [now left|].
  right. exists path, rest, l. split; [assumption|congruence].
Qed.

Lemma stamp_returns (fs : FileSystem) (w : t) (ev : DataFrame) :
  ready fs w -> data_event ev -> exists ev', stamp w ev = Ok ev'.
Proof.
  intros ((a & ta & Ha & _) & _) (_ & Hpx & Hall). unfold stamp.
  rewrite Ha. cbn [bind]. unfold loc_all. rewrite Hpx. cbn [bind].
  destruct (map_result_monitor_index a _ Hall) as [index Hi].
  unfold column_values in Hi. rewrite Hi. cbn [bind]. eauto.
Qed.

(** On a monitor file whose lines have two fields or more and give no
    sample for a device id that is no module, a call for a data event
    with a timestamp and pixels returns. *)
Lemma match_returns (fs : FileSystem) (w : t) (s : HDFStore) (ev : DataFrame) :
  ready fs w -> data_event ev ->
  exists w' s' ev', match_to_data_events fs w s ev = Ok (w', s', ev') /\ ready fs w'.
Proof.
  intros Hr Hev. unfold match_to_data_events.
  destruct Hev as ((td & Htd) & Hpx). rewrite Htd. cbn [bind].
  pose proof Hr as (_ & (b & tb & _ & Htb) & _). rewrite Htb. cbn [bind]. cbv zeta.
  destruct (advance_returns (S (lines_left fs (monitor_it (update_delta w (tb - td)))))
              fs td tb (update_delta w (tb - td)) s)
    as (tn' & w1 & s1 & Hadv & Hr1); [now apply ready_update_delta | lia |].
  rewrite Hadv. cbn [bind].
  destruct (emit_tail_returns fs td tn' w1 s1 Hr1) as (w2 & s2 & Htail & Hr2).
  rewrite Htail. cbn [bind].
  destruct (stamp_returns fs w2 ev Hr2) as (ev' & Hst).
  { split; [eauto | exact Hpx]. }
  rewrite Hst. cbn [bind]. eauto.
Qed.

Lemma init_ready (fs : FileSystem) (path : string) (lines : list string)
                 (store s : HDFStore) (w : t) :
  read fs path = Some (Text lines) ->
  Forall two_fields lines ->
  Forall (fun line => device_in_range line = true) lines ->
  init fs path store = Ok (w, s) ->
  ready fs w.
Proof.
  intros Hread Hl Hrange H. unfold init, discard in H. cbn [next] in H.
  unfold open_lines in H. rewrite Hread in H. cbn [bind] in H.
  match type of H with
  | context [run_lines path lines initial_locals ?o store] =>
      destruct (run_lines_returns path lines initial_locals o store Hl Hrange
                  monitor_frame_empty_df collecting_empty_df (Forall_nil _) eq_refl)
        as (r & it & o' & s' & Hrun & Hall & Hpend & Hpend' & Hres);
      pose proof (run_lines_yield path lines initial_locals o) as Hy
  end.
  rewrite Hrun in H. cbn [bind] in H. destruct r as [df|]; [|discriminate].
  inversion H; subst; clear H.
  destruct Hres as (Hdf & Hmeta & rest & l' & ->).
  destruct (Hy _ _ _ _ _ has_label_empty_df Hrun)
    as (_ & _ & _ & _ & t0 & _ & _ & _ & _ & _ & Hi & Ht & _).
  unfold ready. cbn [monitor_ev next_monitor_ev out monitor_it pending] in *.
  split; [eauto|]. split; [eauto|]. split; [assumption|]. split; [assumption|].
  split; [assumption|]. split; [assumption|]. right. eauto.
Qed.

Lemma calls_returns (fs : FileSystem) (events : list DataFrame) :
  forall (w : t) (s : HDFStore),
  ready fs w -> Forall data_event events ->
  exists cs, calls fs w s events = Ok cs.
Proof.
  induction events as [|ev events IH]; intros w s Hr Hev; cbn [calls]; [eauto|].
  apply Forall_cons_iff in Hev. destruct Hev as [Hev Hevs].
  destruct (match_returns fs w s ev Hr Hev) as (w' & s' & ev' & Hm & Hr').
  rewrite Hm. cbn [bind].
  destruct (IH w' s' Hr' Hevs) as [cs ->]. cbn [bind]. eauto.
Qed.

(** The aligner returns: a writer built on a monitor file whose lines have
    two fields or more, and give no sample for a device id outside 0 to
    31, returns from every call made for data events that have a
    timestamp and pixels. *)
Lemma aligner_returns (fs : FileSystem) (path : string) (lines : list string)
                      (store s0 : HDFStore) (w0 : t) (events : list DataFrame) :
  read fs path = Some (Text lines) ->
  Forall two_fields lines ->
  Forall (fun line => device_in_range line = true) lines ->
  init fs path store = Ok (w0, s0) ->
  Forall data_event events ->
  exists cs, calls fs w0 s0 events = Ok cs.
Proof.
  intros Hread Hl Hrange Hinit Hev.
  eapply calls_returns; [|exact Hev].
  eapply init_ready; eauto.
Qed.

End Total.

(** ** What [__init__] of the monitor writer raises *)

Section FirstCycle.
Context {P : Pandas}.
Import MonitorWriter.





End FirstCycle.

(** ** The DL1 writer returns *)

Section TotalWriter.
Context {P : Pandas}.
Import DL1Writer.

(** A run without a monitor writer returns when it is given an event or
    more, none of which brings the buffer to the size at which it is
    written, and the frame of them all can be cast and sorted. *)
Lemma write_run_returns (fs : FileSystem) (path : string) (rows_expected : Z)
                        (events : list DataFrame) (df : DataFrame) :
  events <> [] -> stays_below 0 events = true -> prepare events = Ok df ->
  exists fs', write_run fs path rows_expected None events = Ok fs'.
Proof.
  intros Hne Hbelow Hprep. unfold write_run, init. rewrite removed_if_exists.
  unfold HDFStore_open. rewrite read_remove_same. cbn [bind].
  match goal with
  | |- context [append_events ?f ?w0 events] =>
      destruct (append_events_buffered f events w0 eq_refl Hbelow) as [n ->]
  end.
  cbn [bind dl1_path totalrows metadata n_bytes df_list store app].
  unfold finish, _append_to_file. cbn [df_list].
  destruct events as [|ev events]; [contradiction|].
  rewrite Hprep. cbn [bind monitor]. cbv zeta.
  unfold add_metadata, _save_metadata, dict_merge.
  cbn [dl1_path totalrows metadata n_bytes df_list df_list_n_bytes monitor store
       existsb meta_get fst app orb bind].
  unfold save_metadata. cbn [store_append get_storer]. rewrite String.eqb_refl.
  cbn [bind]. eauto.
Qed.

End TotalWriter.

(** * The properties on the examples *)

Import Examples.
#[local] Existing Instance pandas.

Lemma init_w0 : MonitorWriter.init disk "monitor.txt" [] = Ok (w0, []).
Proof. vm_compute. reflexivity. Qed.

Lemma match_35_eq :
  MonitorWriter.match_to_data_events disk w0 [] (event 0 (seconds 35)) = Ok match_35.
Proof. vm_compute. reflexivity. Qed.

Lemma calls_5_15_35_eq : MonitorWriter.calls disk w0 [] events_5_15_35 = Ok calls_5_15_35.
Proof. vm_compute. reflexivity. Qed.

Lemma calls_35_eq : MonitorWriter.calls disk w0 [] events_35 = Ok calls_35.
Proof. vm_compute. reflexivity. Qed.

Lemma calls_m10_25_35_eq :
  MonitorWriter.calls disk w0 [] events_m10_25_35 = Ok calls_m10_25_35.
Proof. vm_compute. reflexivity. Qed.

Lemma calls_5_8_35_eq : MonitorWriter.calls disk w0 [] events_5_8_35 = Ok calls_5_8_35.
Proof. vm_compute. reflexivity. Qed.

(** The theorem at work: the monitor file of the examples and data events
    at 5 s, 15 s and 35 s. *)
Lemma watermark_never_regresses_witness :
  MonitorWriter.init disk "monitor.txt" [] = Ok (w0, []) /\
  MonitorWriter.calls disk w0 [] events_5_15_35 = Ok calls_5_15_35 /\
  map (fun c => MonitorWriter.imon_of (MonitorWriter.monitor_ev (MonitorWriter.after c)))
      calls_5_15_35 = map Ok [0; 1; 3] /\
  exists imons,
    map (fun c => MonitorWriter.imon_of (MonitorWriter.monitor_ev (MonitorWriter.after c)))
        calls_5_15_35 = map Ok imons /\
    StronglySorted Z.le imons /\
    Forall (fun c => exists imon,
              MonitorWriter.imon_of (MonitorWriter.monitor_ev (MonitorWriter.after c)) = Ok imon /\
              MonitorWriter.map_result (MonitorWriter.monitor_index imon)
                (column_values "pixel" (MonitorWriter.data_ev c))
              = Ok (column_values "monitor_index" (MonitorWriter.stamped c))) calls_5_15_35.
Proof.
  split; [exact init_w0|].
  split; [exact calls_5_15_35_eq|].
  split; [vm_compute; reflexivity|].
  apply (watermark_never_regresses disk "monitor.txt" [] w0 [] events_5_15_35
           [seconds 5; seconds 15; seconds 35]).
  - exact init_w0.
  - vm_compute. reflexivity.
  - repeat constructor; vm_compute; reflexivity.
  - exact calls_5_15_35_eq.
Defined.

(** C2 as it was stated fails.  With monitor events at 0 s, 10 s and 20 s
    and a data event at 35 s, [t_delta_max] is 0, the one synthetic event
    has cycle index 3 and timestamp 20 s, it becomes the current event and
    the records are given its index; no event at 30 s or 40 s exists. *)
Lemma extrapolation_35_counterexample :
  let w := fst (fst match_35) in
  MonitorWriter.init disk "monitor.txt" [] = Ok (w0, []) /\
  MonitorWriter.match_to_data_events disk w0 [] (event 0 (seconds 35)) = Ok match_35 /\
  map MonitorWriter.t_cpu_of (MonitorWriter.df_list (MonitorWriter.out w))
  = map Ok [0; seconds 10; seconds 20; seconds 20] /\
  MonitorWriter.imon_of (MonitorWriter.monitor_ev w) = Ok 3 /\
  MonitorWriter.t_cpu_of (MonitorWriter.monitor_ev w) = Ok (seconds 20) /\
  MonitorWriter.t_cpu_of (MonitorWriter.next_monitor_ev w) = Ok (seconds 20) /\
  column_values "monitor_index" (snd match_35) = [VInt 96; VInt 97] /\
  ~ (MonitorWriter.t_cpu_of (MonitorWriter.monitor_ev w) = Ok (seconds 30) /\
     MonitorWriter.t_cpu_of (MonitorWriter.next_monitor_ev w) = Ok (seconds 40)).
Proof.
  cbv zeta.
  split; [exact init_w0|].
  split; [exact match_35_eq|].
  split; [vm_compute; reflexivity|].
  split; [vm_compute; reflexivity|].
  split; [vm_compute; reflexivity|].
  split; [vm_compute; reflexivity|].
  split; [vm_compute; reflexivity|].
  intros [H _]. vm_compute in H. discriminate.
Qed.

(** The same monitor file when [t_delta_max] has grown to 10 s, by a data
    event 10 s before the first monitor event: the data event at 25 s meets
    the end of the file and makes the synthetic event at 30 s; the data
    event at 35 s makes it the current event, and the lookahead event
    stays at 30 s. *)
Lemma extrapolation_35_after_exhaustion :
  MonitorWriter.calls disk w0 [] events_m10_25_35 = Ok calls_m10_25_35 /\
  map (fun c => MonitorWriter.t_delta_max (MonitorWriter.after c)) calls_m10_25_35
  = [seconds 10; seconds 10; seconds 10] /\
  map (fun c => MonitorWriter.imon_of (MonitorWriter.monitor_ev (MonitorWriter.after c)))
      calls_m10_25_35 = map Ok [0; 2; 3] /\
  map (fun c => MonitorWriter.t_cpu_of (MonitorWriter.monitor_ev (MonitorWriter.after c)))
      calls_m10_25_35 = map Ok [0; seconds 20; seconds 30] /\
  map (fun c => MonitorWriter.t_cpu_of (MonitorWriter.next_monitor_ev (MonitorWriter.after c)))
      calls_m10_25_35 = map Ok [0; seconds 30; seconds 30].
Proof.
  split; [exact calls_m10_25_35_eq|].
  repeat split; vm_compute; reflexivity.
Qed.

(** The theorem at the data event at 35 s: the call reads the two events
    the generator had still to yield, the last one being that of the cycle
    2 at 20 s; [t_delta_max] is 0, so the synthetic event has cycle index 3
    and timestamp 20 s, the data event is later, and the synthetic event
    is the current event. *)
Lemma exhaustion_synthesizes_one_lookahead_witness :
  let w := fst (fst match_35) in
  MonitorWriter.match_to_data_events disk w0 [] (event 0 (seconds 35)) = Ok match_35 /\
  MonitorWriter.eof w0 = false /\ MonitorWriter.eof w = true /\
  MonitorWriter.t_delta_max w = 0 /\
  MonitorWriter.next_monitor_ev w = MonitorWriter.synthetic 2 (seconds 20) 0 /\
  MonitorWriter.monitor_ev w = MonitorWriter.next_monitor_ev w /\
  MonitorWriter.imon_of (MonitorWriter.monitor_ev w) = Ok 3 /\
  exists td,
    MonitorWriter.t_cpu_of (event 0 (seconds 35)) = Ok td /\
    (MonitorWriter.eof w0 = true ->
     MonitorWriter.eof w = true /\
     MonitorWriter.next_monitor_ev w = MonitorWriter.next_monitor_ev w0 /\
     exists tn,
       MonitorWriter.t_cpu_of (MonitorWriter.next_monitor_ev w0) = Ok tn /\
       if (tn <? td) && negb (MonitorWriter.aeof w0)
       then MonitorWriter.monitor_ev w = MonitorWriter.next_monitor_ev w0 /\
            MonitorWriter.aeof w = true /\
            MonitorWriter.append_monitor_event (MonitorWriter.next_monitor_ev w0)
              (MonitorWriter.out w0) []
            = Ok (MonitorWriter.out w, snd (fst match_35))
       else MonitorWriter.monitor_ev w = MonitorWriter.monitor_ev w0 /\
            MonitorWriter.aeof w = MonitorWriter.aeof w0 /\
            MonitorWriter.out w = MonitorWriter.out w0 /\ snd (fst match_35) = []) /\
    (MonitorWriter.eof w0 = false -> MonitorWriter.eof w = true ->
     exists evs last_ev i t0,
       remaining (S (MonitorWriter.lines_left disk (MonitorWriter.monitor_it w0))) disk
         (MonitorWriter.monitor_it w0) (MonitorWriter.out w0) [] = Ok evs /\
       last_ev = last evs (MonitorWriter.next_monitor_ev w0) /\
       MonitorWriter.imon_of last_ev = Ok i /\ MonitorWriter.t_cpu_of last_ev = Ok t0 /\
       MonitorWriter.next_monitor_ev w
       = MonitorWriter.synthetic i t0 (MonitorWriter.t_delta_max w) /\
       if (t0 + MonitorWriter.t_delta_max w <? td) && negb (MonitorWriter.aeof w0)
       then MonitorWriter.monitor_ev w = MonitorWriter.next_monitor_ev w /\
            MonitorWriter.aeof w = true
       else MonitorWriter.monitor_ev w = last_ev /\
            MonitorWriter.aeof w = MonitorWriter.aeof w0) /\
    (exists imon,
       MonitorWriter.imon_of (MonitorWriter.monitor_ev w) = Ok imon /\
       MonitorWriter.map_result (MonitorWriter.monitor_index imon)
         (column_values "pixel" (event 0 (seconds 35)))
       = Ok (column_values "monitor_index" (snd match_35))).
Proof.
  cbv zeta.
  split; [exact match_35_eq|].
  split; [vm_compute; reflexivity|].
  split; [vm_compute; reflexivity|].
  split; [vm_compute; reflexivity|].
  split; [vm_compute; reflexivity|].
  split; [vm_compute; reflexivity|].
  split; [vm_compute; reflexivity|].
  exact (exhaustion_synthesizes_one_lookahead disk w0 (fst (fst match_35)) []
           (snd (fst match_35)) (event 0 (seconds 35)) (snd match_35) match_35_eq).
Defined.

(** C3 as it was stated fails.  After the data event at 35 s the three
    monitor events, 10 s apart, have all been read, and [t_delta_max] is
    0. *)
Lemma t_delta_max_counterexample :
  MonitorWriter.init disk "monitor.txt" [] = Ok (w0, []) /\
  MonitorWriter.calls disk w0 [] events_35 = Ok calls_35 /\
  map MonitorWriter.t_cpu_of (real_cycles (final w0 calls_35))
  = map Ok [0; seconds 10; seconds 20] /\
  max_consecutive_gap [0; seconds 10; seconds 20] = seconds 10 /\
  MonitorWriter.t_delta_max (final w0 calls_35) = 0 /\
  MonitorWriter.t_delta_max (final w0 calls_35)
  <> max_consecutive_gap [0; seconds 10; seconds 20].
Proof.
  split; [exact init_w0|].
  split; [exact calls_35_eq|].
  split; [vm_compute; reflexivity|].
  split; [vm_compute; reflexivity|].
  split; [vm_compute; reflexivity|].
  vm_compute. discriminate.
Qed.

(** The theorem at data events at 5 s, 8 s and 35 s: the lookahead event
    is at 0 s, 10 s and 10 s when the calls begin, and [t_delta_max] ends
    at 2 s. *)
Lemma t_delta_max_is_largest_lookahead_delta_witness :
  MonitorWriter.init disk "monitor.txt" [] = Ok (w0, []) /\
  MonitorWriter.calls disk w0 [] events_5_8_35 = Ok calls_5_8_35 /\
  MonitorWriter.t_delta_max (final w0 calls_5_8_35) = seconds 2 /\
  map lookahead_delta calls_5_8_35 = map Ok [seconds (-5); seconds 2; seconds (-25)] /\
  exists deltas,
    map lookahead_delta calls_5_8_35 = map Ok deltas /\
    MonitorWriter.t_delta_max (final w0 calls_5_8_35) = fold_left Z.max deltas 0.
Proof.
  split; [exact init_w0|].
  split; [exact calls_5_8_35_eq|].
  split; [vm_compute; reflexivity|].
  split; [vm_compute; reflexivity|].
  exact (t_delta_max_is_largest_lookahead_delta disk "monitor.txt" [] w0 []
           events_5_8_35 calls_5_8_35 init_w0 calls_5_8_35_eq).
Defined.

Lemma monitor_timestamp_is_line_time_less_one_hour_witness :
  exists df it o s,
    MonitorWriter.next disk (MonitorWriter.Created "monitor.txt")
      (MonitorWriter.out no_writer) [] = Ok (Some df, it, o, s) /\
    line_time (nl "1970-01-01 01:00:00:000000 Monitoring Event Done") = Some (seconds 3600) /\
    MonitorWriter.t_cpu_of df = Ok 0 /\
    (exists skipped line rest t0,
       pending disk (MonitorWriter.Created "monitor.txt") = skipped ++ line :: rest /\
       pending disk it = rest /\
       contains MonitorWriter.marker line = true /\ line_time line = Some t0 /\
       MonitorWriter.t_cpu_of df = Ok (t0 - MonitorWriter.hour) /\
       Forall (fun ir => get_cell "t_cpu" (snd ir) = VTime (t0 - MonitorWriter.hour))
              (rows df)) /\
    (forall (l : MonitorWriter.Locals) (line : string) (t0 : Z),
       line <> "" -> line_time line = Some t0 ->
       exists l', locals_after (MonitorWriter.handle_line l line) = Some l' /\
                  MonitorWriter.l_t_cpu l' = Some (t0 - MonitorWriter.hour)).
Proof.
  destruct (MonitorWriter.next disk (MonitorWriter.Created "monitor.txt")
              (MonitorWriter.out no_writer) [])
    as [[[[[df|] it] o] s]|e] eqn:E;
    [|vm_compute in E; discriminate|vm_compute in E; discriminate].
  exists df, it, o, s.
  split; [reflexivity|].
  split; [vm_compute; reflexivity|].
  split; [vm_compute in E; inversion E; vm_compute; reflexivity|].
  exact (monitor_timestamp_is_line_time_less_one_hour disk _ it _ o [] s df E).
Defined.

Lemma missing_monitor_file_raises_witness :
  read disk "absent.txt" = None /\
  MonitorWriter.init disk "absent.txt" [] = Raise FileNotFoundError /\
  DL1Writer.init disk "run_dl1.h5" 2 (Some "absent.txt") = Raise FileNotFoundError /\
  is_IOError FileNotFoundError = true.
Proof.
  split; [reflexivity|].
  apply (missing_monitor_file_raises disk "absent.txt" "run_dl1.h5" 2 []).
  - reflexivity.
  - discriminate.
  - discriminate.
Defined.

(** C5 fails on the code.  For an event that comes with none of the
    default columns, the frame that [_append_to_file] writes has a column
    [trbaseline_start_mean], and neither [tr] nor [baseline_start_mean]:
    the two names are one string in [default_c]. *)
Theorem flush_fills_neither_tr_nor_baseline_start_mean :
  DL1Writer.default_c <>
    ["t_event"; "t_pulse"; "amp_pulse"; "charge"; "fwhm"; "tr"; "baseline_start_mean";
     "baseline_start_rms"; "baseline_end_mean"; "baseline_end_rms"; "baseline_subtracted";
     "waveform_mean"; "waveform_rms"; "saturation_coeff"] /\
  exists df,
    DL1Writer.prepare [event 0 (seconds 5)] = Ok df /\
    columns df = written_columns /\
    mem_string "tr" (columns df) = false /\
    mem_string "baseline_start_mean" (columns df) = false /\
    mem_string "trbaseline_start_mean" (columns df) = true /\
    option_map columns (data_table run_plain "run_dl1.h5") = Some written_columns.
Proof.
  split; [vm_compute; discriminate|].
  destruct (DL1Writer.prepare [event 0 (seconds 5)]) as [df|e] eqn:E;
    [|vm_compute in E; discriminate].
  exists df. split; [reflexivity|].
  assert (Hc : columns df = written_columns)
    by (vm_compute in E; inversion E; reflexivity).
  rewrite Hc. repeat split; vm_compute; reflexivity.
Qed.

Lemma write_run_one_by_one :
  DL1Writer.write_run disk_modules "run_dl1.h5" 4 (Some "monitor.txt") one_by_one
  = Ok run_one_by_one.
Proof. vm_compute. reflexivity. Qed.

Lemma write_run_as_one :
  DL1Writer.write_run disk_modules "run_dl1.h5" 4 (Some "monitor.txt") as_one = Ok run_as_one.
Proof. vm_compute. reflexivity. Qed.

Lemma monitor_log_modules_in_range :
  Forall (fun line => device_in_range line = true) monitor_log_modules.
Proof.
  unfold monitor_log_modules.
  repeat (apply Forall_cons; [vm_compute; reflexivity|]). apply Forall_nil.
Qed.

Lemma write_run_plain :
  DL1Writer.write_run disk "run_dl1.h5" 4 None one_by_one = Ok run_plain.
Proof. vm_compute. reflexivity. Qed.

Lemma same_records : pd_concat one_by_one = pd_concat as_one.
Proof. vm_compute. reflexivity. Qed.

(** C7 as it was stated fails.  With a monitor writer, on a monitor file
    whose samples are all of modules, the event at 5 s and the event at
    15 s appended one by one are matched to the monitor events 0 and 1;
    appended as one frame, all their records are matched by the timestamp
    of the first, to the monitor event 0.  Both runs return, and the
    tables written differ in the column [monitor_index]. *)
Lemma chunking_counterexample :
  pd_concat one_by_one = pd_concat as_one /\
  Forall (fun line => device_in_range line = true) monitor_log_modules /\
  DL1Writer.write_run disk_modules "run_dl1.h5" 4 (Some "monitor.txt") one_by_one
  = Ok run_one_by_one /\
  DL1Writer.write_run disk_modules "run_dl1.h5" 4 (Some "monitor.txt") as_one
  = Ok run_as_one /\
  option_map (column_values "monitor_index") (data_table run_one_by_one "run_dl1.h5")
  = Some [VInt 0; VInt 1; VInt 32; VInt 33] /\
  option_map (column_values "monitor_index") (data_table run_as_one "run_dl1.h5")
  = Some [VInt 0; VInt 1; VInt 0; VInt 1] /\
  data_table run_one_by_one "run_dl1.h5" <> data_table run_as_one "run_dl1.h5".
Proof.
  split; [exact same_records|].
  split; [exact monitor_log_modules_in_range|].
  split; [exact write_run_one_by_one|].
  split; [exact write_run_as_one|].
  split; [vm_compute; reflexivity|].
  split; [vm_compute; reflexivity|].
  vm_compute. discriminate.
Qed.

(** Without a monitor writer the buffer matters in the same way once it
    is written before the run ends: with records of 0.3 GB, each event of
    two records is written, sorted, when it is appended, so the event
    appended first, though later in [iev], comes first in the table; as
    one frame the two events are sorted together. *)
Lemma chunking_flush_boundary_example :
  @DL1Writer.write_run pandas_large [] "run_dl1.h5" 4 None late_first = Ok large_one_by_one /\
  @DL1Writer.write_run pandas_large [] "run_dl1.h5" 4 None [pd_concat late_first]
  = Ok large_as_one /\
  @stays_below pandas_large 0 late_first = false /\
  option_map (column_values "iev") (data_table large_one_by_one "run_dl1.h5")
  = Some [VInt 1; VInt 1; VInt 0; VInt 0] /\
  option_map (column_values "iev") (data_table large_as_one "run_dl1.h5")
  = Some [VInt 0; VInt 0; VInt 1; VInt 1].
Proof.
  repeat split; vm_compute; reflexivity.
Qed.

Lemma chunking_without_early_flush_witness :
  pd_concat one_by_one = pd_concat as_one /\
  stays_below 0 one_by_one = true /\ stays_below 0 as_one = true /\
  DL1Writer.write_run disk "run_dl1.h5" 4 None one_by_one = Ok run_plain /\
  DL1Writer.write_run disk "run_dl1.h5" 4 None one_by_one
  = DL1Writer.write_run disk "run_dl1.h5" 4 None as_one.
Proof.
  split; [exact same_records|].
  split; [vm_compute; reflexivity|].
  split; [vm_compute; reflexivity|].
  split; [exact write_run_plain|].
  apply (chunking_without_early_flush disk "run_dl1.h5" 4 one_by_one as_one).
  - exact same_records.
  - discriminate.
  - discriminate.
  - vm_compute. reflexivity.
  - vm_compute. reflexivity.
Defined.

Lemma reader_plain_init : DL1Reader.init run_plain "run_dl1.h5" = Ok (reader_plain, None).
Proof. vm_compute. reflexivity. Qed.

Lemma load_entire_table_guard_witness :
  HDFStoreReader.n_bytes reader_plain = Ok (MInt 704) /\
  HDFStoreReader.n_rows reader_plain = Ok 4 /\
  (HDFStoreReader.load_entire_table reader_plain false = Raise MemoryError
   <-> 8000000000 < 704) /\
  (forall force : bool,
     704 <= 8000000000 \/ force = true ->
     exists df, HDFStoreReader.load_entire_table reader_plain force = Ok df /\
                HDFStoreReader.getitem reader_plain = Ok df /\
                HDFStoreReader.n_rows reader_plain = Ok (nrows df)) /\
  (forall (fs fs' : FileSystem) (path : string) (totalrows : Z)
          (monitor_path : option string) (events : list DataFrame)
          (m : option HDFStoreReader.t),
     DL1Writer.write_run fs path totalrows monitor_path events = Ok fs' ->
     DL1Reader.init fs' path = Ok (reader_plain, m) ->
     HDFStoreReader.n_rows reader_plain = Ok (total_rows events)).
Proof.
  split; [vm_compute; reflexivity|].
  split; [vm_compute; reflexivity|].
  apply (load_entire_table_guard reader_plain 704).
  vm_compute. reflexivity.
Defined.

(** A table that records 9 GB is refused without [force] and returned
    with it; the file of the run of the examples is read back with the
    four rows that were appended. *)
Lemma load_entire_table_examples :
  HDFStoreReader.load_entire_table reader_9GB false = Raise MemoryError /\
  HDFStoreReader.load_entire_table reader_9GB true = Ok (event 0 0) /\
  DL1Writer.write_run disk "run_dl1.h5" 4 None one_by_one = Ok run_plain /\
  DL1Reader.init run_plain "run_dl1.h5" = Ok (reader_plain, None) /\
  total_rows one_by_one = 4 /\
  option_map nrows (data_table run_plain "run_dl1.h5") = Some 4 /\
  (exists df, HDFStoreReader.load_entire_table reader_plain false = Ok df /\ nrows df = 4).
Proof.
  split; [vm_compute; reflexivity|].
  split; [vm_compute; reflexivity|].
  split; [exact write_run_plain|].
  split; [exact reader_plain_init|].
  split; [vm_compute; reflexivity|].
  split; [vm_compute; reflexivity|].
  eexists. split; vm_compute; reflexivity.
Qed.

(** * The further properties on the examples *)

Lemma match_5_eq :
  MonitorWriter.match_to_data_events disk w0 [] (event 0 (seconds 5)) = Ok match_5.
Proof. vm_compute. reflexivity. Qed.

Lemma match_45_eq :
  MonitorWriter.match_to_data_events disk (fst (fst match_35)) (snd (fst match_35))
    (event 1 (seconds 45)) = Ok match_45.
Proof. vm_compute. reflexivity. Qed.

Lemma two_fields_monitor_log : Forall two_fields monitor_log.
Proof.
  unfold monitor_log.
  repeat (apply Forall_cons; [unfold two_fields; vm_compute; lia|]).
  apply Forall_nil.
Qed.

Lemma plain_writer_init :
  DL1Writer.init disk "run_dl1.h5" 4 None = Ok (plain_writer, plain_disk).
Proof. vm_compute. reflexivity. Qed.

Lemma plain_writer_1_eq :
  DL1Writer.append_event plain_disk plain_writer (event 0 (seconds 5)) = Ok plain_writer_1.
Proof. vm_compute. reflexivity. Qed.

Lemma file_with_pixels_eq : DL1Writer.finish plain_disk writer_with_pixels = Ok file_with_pixels.
Proof. vm_compute. reflexivity. Qed.

Lemma reader_with_pixels_init :
  DL1Reader.init file_with_pixels "run_dl1.h5" = Ok (reader_with_pixels, None).
Proof. vm_compute. reflexivity. Qed.

Lemma reader_one_by_one_init :
  DL1Reader.init run_one_by_one "run_dl1.h5" = Ok reader_one_by_one.
Proof. vm_compute. reflexivity. Qed.

Lemma chunks_by_3_eq :
  HDFStoreReader.iterate_over_chunks reader_plain (Some 3) = Ok chunks_by_3.
Proof. vm_compute. reflexivity. Qed.

Lemma rows_of_plain_eq : HDFStoreReader.iterate_over_rows reader_plain = Ok rows_of_plain.
Proof. vm_compute. reflexivity. Qed.

Lemma prepared_late_eq : DL1Writer.prepare late_first = Ok prepared_late.
Proof. vm_compute. reflexivity. Qed.

(** The run of the examples with the monitor file: three cycles, the
    first at 01:00:00 and the last line at 01:00:20. *)
Lemma monitor_metadata_of_run_witness :
  read disk_modules "monitor.txt" = Some (Text monitor_log_modules) /\
  DL1Writer.write_run disk_modules "run_dl1.h5" 4 (Some "monitor.txt") one_by_one
  = Ok run_one_by_one /\
  cycle_ends monitor_log_modules = 3 /\
  end_after None monitor_log_modules = Some (seconds 20) /\
  exists r m md t0,
    DL1Reader.init run_one_by_one "run_dl1.h5" = Ok (r, Some m) /\
    HDFStoreReader.metadata m = Ok md /\
    meta_get "input_path" md = Some (MStr "monitor.txt") /\
    meta_get "n_events" md = Some (MInt (cycle_ends monitor_log_modules)) /\
    0 < cycle_ends monitor_log_modules /\
    first_cycle_time monitor_log_modules = Some t0 /\
    meta_get "start_time" md = Some (MTime (t0 - MonitorWriter.hour)) /\
    meta_get "end_time" md = Some (MonitorWriter.time_meta (end_after None monitor_log_modules)) /\
    meta_get "n_modules" md = Some (MInt 32) /\
    meta_get "n_tmpix" md = Some (MInt 64).
Proof.
  split; [reflexivity|].
  split; [exact write_run_one_by_one|].
  split; [vm_compute; reflexivity|].
  split; [vm_compute; reflexivity|].
  apply (monitor_metadata_of_run disk_modules run_one_by_one "run_dl1.h5" "monitor.txt" 4
           monitor_log_modules one_by_one).
  - reflexivity.
  - discriminate.
  - discriminate.
  - exact write_run_one_by_one.
Defined.

(** The run without a monitor file, read back: no reader of a monitor
    table. *)
Lemma reader_finds_monitor_iff_written_with_one_witness :
  DL1Writer.write_run disk "run_dl1.h5" 4 None one_by_one = Ok run_plain /\
  DL1Reader.init run_plain "run_dl1.h5" = Ok (reader_plain, None) /\
  (exists r m,
     DL1Reader.init run_plain "run_dl1.h5" = Ok (r, m) /\
     HDFStoreReader.key r = "data" /\
     (m = None <-> @None string = None \/ None = Some "") /\
     (forall m', m = Some m' ->
        HDFStoreReader.key m' = "monitor" /\
        HDFStoreReader.store m' = HDFStoreReader.store r)) /\
  (forall p, read run_plain p = None -> DL1Reader.init run_plain p = Raise IOError).
Proof.
  split; [exact write_run_plain|].
  split; [exact reader_plain_init|].
  exact (reader_finds_monitor_iff_written_with_one disk run_plain "run_dl1.h5" 4 None
           one_by_one write_run_plain).
Defined.

Lemma get_monitor_column_needs_monitor_witness :
  DL1Writer.write_run disk "run_dl1.h5" 4 None one_by_one = Ok run_plain /\
  DL1Reader.init run_plain "run_dl1.h5" = Ok (reader_plain, None) /\
  DL1Reader.get_monitor_column (fun _ _ => Raise TypeError) (reader_plain, None)
    [0; 1; 32; 33] "TM_T_PRI"
  = Raise AttributeError.
Proof.
  split; [exact write_run_plain|].
  split; [exact reader_plain_init|].
  apply (get_monitor_column_needs_monitor (fun _ _ => Raise TypeError) disk run_plain
           "run_dl1.h5" 4 None one_by_one (reader_plain, None) [0; 1; 32; 33] "TM_T_PRI").
  - left. reflexivity.
  - exact write_run_plain.
  - exact reader_plain_init.
Defined.

(** With [select_column] refusing what is not a name, the column is not
    returned for the run with the monitor file either. *)
Lemma get_monitor_column_selects_twice_witness :
  DL1Reader.init run_one_by_one "run_dl1.h5" = Ok reader_one_by_one /\
  (forall (m : HDFStoreReader.t) (vs : list value),
     exists e, (fun _ _ => Raise TypeError) m vs = @Raise (list value) e) /\
  DL1Reader.get_monitor_column (fun _ _ => Raise TypeError) reader_one_by_one
    [0; 1; 32; 33] "TM_T_PRI"
  = Raise TypeError /\
  DL1Reader.get_monitor_column (fun _ _ => Raise TypeError) reader_one_by_one
    [0; 1; 32; 33] "TM_T_PRI"
  <> Ok [VFloat 25 0; VNaN; VNaN; VNaN].
Proof.
  split; [exact reader_one_by_one_init|].
  split; [intros m vs; exists TypeError; reflexivity|].
  split; [vm_compute; reflexivity|].
  apply (get_monitor_column_selects_twice (fun _ _ => Raise TypeError) reader_one_by_one
           [0; 1; 32; 33] "TM_T_PRI" [VFloat 25 0; VNaN; VNaN; VNaN]).
  intros m vs. exists TypeError. reflexivity.
Defined.

(** The data event at 5 s: the current monitor event stays the one at
    0 s, and the lookahead event is the one at 10 s. *)
Lemma data_event_is_bracketed_witness :
  let w := fst (fst match_5) in
  MonitorWriter.match_to_data_events disk w0 [] (event 0 (seconds 5)) = Ok match_5 /\
  MonitorWriter.eof w = false /\
  MonitorWriter.t_cpu_of (MonitorWriter.monitor_ev w) = Ok 0 /\
  MonitorWriter.t_cpu_of (MonitorWriter.next_monitor_ev w) = Ok (seconds 10) /\
  exists td,
    MonitorWriter.t_cpu_of (event 0 (seconds 5)) = Ok td /\
    (MonitorWriter.monitor_ev w = MonitorWriter.monitor_ev w0 \/
     exists tc, MonitorWriter.t_cpu_of (MonitorWriter.monitor_ev w) = Ok tc /\ tc < td) /\
    (MonitorWriter.eof w = false ->
     exists tn, MonitorWriter.t_cpu_of (MonitorWriter.next_monitor_ev w) = Ok tn /\ td <= tn).
Proof.
  cbv zeta.
  split; [exact match_5_eq|].
  split; [vm_compute; reflexivity|].
  split; [vm_compute; reflexivity|].
  split; [vm_compute; reflexivity|].
  exact (data_event_is_bracketed disk w0 (fst (fst match_5)) [] (snd (fst match_5))
           (event 0 (seconds 5)) (snd match_5) match_5_eq).
Defined.

(** After the data event at 35 s the file is exhausted and the empty
    event has been added; the data event at 45 s is given its index, 3,
    and nothing else changes. *)
Lemma writer_is_frozen_after_the_tail_witness :
  let w := fst (fst match_35) in
  let w' := fst (fst match_45) in
  MonitorWriter.eof w = true /\ MonitorWriter.aeof w = true /\
  MonitorWriter.match_to_data_events disk w (snd (fst match_35)) (event 1 (seconds 45))
  = Ok match_45 /\
  column_values "monitor_index" (snd match_45) = [VInt 96; VInt 97] /\
  snd (fst match_45) = snd (fst match_35) /\
  MonitorWriter.out w' = MonitorWriter.out w /\
  MonitorWriter.monitor_it w' = MonitorWriter.monitor_it w /\
  MonitorWriter.monitor_ev w' = MonitorWriter.monitor_ev w /\
  MonitorWriter.next_monitor_ev w' = MonitorWriter.next_monitor_ev w /\
  MonitorWriter.eof w' = true /\ MonitorWriter.aeof w' = true /\
  exists imon,
    MonitorWriter.imon_of (MonitorWriter.monitor_ev w) = Ok imon /\
    MonitorWriter.map_result (MonitorWriter.monitor_index imon)
      (column_values "pixel" (event 1 (seconds 45)))
    = Ok (column_values "monitor_index" (snd match_45)).
Proof.
  cbv zeta.
  split; [vm_compute; reflexivity|].
  split; [vm_compute; reflexivity|].
  split; [exact match_45_eq|].
  split; [vm_compute; reflexivity|].
  apply (writer_is_frozen_after_the_tail disk (fst (fst match_35)) (fst (fst match_45))
           (snd (fst match_35)) (snd (fst match_45)) (event 1 (seconds 45)) (snd match_45)).
  - vm_compute. reflexivity.
  - vm_compute. reflexivity.
  - exact match_45_eq.
Defined.

(** The data event at 35 s: of the four lines that were to be read, none
    is left. *)
Lemma monitor_file_is_read_once_forward_witness :
  let w := fst (fst match_35) in
  MonitorWriter.match_to_data_events disk w0 [] (event 0 (seconds 35)) = Ok match_35 /\
  MonitorWriter.lines_left disk (MonitorWriter.monitor_it w0) = 4%nat /\
  MonitorWriter.lines_left disk (MonitorWriter.monitor_it w) = 0%nat /\
  exists consumed,
    pending disk (MonitorWriter.monitor_it w0)
    = consumed ++ pending disk (MonitorWriter.monitor_it w) /\
    (MonitorWriter.lines_left disk (MonitorWriter.monitor_it w)
     <= MonitorWriter.lines_left disk (MonitorWriter.monitor_it w0))%nat.
Proof.
  cbv zeta.
  split; [exact match_35_eq|].
  split; [vm_compute; reflexivity|].
  split; [vm_compute; reflexivity|].
  exact (monitor_file_is_read_once_forward disk w0 (fst (fst match_35)) []
           (snd (fst match_35)) (event 0 (seconds 35)) (snd match_35) match_35_eq).
Defined.

(** The data event at 5 s, of the pixels 0 and 70: the indices are 0 and
    1, the modules 0 and 1 of the cycle 0. *)
Lemma stamping_adds_one_column_witness :
  let w := fst (fst match_5) in
  let ev := event 0 (seconds 5) in
  let ev' := snd match_5 in
  MonitorWriter.match_to_data_events disk w0 [] ev = Ok match_5 /\
  column_values "monitor_index" ev' = [VInt 0; VInt 1] /\
  columns ev' = add_column "monitor_index" (columns ev) /\
  labels ev' = labels ev /\
  (forall c, c <> "monitor_index" -> column_values c ev' = column_values c ev) /\
  exists imon,
    MonitorWriter.imon_of (MonitorWriter.monitor_ev w) = Ok imon /\
    Forall2 (fun pixel index =>
               match pixel with
               | VInt p =>
                   exists i, index = VInt i /\ i = imon * 32 + p / 64 /\
                             (0 <= p < 2048 -> i / 32 = imon /\ i mod 32 = p / 64)
               | _ => index = VNaN
               end)
            (column_values "pixel" ev) (column_values "monitor_index" ev').
Proof.
  cbv zeta.
  split; [exact match_5_eq|].
  split; [vm_compute; reflexivity|].
  exact (stamping_adds_one_column disk w0 (fst (fst match_5)) [] (snd (fst match_5))
           (event 0 (seconds 5)) (snd match_5) match_5_eq).
Defined.



(** The line of the temperature 27 of the device 40: the frame has the
    labels 0 to 31, and a row is added under the label 40. *)
Lemma sample_line_sets_one_cell_witness :
  let line := nl "1970-01-01 01:00:20:000000 TM T_SIPM 40 27" in
  let l := MonitorWriter.initial_locals in
  find_label 40 (rows (MonitorWriter.l_df l)) = None /\
  nrows (MonitorWriter.l_df l) = 32 /\
  exists l',
    MonitorWriter.handle_line l line = MonitorWriter.LNext l' /\
    nrows (MonitorWriter.l_df l') = 33 /\
    MonitorWriter.l_imon l' = MonitorWriter.l_imon l /\
    loc 40 "TM_T_SIPM" (MonitorWriter.l_df l') = Ok (VFloat 27 0) /\
    (forall i, i <> 40 ->
       find_label i (rows (MonitorWriter.l_df l'))
       = find_label i (rows (MonitorWriter.l_df l))) /\
    (forall c r r', c <> "TM_T_SIPM" ->
       find_label 40 (rows (MonitorWriter.l_df l)) = Some r ->
       find_label 40 (rows (MonitorWriter.l_df l')) = Some r' ->
       get_cell c r' = get_cell c r) /\
    labels (MonitorWriter.l_df l')
    = match find_label 40 (rows (MonitorWriter.l_df l)) with
      | Some _ => labels (MonitorWriter.l_df l)
      | None => labels (MonitorWriter.l_df l) ++ [40]
      end.
Proof.
  cbv zeta.
  split; [vm_compute; reflexivity|].
  split; [vm_compute; reflexivity|].
  destruct (sample_line_sets_one_cell MonitorWriter.initial_locals
              (nl "1970-01-01 01:00:20:000000 TM T_SIPM 40 27")
              "1970-01-01" "01:00:20:000000" "TM" "T_SIPM" "40" "27" []
              (seconds 3620) 40 (VFloat 27 0))
    as (l' & Hline & Himon & Hloc & Hother & Hrow & Hlabels).
  - discriminate.
  - vm_compute. reflexivity.
  - vm_compute. reflexivity.
  - vm_compute. reflexivity.
  - vm_compute. reflexivity.
  - vm_compute. reflexivity.
  - vm_compute. reflexivity.
  - exists l'. split; [exact Hline|].
    split.
    { assert (Hl : List.length (labels (MonitorWriter.l_df l')) = 33%nat)
        by (rewrite Hlabels; vm_compute; reflexivity).
      unfold nrows. unfold labels in Hl. rewrite length_map in Hl. rewrite Hl. reflexivity. }
    split; [exact Himon|]. split; [exact Hloc|]. split; [exact Hother|].
    split; [exact Hrow | exact Hlabels].
Defined.

(** The four rows of the run without a monitor file, read by 3: a chunk
    of 3 rows and one of 1. *)
Lemma chunks_cover_the_table_witness :
  HDFStoreReader.iterate_over_chunks reader_plain (Some 3) = Ok chunks_by_3 /\
  map nrows chunks_by_3 = [3; 1] /\
  exists df,
    HDFStoreReader.getitem reader_plain = Ok df /\
    all_rows chunks_by_3 = rows df /\
    Forall (fun c => columns c = columns df /\ 0 < nrows c <= 3) chunks_by_3 /\
    Forall (fun c => nrows c = 3) (removelast chunks_by_3).
Proof.
  split; [exact chunks_by_3_eq|].
  split; [vm_compute; reflexivity|].
  apply (chunks_cover_the_table reader_plain 3 chunks_by_3).
  - lia.
  - exact chunks_by_3_eq.
Defined.

Lemma rows_are_iterated_one_by_one_witness :
  HDFStoreReader.iterate_over_rows reader_plain = Ok rows_of_plain /\
  map nrows rows_of_plain = [1; 1; 1; 1] /\
  exists df,
    HDFStoreReader.getitem reader_plain = Ok df /\
    map rows rows_of_plain = map (fun x => [x]) (rows df) /\
    Forall (fun c => columns c = columns df) rows_of_plain /\
    HDFStoreReader.n_rows reader_plain = Ok (Z.of_nat (List.length rows_of_plain)).
Proof.
  split; [exact rows_of_plain_eq|].
  split; [vm_compute; reflexivity|].
  exact (rows_are_iterated_one_by_one reader_plain rows_of_plain rows_of_plain_eq).
Defined.

(** The file of the writer that was given [n_pixels = 2] is read by
    events of 2 rows; that of the run of the examples, whose writer was
    given nothing, is not read by events. *)
Lemma event_iteration_uses_n_pixels_witness :
  DL1Writer.finish plain_disk writer_with_pixels = Ok file_with_pixels /\
  DL1Reader.init file_with_pixels "run_dl1.h5" = Ok (reader_with_pixels, None) /\
  meta_get "n_pixels" (DL1Writer.metadata writer_with_pixels) = Some (MInt 2) /\
  HDFStoreReader.iterate_over_events reader_with_pixels = Ok events_by_2 /\
  map nrows events_by_2 = [2; 2] /\
  HDFStoreReader.iterate_over_events reader_plain = Raise KeyError /\
  (meta_get "n_pixels" (DL1Writer.metadata writer_with_pixels) = None ->
   HDFStoreReader.iterate_over_events reader_with_pixels = Raise KeyError) /\
  (forall n, meta_get "n_pixels" (DL1Writer.metadata writer_with_pixels) = Some (MInt n) ->
     0 < n ->
     exists chunks df,
       HDFStoreReader.iterate_over_events reader_with_pixels = Ok chunks /\
       HDFStoreReader.getitem reader_with_pixels = Ok df /\
       nrows df = appended writer_with_pixels /\
       all_rows chunks = rows df /\
       Forall (fun c => 0 < nrows c <= n) chunks /\
       Forall (fun c => nrows c = n) (removelast chunks)).
Proof.
  split; [exact file_with_pixels_eq|].
  split; [exact reader_with_pixels_init|].
  split; [vm_compute; reflexivity|].
  split; [vm_compute; reflexivity|].
  split; [vm_compute; reflexivity|].
  split; [vm_compute; reflexivity|].
  exact (event_iteration_uses_n_pixels plain_disk file_with_pixels writer_with_pixels
           reader_with_pixels None file_with_pixels_eq reader_with_pixels_init).
Defined.

(** The monitor table of the run of the examples has the three cycles of
    the file: read by events it comes in three chunks of 32 rows. *)
Lemma monitor_events_are_read_by_32_witness :
  DL1Writer.write_run disk_modules "run_dl1.h5" 4 (Some "monitor.txt") one_by_one
  = Ok run_one_by_one /\
  option_map (fun m => option_map (map nrows)
                         (match MonitorReader.iterate_over_events m with
                          | Ok chunks => Some chunks
                          | Raise _ => None
                          end))
             (snd reader_one_by_one)
  = Some (Some [32; 32; 32]) /\
  exists r m chunks df,
    DL1Reader.init run_one_by_one "run_dl1.h5" = Ok (r, Some m) /\
    MonitorReader.iterate_over_events m = Ok chunks /\
    HDFStoreReader.getitem m = Ok df /\
    all_rows chunks = rows df /\
    Forall (fun c => 0 < nrows c <= 32) chunks /\
    Forall (fun c => nrows c = 32) (removelast chunks).
Proof.
  split; [exact write_run_one_by_one|].
  split; [vm_compute; reflexivity|].
  apply (monitor_events_are_read_by_32 disk_modules run_one_by_one "run_dl1.h5"
           "monitor.txt" 4 monitor_log_modules one_by_one).
  - reflexivity.
  - discriminate.
  - discriminate.
  - exact write_run_one_by_one.
Defined.

Lemma prepared_one_by_one_eq : DL1Writer.prepare one_by_one = Ok prepared_one_by_one.
Proof. vm_compute. reflexivity. Qed.

(** The writer that was given [n_bytes] and the two events of the
    examples, which can be written. *)
Lemma finish_rejects_n_bytes_metadata_witness :
  DL1Writer.monitor writer_with_n_bytes = None /\
  DL1Writer.df_list writer_with_n_bytes = one_by_one /\
  DL1Writer.prepare (DL1Writer.df_list writer_with_n_bytes) = Ok prepared_one_by_one /\
  meta_get "n_bytes" (DL1Writer.metadata writer_with_n_bytes) = Some (MInt 1) /\
  DL1Writer.finish plain_disk writer_with_n_bytes = Raise TypeError /\
  (DL1Writer.df_list writer_with_n_bytes = [] \/
   (exists d, DL1Writer.prepare (DL1Writer.df_list writer_with_n_bytes) = Ok d) ->
   DL1Writer.finish plain_disk writer_with_n_bytes = Raise TypeError) /\
  (forall e, DL1Writer.df_list writer_with_n_bytes <> [] ->
             DL1Writer.prepare (DL1Writer.df_list writer_with_n_bytes) = Raise e ->
             DL1Writer.finish plain_disk writer_with_n_bytes = Raise e).
Proof.
  split; [reflexivity|].
  split; [reflexivity|].
  split; [exact prepared_one_by_one_eq|].
  split; [reflexivity|].
  split; [vm_compute; reflexivity|].
  apply (finish_rejects_n_bytes_metadata plain_disk writer_with_n_bytes (MInt 1)).
  - reflexivity.
  - reflexivity.
Defined.

(** The event at 5 s, of 208 bytes, is kept in the buffer. *)
Lemma buffer_is_written_at_half_a_gigabyte_witness :
  let w := plain_writer in
  let w' := plain_writer_1 in
  let ev := event 0 (seconds 5) in
  DL1Writer.append_event plain_disk w ev = Ok w' /\
  memory_usage ev = 208 /\
  DL1Writer.df_list_n_bytes w' < 500000000 /\
  (DL1Writer.df_list_n_bytes w + memory_usage ev < 500000000 ->
   DL1Writer.df_list_n_bytes w' = DL1Writer.df_list_n_bytes w + memory_usage ev /\
   DL1Writer.n_bytes w' = DL1Writer.n_bytes w /\
   table_rows "data" (DL1Writer.store w') = table_rows "data" (DL1Writer.store w) /\
   total_rows (DL1Writer.df_list w') = total_rows (DL1Writer.df_list w) + nrows ev) /\
  (500000000 <= DL1Writer.df_list_n_bytes w + memory_usage ev ->
   DL1Writer.df_list w' = [] /\ DL1Writer.df_list_n_bytes w' = 0 /\
   table_rows "data" (DL1Writer.store w')
   = table_rows "data" (DL1Writer.store w) + total_rows (DL1Writer.df_list w) + nrows ev).
Proof.
  cbv zeta.
  split; [exact plain_writer_1_eq|].
  split; [vm_compute; reflexivity|].
  exact (buffer_is_written_at_half_a_gigabyte plain_disk plain_writer plain_writer_1
           (event 0 (seconds 5)) plain_writer_1_eq).
Defined.

(** The two events given the later one first are written in the order of
    [iev]. *)
Lemma written_frame_is_sorted_witness :
  DL1Writer.prepare late_first = Ok prepared_late /\
  column_values "iev" (pd_concat late_first) = [VInt 1; VInt 1; VInt 0; VInt 0] /\
  column_values "iev" prepared_late = [VInt 0; VInt 0; VInt 1; VInt 1] /\
  column_values "pixel" prepared_late = [VInt 0; VInt 70; VInt 0; VInt 70] /\
  nrows prepared_late = total_rows late_first /\
  Forall (fun ir => exists iev pixel,
            get_cell "iev" (snd ir) = VInt iev /\ get_cell "pixel" (snd ir) = VInt pixel)
         (rows prepared_late) /\
  Sorted iev_pixel_le (rows prepared_late).
Proof.
  split; [exact prepared_late_eq|].
  split; [vm_compute; reflexivity|].
  split; [vm_compute; reflexivity|].
  split; [vm_compute; reflexivity|].
  exact (written_frame_is_sorted late_first prepared_late prepared_late_eq).
Defined.

(** Two columns of the table of the run without a monitor file. *)
Lemma select_columns_gives_each_column_witness :
  HDFStoreReader.select_columns reader_plain ["pixel"; "iev"]
  = Ok [[VInt 0; VInt 70; VInt 0; VInt 70]; [VInt 0; VInt 0; VInt 1; VInt 1]] /\
  HDFStoreReader.select_column reader_plain "tr" = Raise KeyError /\
  Forall2 (fun c v => HDFStoreReader.select_column reader_plain c = Ok v /\
                      HDFStoreReader.n_rows reader_plain = Ok (Z.of_nat (List.length v)))
          ["pixel"; "iev"]
          [[VInt 0; VInt 70; VInt 0; VInt 70]; [VInt 0; VInt 0; VInt 1; VInt 1]] /\
  exists e, HDFStoreReader.select_columns reader_plain ["pixel"; "tr"] = Raise e.
Proof.
  assert (H : HDFStoreReader.select_columns reader_plain ["pixel"; "iev"]
              = Ok [[VInt 0; VInt 70; VInt 0; VInt 70]; [VInt 0; VInt 0; VInt 1; VInt 1]])
    by (vm_compute; reflexivity).
  assert (Hk : HDFStoreReader.select_column reader_plain "tr" = Raise KeyError)
    by (vm_compute; reflexivity).
  split; [exact H|]. split; [exact Hk|].
  split.
  - exact (proj1 (select_columns_gives_each_column reader_plain ["pixel"; "iev"]) _ H).
  - apply (proj2 (select_columns_gives_each_column reader_plain ["pixel"; "tr"])
             "tr" KeyError).
    + right. left. reflexivity.
    + exact Hk.
Defined.

(** The writer that was given [n_pixels] refuses it a second time, and
    takes [n_samples]. *)
Lemma metadata_keys_are_set_once_witness :
  DL1Writer.add_metadata [("n_pixels", MInt 2048)] writer_with_pixels = Raise TypeError /\
  (exists w', DL1Writer.add_metadata [("n_samples", MInt 128)] writer_with_pixels = Ok w' /\
              DL1Writer.metadata w' = [("n_pixels", MInt 2); ("n_samples", MInt 128)]) /\
  (DL1Writer.add_metadata [("n_pixels", MInt 2048)] writer_with_pixels = Raise TypeError <->
   exists k v, In (k, v) [("n_pixels", MInt 2048)] /\
               meta_get k (DL1Writer.metadata writer_with_pixels) <> None).
Proof.
  split; [vm_compute; reflexivity|].
  split; [eexists; split; vm_compute; reflexivity|].
  exact (proj1 (metadata_keys_are_set_once [("n_pixels", MInt 2048)] writer_with_pixels)).
Defined.

(** The table of the run with the monitor file has the column, that of
    the run without it has not. *)
Lemma monitor_index_is_written_iff_monitored_witness :
  DL1Writer.write_run disk_modules "run_dl1.h5" 4 (Some "monitor.txt") one_by_one
  = Ok run_one_by_one /\
  option_map (fun df => mem_string "monitor_index" (columns df))
             (data_table run_one_by_one "run_dl1.h5") = Some true /\
  option_map (fun df => mem_string "monitor_index" (columns df))
             (data_table run_plain "run_dl1.h5") = Some false /\
  exists df,
    data_table run_one_by_one "run_dl1.h5" = Some df /\
    (forall mp, Some "monitor.txt" = Some mp -> mp <> "" ->
       mem_string "monitor_index" (columns df) = true) /\
    (Some "monitor.txt" = None \/ Some "monitor.txt" = Some "" ->
     Forall (fun ev => mem_string "monitor_index" (columns ev) = false) one_by_one ->
     mem_string "monitor_index" (columns df) = false).
Proof.
  split; [exact write_run_one_by_one|].
  split; [vm_compute; reflexivity|].
  split; [vm_compute; reflexivity|].
  exact (monitor_index_is_written_iff_monitored disk_modules run_one_by_one "run_dl1.h5" 4
           (Some "monitor.txt") one_by_one write_run_one_by_one).
Defined.

Lemma monitor_buffer_1_eq :
  MonitorWriter.append_monitor_event MonitorWriter.empty_df (MonitorWriter.out no_writer) []
  = Ok monitor_buffer_1.
Proof. vm_compute. reflexivity. Qed.

(** An empty event, of 1920 bytes, is kept in the buffer. *)
Lemma monitor_buffer_is_written_at_half_a_gigabyte_witness :
  let o := MonitorWriter.out no_writer in
  let o' := fst monitor_buffer_1 in
  let s' := snd monitor_buffer_1 in
  let df := MonitorWriter.empty_df in
  MonitorWriter.append_monitor_event df o [] = Ok monitor_buffer_1 /\
  memory_usage df = 1920 /\
  MonitorWriter.df_list_n_bytes o' < 500000000 /\
  MonitorWriter.metadata o' = MonitorWriter.metadata o /\
  (MonitorWriter.df_list_n_bytes o + memory_usage df < 500000000 ->
   s' = [] /\ MonitorWriter.df_list o' = MonitorWriter.df_list o ++ [df] /\
   MonitorWriter.n_bytes o' = MonitorWriter.n_bytes o /\
   MonitorWriter.df_list_n_bytes o' = MonitorWriter.df_list_n_bytes o + memory_usage df) /\
  (500000000 <= MonitorWriter.df_list_n_bytes o + memory_usage df ->
   MonitorWriter.df_list o' = [] /\ MonitorWriter.df_list_n_bytes o' = 0 /\
   table_rows "monitor" s'
   = table_rows "monitor" [] + total_rows (MonitorWriter.df_list o) + nrows df /\
   get_storer "data" s' = get_storer "data" []).
Proof.
  cbv zeta.
  split; [exact monitor_buffer_1_eq|].
  split; [vm_compute; reflexivity|].
  exact (monitor_buffer_is_written_at_half_a_gigabyte MonitorWriter.empty_df
           (MonitorWriter.out no_writer) (fst monitor_buffer_1) [] (snd monitor_buffer_1)
           monitor_buffer_1_eq).
Defined.

(** The run of the examples without a monitor file: the frame of four
    rows and 18 columns, of 704 bytes, is read back. *)
Lemma read_back_what_was_written_once_witness :
  stays_below 0 one_by_one = true /\
  DL1Writer.prepare one_by_one = Ok prepared_one_by_one /\
  DL1Writer.write_run disk "run_dl1.h5" 4 None one_by_one = Ok run_plain /\
  memory_usage prepared_one_by_one = 704 /\
  exists r,
    DL1Reader.init run_plain "run_dl1.h5" = Ok (r, None) /\
    HDFStoreReader.getitem r = Ok prepared_one_by_one /\
    HDFStoreReader.n_bytes r = Ok (MInt (memory_usage prepared_one_by_one)) /\
    HDFStoreReader.metadata r = Ok [("n_bytes", MInt (memory_usage prepared_one_by_one))].
Proof.
  split; [vm_compute; reflexivity|].
  split; [exact prepared_one_by_one_eq|].
  split; [exact write_run_plain|].
  split; [vm_compute; reflexivity|].
  apply (read_back_what_was_written_once disk run_plain "run_dl1.h5" 4 one_by_one
           prepared_one_by_one).
  - discriminate.
  - vm_compute. reflexivity.
  - exact prepared_one_by_one_eq.
  - exact write_run_plain.
Defined.

(** A waveform file of 5 events read with [max_events] 0, 3, 9 and -1,
    and the readers of the two kinds of file. *)
Lemma reader_examples :
  option_map (fun r => (Reader.n_events r, Reader.n_tmpix r, Reader.is_r1 r,
                        map Reader.index (Reader.iter r)))
             (match tio_reader "run_r1.tio" (Some 0) with inl r => Some r | inr _ => None end)
  = Some (5, 64, true, [Some 0; Some 1; Some 2; Some 3; Some 4]) /\
  option_map (fun r => map Reader.samples (Reader.iter r))
             (match tio_reader "run_r1.tio" (Some 3) with inl r => Some r | inr _ => None end)
  = Some [[0]; [1]; [2]] /\
  option_map Reader.n_events
             (match tio_reader "run_r1.tio" (Some 9) with inl r => Some r | inr _ => None end)
  = Some 5 /\
  option_map (fun r => (Reader.n_events r, Reader.iter r))
             (match tio_reader "run_r0.tio" (Some (-1)) with inl r => Some r | inr _ => None end)
  = Some (-1, []) /\
  Reader.init_R1 tio_open (fun _ => []) (fun _ _ _ => []) 32 "run_r0.tio" None
  = inr Reader.IOError /\
  Reader.init_R0 tio_open (fun _ => []) (fun _ _ _ => []) 32 "run_r1.tio" None
  = inr Reader.IOError.
Proof. repeat split; vm_compute; reflexivity. Qed.

(** The third event that iterating over the file gives is the one that
    indexing it at 2 gives. *)
Lemma iteration_agrees_with_indexing_witness :
  exists r r',
    tio_reader "run_r1.tio" None = inl r /\
    nth_error (Reader.iter r) 2 = Some r' /\
    Reader.samples r' = [2] /\
    2 < Reader.n_events r /\
    Reader.index r' = Some 2 /\
    Reader.samples r' = snd (Reader.getitem r 2) /\
    Reader.first_cell_ids r' = Reader.first_cell_ids (fst (Reader.getitem r 2)) /\
    Reader.n_events r' = Reader.n_events r.
Proof.
  destruct (tio_reader "run_r1.tio" None) as [r|e] eqn:E; [|vm_compute in E; discriminate].
  destruct (nth_error (Reader.iter r) 2) as [r'|] eqn:E';
    [|vm_compute in E; inversion E; subst; vm_compute in E'; discriminate].
  exists r, r'. split; [reflexivity|]. split; [exact E'|].
  split; [vm_compute in E; inversion E; subst; vm_compute in E'; inversion E'; reflexivity|].
  exact (proj2 (iteration_agrees_with_indexing (list Z) (list Z) r) 2%nat r' E').
Defined.

Lemma run_two_cycles_eq :
  DL1Writer.write_run disk_two_cycles "run_dl1.h5" 4 (Some "monitor.txt") events_5_35
  = Ok run_two_cycles.
Proof. vm_compute. reflexivity. Qed.

Lemma two_cycles_in_range : Forall (fun line => device_in_range line = true) two_cycles.
Proof.
  unfold two_cycles.
  repeat (apply Forall_cons; [vm_compute; reflexivity|]). apply Forall_nil.
Qed.

Lemma three_blocks_of_two_cycles :
  option_map nrows (monitor_table run_two_cycles "run_dl1.h5") = Some 96.
Proof. vm_compute. reflexivity. Qed.

(** The run on the file of two cycles, with a data event at 35 s: the
    monitor table has three blocks of 32 rows, the last one being the
    empty event. *)
Lemma monitor_table_is_aligned_witness :
  read disk_two_cycles "monitor.txt" = Some (Text two_cycles) /\
  cycle_ends two_cycles = 2 /\
  option_map nrows (monitor_table run_two_cycles "run_dl1.h5") = Some 96 /\
  exists (count : nat) (df : DataFrame),
    monitor_table run_two_cycles "run_dl1.h5" = Some df /\
    column_values "imon" df = cycle_column uint32 0 count /\
    column_values "module" df = module_column 0 count /\
    cycle_ends two_cycles <= Z.of_nat count <= cycle_ends two_cycles + 1.
Proof.
  split; [reflexivity|].
  split; [vm_compute; reflexivity|].
  split; [exact three_blocks_of_two_cycles|].
  apply (monitor_table_is_aligned disk_two_cycles run_two_cycles "run_dl1.h5" "monitor.txt" 4
           two_cycles events_5_35).
  - reflexivity.
  - discriminate.
  - discriminate.
  - exact two_cycles_in_range.
  - exact run_two_cycles_eq.
Defined.

(** The monitor file of the first examples gives a sample for the device
    40, which is no module. *)
Lemma monitor_log_has_a_device_that_is_no_module :
  Forall (fun line => device_in_range line = true) monitor_log -> False.
Proof.
  intros H. unfold monitor_log in H.
  do 4 apply Forall_inv_tail in H. apply Forall_inv in H. vm_compute in H. discriminate.
Qed.

(** A run on that file: the row added for the device 40 has no module,
    and the cast of the monitor events raises when [finish] writes
    them. *)
Lemma cast_of_a_missing_module_raises :
  DL1Writer.write_run disk "run_dl1.h5" 4 (Some "monitor.txt") one_by_one = Raise ValueError.
Proof. vm_compute. reflexivity. Qed.
